(** * HTAS control plane: Task Packer, Autoscaler, Resource Profiler and
      Instance Cleaner, embedded from the Python sources.

    Python numbers are modelled through the interface [PyNum]; it has an
    exact instance on [Q] and an IEEE binary64 instance on primitive
    floats (what CPython's [float] is). Kubernetes objects are records
    holding the attributes the code reads; JSON dictionaries read with
    [.get] have optional fields. *)

From Stdlib Require Import ZArith QArith Qround Floats Ascii String.
From Stdlib Require Import Sorted Permutation Lqa.
From stdpp Require Import base option list strings gmap pretty.

Set Warnings "-inexact-float".
Local Open Scope Z_scope.

(** ** Python values shared by the four programs *)

(** Exceptions the embedded code can raise. *)
Inductive exn : Type :=
  | ZeroDivisionError
  | KeyError
  | IndexError
  | NameError
  | ValueError
  | TypeError
  | ApiException
  | CalledProcessError.

(** Outcome of a computation: a value, a raised exception, or a loop that
    did not finish within the fuel it was given. *)
Inductive res (A : Type) : Type :=
  | Done (a : A)
  | Raised (e : exn)
  | OutOfFuel.
Arguments Done {A} a.
Arguments Raised {A} e.
Arguments OutOfFuel {A}.

Definition res_bind {A B} (r : res A) (k : A -> res B) : res B :=
  match r with
  | Done a => k a
  | Raised e => Raised e
  | OutOfFuel => OutOfFuel
  end.

Notation "x <-- r ;; k" := (res_bind r (fun x => k))
  (at level 100, r at next level, right associativity).

(** The arithmetic the sources use on resource quantities. *)
Class PyNum (F : Type) : Type := {
  of_int : Z -> F;
  fadd : F -> F -> F;
  fsub : F -> F -> F;
  fmul : F -> F -> F;
  fdiv : F -> F -> F;
  fzero : F -> bool;
  flt : F -> F -> bool;
  fle : F -> F -> bool;
  to_int : F -> option Z;
}.

Declare Scope py_scope.
Delimit Scope py_scope with py.
Infix "+" := fadd : py_scope.
Infix "-" := fsub : py_scope.
Infix "*" := fmul : py_scope.
Infix "<?" := flt : py_scope.
Infix "<=?" := fle : py_scope.
Notation "a >? b" := (flt b a) (only parsing) : py_scope.
Notation "a >=? b" := (fle b a) (only parsing) : py_scope.

(** A decimal literal [num / den] of the source, such as [0.0686]: the
    quotient of two exactly representable integers rounds to the same
    double as the literal does. *)
Definition lit {F} `{PyNum F} (num den : Z) : F :=
  fdiv (of_int num) (of_int den).

(** [a / b]: true division, raising on a zero divisor. *)
Definition py_div {F} `{PyNum F} (a b : F) : res F :=
  if fzero b then Raised ZeroDivisionError else Done (fdiv a b).

(** [min(a, b)]: the first argument unless the second is smaller. *)
Definition py_min {F} `{PyNum F} (a b : F) : F :=
  if (b <? a)%py then b else a.

(** [sum(xs)], which starts from the integer 0. *)
Definition py_sum {F} `{PyNum F} (xs : list F) : F :=
  fold_left fadd xs (of_int 0).

(** The order laws of numbers that are not NaN. *)
Class PyNumOrder (F : Type) `{PyNum F} : Prop := {
  flt_fle : forall a b : F, (a <? b)%py = negb (b <=? a)%py;
  fle_trans : forall a b c : F,
    (a <=? b)%py = true -> (b <=? c)%py = true -> (a <=? c)%py = true;
  fle_total : forall a b : F, (a <=? b)%py = true \/ (b <=? a)%py = true;
}.

(** Exact rationals. [int(x)] truncates toward zero. *)
#[export] Instance Q_PyNum : PyNum Q := {|
  of_int := inject_Z;
  fadd := Qplus;
  fsub := Qminus;
  fmul := Qmult;
  fdiv := Qdiv;
  fzero := fun q => Z.eqb (Qnum q) 0;
  flt := fun a b => negb (Qle_bool b a);
  fle := Qle_bool;
  to_int := fun q => Some (Z.quot (Qnum q) (Zpos (Qden q)));
|}.

(** IEEE binary64. [int(x)] raises on infinities and NaN. *)
Definition float_to_int (x : float) : option Z :=
  match Prim2SF x with
  | S754_zero _ => Some 0
  | S754_finite s m e =>
      let v := if 0 <=? e then Zpos m * 2 ^ e else Zpos m / 2 ^ (- e) in
      Some (if s then - v else v)
  | _ => None
  end.

#[export] Instance float_PyNum : PyNum float := {|
  of_int := fun z => SF2Prim (binary_normalize prec emax z 0 false);
  fadd := PrimFloat.add;
  fsub := PrimFloat.sub;
  fmul := PrimFloat.mul;
  fdiv := PrimFloat.div;
  fzero := fun x => PrimFloat.eqb x 0%float;
  flt := PrimFloat.ltb;
  fle := PrimFloat.leb;
  to_int := float_to_int;
|}.

(** ** Python strings (ASCII) *)

(** [s.endswith(suffix)] *)
Definition endswith (s suffix : string) : bool :=
  let n := String.length s in
  let m := String.length suffix in
  (m <=? n)%nat && String.eqb (substring (n - m) m s) suffix.

(** [s[:-k]] for a positive literal [k] *)
Definition drop_last (k : nat) (s : string) : string :=
  substring 0 (String.length s - k) s.

Definition lower_ascii (c : ascii) : ascii :=
  let n := N_of_ascii c in
  if ((65 <=? n) && (n <=? 90))%N then ascii_of_N (n + 32) else c.

(** [s.lower()] *)
Fixpoint lower (s : string) : string :=
  match s with
  | EmptyString => EmptyString
  | String c s' => String (lower_ascii c) (lower s')
  end.

(** [pat in s] *)
Fixpoint contains (pat s : string) : bool :=
  match s with
  | EmptyString => String.prefix pat EmptyString
  | String _ s' => String.prefix pat s || contains pat s'
  end.

(** [s.replace(old, "")] for a non-empty [old]: occurrences are removed
    left to right without overlap; [skip] counts the characters of the
    occurrence being removed. *)
Fixpoint remove_go (old : string) (skip : nat) (s : string) : string :=
  match s with
  | EmptyString => EmptyString
  | String c s' =>
      match skip with
      | S k => remove_go old k s'
      | O =>
          if String.prefix old s
          then remove_go old (String.length old - 1) s'
          else String c (remove_go old 0 s')
      end
  end.

Definition remove_all (old s : string) : string := remove_go old 0 s.

(** Truth value of a string-or-None, as in [if node_name:]. *)
Definition truthy (o : option string) : bool :=
  match o with
  | Some s => negb (String.eqb s "")
  | None => false
  end.

(** ** [list.sort(key=...)] and [sorted(...)]

    Python's sort is stable and compares keys with [<] only. The model is
    the stable insertion sort: an element goes behind the elements whose
    key is smaller and in front of all others. *)
Definition sort_insert {A K} (lt : K -> K -> bool) (key : A -> K) (x : A)
  : list A -> list A :=
  fix go (l : list A) : list A :=
    match l with
    | [] => [x]
    | y :: l' => if lt (key y) (key x) then y :: go l' else x :: y :: l'
    end.

Definition py_sort {A K} (lt : K -> K -> bool) (key : A -> K) (l : list A)
  : list A :=
  foldr (sort_insert lt key) [] l.

(** [sorted(xs)] and [sorted(xs, reverse=True)] on integers. *)
Definition sorted (xs : list Z) : list Z := py_sort Z.ltb id xs.
Definition sorted_reverse (xs : list Z) : list Z :=
  py_sort (fun a b => Z.ltb b a) id xs.

(** ** NodeProfile and pods as the Packer and the Autoscaler read them *)

(** The [spec] dictionary of a NodeProfile. *)
Record node_spec (F : Type) : Type := NodeSpec {
  instanceName : option string;
  instanceType : option string;
  cpuCapacity : option F;
  memoryCapacity : option F;
  cpuAvailable : option F;
  memoryAvailable : option F;
  runtime : option Z;
}.
Arguments NodeSpec {F}.
Arguments instanceName {F}.
Arguments instanceType {F}.
Arguments cpuCapacity {F}.
Arguments memoryCapacity {F}.
Arguments cpuAvailable {F}.
Arguments memoryAvailable {F}.
Arguments runtime {F}.

(** A NodeProfile custom object: [np.get("spec", {})]. *)
Record node_profile (F : Type) : Type := NodeProfile {
  np_spec : option (node_spec F);
}.
Arguments NodeProfile {F}.
Arguments np_spec {F}.

Definition empty_spec {F} : node_spec F :=
  NodeSpec None None None None None None None.

Inductive phase : Type := Pending | Running | Succeeded | Failed | Unknown.

Definition phase_eqb (a b : phase) : bool :=
  match a, b with
  | Pending, Pending | Running, Running | Succeeded, Succeeded
  | Failed, Failed | Unknown, Unknown => true
  | _, _ => false
  end.

(** [container.resources] may be [None]; so may [resources.requests]. *)
Record container : Type := Container {
  c_name : string;
  c_resources : option (option (gmap string string));
}.

Record pod : Type := Pod {
  pod_name : string;
  pod_namespace : string;
  pod_labels : option (gmap string string);
  pod_annotations : option (gmap string string);
  scheduler_name : option string;
  node_name : option string;
  restart_policy : option string;
  containers : list container;
  pod_phase : phase;
}.

(** The [spec] of an AutoScaleRequest, whose fields the Autoscaler reads
    with [.get]. *)
Record request_spec : Type := RequestSpec {
  workloadType : option string;
  podNames : option (list string);
}.

(** An AutoScaleRequest custom object: [metadata.name] and [spec]; an
    object made by hand may lack the latter. *)
Record autoscale_request : Type := CustomObject {
  asr_name : string;
  asr_spec : option request_spec;
}.

(** The object [trigger_autoscaling] builds, which has a [spec]. *)
Definition AutoScaleRequest (name : string) (workload_type : option string)
    (pod_names : option (list string)) : autoscale_request :=
  CustomObject name (Some (RequestSpec workload_type pod_names)).

(** [d.get(k, default)] *)
Definition dict_get {V} (d : gmap string V) (k : string) (default : V) : V :=
  match d !! k with
  | Some v => v
  | None => default
  end.

(** ** task_packer.py *)
Module TaskPacker.
Section Packer.
Context {F : Type} `{PyNum F}.

(** The builtins [float(s)] and [int(s)] on strings; [None] stands for
    [ValueError]. *)
Variable py_float : string -> option F.
Variable py_int : string -> option Z.

(** [get_pending_pods()]: the server lists namespace [default] under the
    field selector [status.phase=Pending], the comprehension keeps the
    pods of the custom scheduler. *)
Definition get_pending_pods (pods : list pod) : list pod :=
  List.filter
    (fun p => match scheduler_name p with
              | Some s => String.eqb s "htas-scheduler"
              | None => false
              end)
    (List.filter
       (fun p => String.eqb (pod_namespace p) "default"
                 && phase_eqb (pod_phase p) Pending)
       pods).

(** [get_pod_runtime(pod)] *)
Definition get_pod_runtime (p : pod) : Z :=
  match pod_annotations p with
  | None => 300
  | Some annotations =>
      match py_int (dict_get annotations "runtime" "300") with
      | Some n => n
      | None => 300
      end
  end.

(** [parse_cpu(cpu_str)] *)
Definition parse_cpu (cpu_str : string) : F :=
  if endswith cpu_str "m" then
    match py_float (drop_last 1 cpu_str) with
    | Some x => fdiv x (of_int 1000)
    | None => of_int 0
    end
  else
    match py_float cpu_str with
    | Some x => x
    | None => of_int 0
    end.

(** [parse_memory(mem_str)] *)
Definition parse_memory (mem_str : string) : F :=
  let mem_str := lower mem_str in
  if endswith mem_str "mi" then
    match py_float (drop_last 2 mem_str) with
    | Some x => x
    | None => of_int 0
    end
  else if endswith mem_str "gi" then
    match py_float (drop_last 2 mem_str) with
    | Some x => (x * of_int 1024)%py
    | None => of_int 0
    end
  else
    match py_float mem_str with
    | Some x => x
    | None => of_int 0
    end.

(** The [try] block at the head of [bfd_algorithm]: the requests of the
    first container, 0.0 for both when reading them raises. *)
Definition pod_requests (p : pod) : F * F :=
  match containers p with
  | [] => (of_int 0, of_int 0)
  | c :: _ =>
      match c_resources c with
      | None => (of_int 0, of_int 0)
      | Some requests =>
          let resources := default ∅ requests in
          (parse_cpu (dict_get resources "cpu" "0"),
           parse_memory (dict_get resources "memory" "0"))
      end
  end.

Definition node_cpu (n : node_spec F) : F := default (of_int 0) (cpuAvailable n).
Definition node_mem (n : node_spec F) : F :=
  default (of_int 0) (memoryAvailable n).

(** The test of the [for node in node_group] loop. *)
Definition fits (c m : F) (n : node_spec F) : bool :=
  (node_cpu n >=? c)%py && (node_mem n >=? m)%py.

(** [bfd_algorithm(pod, node_group)] *)
Definition bfd_algorithm (p : pod) (node_group : list (node_spec F))
  : res (option string) :=
  let '(pod_cpu_request, pod_memory_request) := pod_requests p in
  let suitable_nodes :=
    List.filter (fits pod_cpu_request pod_memory_request) node_group in
  match py_sort flt node_mem suitable_nodes with
  | [] => Done None
  | n :: _ =>
      match instanceName n with
      | Some s => Done (Some s)
      | None => Raised KeyError
      end
  end.

(** [node.get('runtime', scaling_cycle) // scaling_cycle] *)
Definition node_bin (scaling_cycle : Z) (n : node_spec F) : Z :=
  default scaling_cycle (runtime n) `div` scaling_cycle.

(** [bins.setdefault(node_bin, []).append(node)] *)
Definition setdefault_append (b : Z) (n : node_spec F)
    (bins : gmap Z (list (node_spec F))) : gmap Z (list (node_spec F)) :=
  <[b := default [] (bins !! b) ++ [n]]> bins.

Definition group_bins (scaling_cycle : Z) (nodes : list (node_spec F))
  : gmap Z (list (node_spec F)) :=
  fold_left (fun bins n => setdefault_append (node_bin scaling_cycle n) n bins)
            nodes ∅.

(** The keys of [bins], as [x for x in bins] enumerates them. *)
Definition bin_keys (bins : gmap Z (list (node_spec F))) : list Z :=
  (map_to_list bins).*1.

(** The list the [for b in ...] loop of [time_bin_bfd] walks. *)
Definition visit_order (bin_number : Z) (bins : gmap Z (list (node_spec F)))
  : list Z :=
  [bin_number]
    ++ sorted (List.filter (fun x => bin_number <? x) (bin_keys bins))
    ++ sorted_reverse (List.filter (fun x => x <? bin_number) (bin_keys bins)).

Fixpoint search_bins (p : pod) (bins : gmap Z (list (node_spec F)))
    (order : list Z) : res (option string) :=
  match order with
  | [] => Done None
  | b :: rest =>
      match bins !! b with
      | Some group =>
          node_name <-- bfd_algorithm p group ;;
          if truthy node_name then Done node_name
          else search_bins p bins rest
      | None => search_bins p bins rest
      end
  end.

(** [time_bin_bfd(pod, batch_node_group, scaling_cycle)] *)
Definition time_bin_bfd (p : pod) (batch_node_group : list (node_spec F))
    (scaling_cycle : Z) : res (option string) :=
  if scaling_cycle =? 0 then Raised ZeroDivisionError
  else
    let bin_number := get_pod_runtime p `div` scaling_cycle in
    let bins := group_bins scaling_cycle batch_node_group in
    search_bins p bins (visit_order bin_number bins).

(** What the Packer changes in the cluster: committed bindings
    (namespace, pod, node) and the AutoScaleRequest objects by name. *)
Record cluster : Type := Cluster {
  bindings : list (string * string * string);
  autoscalerequests : gmap string autoscale_request;
}.

(** What the Packer cannot decide itself: the clock read while a pod is
    handled and whether the API server accepts a call. The answers are
    those to the call made for a pod: the binding of the pod to a node,
    and the create made for the pods of the given names under the given
    request name. *)
Record api : Type := Api {
  clock : string -> Z;
  bind_accepted : string -> string -> bool;
  create_accepted : list string -> string -> bool;
}.

(** [create_namespaced_custom_object]: refused when the server says so and
    when an object of that name exists (409). *)
Definition create_custom_object (accepted : bool) (body : autoscale_request)
    (store : gmap string autoscale_request)
  : res (gmap string autoscale_request) :=
  if accepted then
    match store !! asr_name body with
    | None => Done (<[asr_name body := body]> store)
    | Some _ => Raised ApiException
    end
  else Raised ApiException.

Definition request_name (now : Z) (workload_type : string) : string :=
  "asr-" +:+ pretty now +:+ "-" +:+ workload_type.

(** [trigger_autoscaling(workload_type, pods)]; [now] is [int(time.time())]. *)
Definition trigger_autoscaling (a : api) (now : Z) (workload_type : string)
    (pods : list pod) (st : cluster) : cluster :=
  let pod_names := map pod_name pods in
  let request_name := request_name now workload_type in
  let body := AutoScaleRequest request_name (Some workload_type)
                               (Some pod_names) in
  match create_custom_object (create_accepted a pod_names request_name) body
                             (autoscalerequests st) with
  | Done store => Cluster (bindings st) store
  | _ => st
  end.

(** The partition of the profiles at the head of a cycle. *)
Definition partition_profiles (node_profiles : list (node_profile F))
  : list (node_spec F) * list (node_spec F) :=
  fold_left
    (fun '(long_running_nodes, batch_nodes) np =>
       let spec := default empty_spec (np_spec np) in
       let instance_name := default "" (instanceName spec) in
       if contains "longrunning" (lower instance_name)
       then (long_running_nodes ++ [spec], batch_nodes)
       else if contains "batch" (lower instance_name)
       then (long_running_nodes, batch_nodes ++ [spec])
       else (long_running_nodes, batch_nodes))
    node_profiles ([], []).

Definition pod_type (p : pod) : string :=
  lower (dict_get (default ∅ (pod_labels p)) "workload-type" "batch").

Definition scaling_cycle : Z := 300.

(** The choice of [target_node] for one pod. *)
Definition select_target (long_running_nodes batch_nodes : list (node_spec F))
    (p : pod) : res (option string) :=
  if String.eqb (pod_type p) "long-running"
  then bfd_algorithm p long_running_nodes
  else time_bin_bfd p batch_nodes scaling_cycle.

(** The body of [for pod in pending_pods]. *)
Definition schedule_pod (a : api)
    (long_running_nodes batch_nodes : list (node_spec F)) (p : pod)
    (st : cluster) : res cluster :=
  target_node <-- select_target long_running_nodes batch_nodes p ;;
  match target_node with
  | Some target =>
      if negb (String.eqb target "") then
        if bind_accepted a (pod_name p) target
        then Done (Cluster (bindings st ++ [(pod_namespace p, pod_name p, target)])
                           (autoscalerequests st))
        else Done st
      else Done (trigger_autoscaling a (clock a (pod_name p)) (pod_type p) [p] st)
  | None =>
      Done (trigger_autoscaling a (clock a (pod_name p)) (pod_type p) [p] st)
  end.

Fixpoint schedule_each (a : api)
    (long_running_nodes batch_nodes : list (node_spec F))
    (pending_pods : list pod) (st : cluster) : res cluster :=
  match pending_pods with
  | [] => Done st
  | p :: rest =>
      st' <-- schedule_pod a long_running_nodes batch_nodes p st ;;
      schedule_each a long_running_nodes batch_nodes rest st'
  end.

(** [schedule_pods()]: one pass of its [while True] loop. *)
Definition schedule_pods (a : api) (pods : list pod)
    (node_profiles : list (node_profile F)) (st : cluster) : res cluster :=
  let pending_pods := get_pending_pods pods in
  match pending_pods with
  | [] => Done st
  | _ =>
      let '(long_running_nodes, batch_nodes) :=
        partition_profiles node_profiles in
      schedule_each a long_running_nodes batch_nodes pending_pods st
  end.

End Packer.
End TaskPacker.

(** ** autoscaler.py *)
Module Autoscaler.

Record flavor (F : Type) : Type := Flavor {
  fl_name : string;
  fl_cpu : F;
  fl_memory : F;
  fl_price : F;
}.
Arguments Flavor {F}.
Arguments fl_name {F}.
Arguments fl_cpu {F}.
Arguments fl_memory {F}.
Arguments fl_price {F}.

(** The node-pool description the container API returns. *)
Record node_pool_info : Type := NodePoolInfo {
  autoscaling_enabled : bool;
  maxNodeCount : option Z;
  initialNodeCount : Z;
}.

(** What [scale_gke_node_pool] printed last. *)
Inductive scale_log : Type :=
  | NoMapping
  | NoScaleUpNeeded
  | ResizeTriggered (node_pool : string) (target_size : Z)
  | FailedToScale.

(** The objects the Autoscaler reads and changes: pods and NodeProfiles of
    namespace [default], the AutoScaleRequests, and the sizes asked of the
    node pools. *)
Record cluster (F : Type) : Type := Cluster {
  pods : gmap string pod;
  nodeprofiles : list (node_profile F);
  autoscalerequests : gmap string autoscale_request;
  node_pools : gmap string node_pool_info;
  pool_sizes : gmap string Z;
}.
Arguments Cluster {F}.
Arguments pods {F}.
Arguments nodeprofiles {F}.
Arguments autoscalerequests {F}.
Arguments node_pools {F}.
Arguments pool_sizes {F}.

(** Whether the servers accept a call. *)
Record api : Type := Api {
  list_nodeprofiles_ok : bool;
  get_node_pool_ok : bool;
  set_size_ok : bool;
  delete_accepted : string -> bool;
}.

(** The names bound at module level in autoscaler.py: its imports, its
    assignments and its functions. *)
Definition module_globals : list string :=
  [ "time"; "client"; "config"; "google"; "build";
    "core_api"; "custom_api"; "credentials"; "project"; "auth_req";
    "compute"; "ZONE"; "VM_FLAVORS"; "calculate_score";
    "get_pod_cpu_request"; "get_pod_memory_request"; "greedy_autoscaling";
    "batch_node_autoscaling"; "scale_gke_node_pool";
    "fetch_autoscale_requests"; "autoscale_loop" ].

(** Reading a global name. *)
Definition lookup_global (name : string) : res unit :=
  if existsb (String.eqb name) module_globals then Done tt
  else Raised NameError.

Definition NODE_POOL_MAPPING : gmap string string :=
  <["batch" := "batch-pool"]> (<["long-running" := "longrunning-pool"]> ∅).

Section Scaler.
Context {F : Type} `{PyNum F}.
Variable py_float : string -> option F.

(** The two entries of [VM_FLAVORS], prices 0.0060 and 0.0686. *)
Definition e2_micro : flavor F :=
  Flavor "e2-micro" (of_int 2) (of_int 1) (lit 60 10000).
Definition e2_standard_2 : flavor F :=
  Flavor "e2-standard-2" (of_int 2) (of_int 8) (lit 686 10000).

Definition VM_FLAVORS : list (flavor F) := [e2_micro; e2_standard_2].

(** [calculate_score(flavor, cpu_usage, memory_usage)] *)
Definition calculate_score (fl : flavor F) (cpu_usage memory_usage : F)
  : res F :=
  qc <-- py_div cpu_usage (fl_cpu fl) ;;
  let normalized_cpu := py_min qc (of_int 1) in
  qm <-- py_div memory_usage (fl_memory fl) ;;
  let normalized_memory := py_min qm (of_int 1) in
  py_div (lit 1 2 * normalized_cpu + lit 1 2 * normalized_memory)%py
         (fl_price fl).

(** The requests of the first container, [None] when reading them raises. *)
Definition first_requests (p : pod) : option (gmap string string) :=
  match containers p with
  | [] => None
  | c :: _ =>
      match c_resources c with
      | Some (Some requests) => Some requests
      | _ => None
      end
  end.

(** [get_pod_cpu_request(pod)] *)
Definition get_pod_cpu_request (p : pod) : F :=
  match first_requests p with
  | None => of_int 0
  | Some requests =>
      let cpu := dict_get requests "cpu" "0" in
      if contains "m" cpu then
        match py_float (remove_all "m" cpu) with
        | Some x => fdiv x (of_int 1000)
        | None => of_int 0
        end
      else
        match py_float cpu with
        | Some x => x
        | None => of_int 0
        end
  end.

(** [get_pod_memory_request(pod)] *)
Definition get_pod_memory_request (p : pod) : F :=
  match first_requests p with
  | None => of_int 0
  | Some requests =>
      let mem := dict_get requests "memory" "0" in
      if endswith mem "Mi" then
        match py_float (remove_all "Mi" mem) with
        | Some x => x
        | None => of_int 0
        end
      else if endswith mem "Gi" then
        match py_float (remove_all "Gi" mem) with
        | Some x => (x * of_int 1024)%py
        | None => of_int 0
        end
      else
        match py_float mem with
        | Some x => x
        | None => of_int 0
        end
  end.

(** [sum(get_pod_cpu_request(p) for p in pending_pods)] and its memory
    twin. *)
Definition total_cpu_of (pending_pods : list pod) : F :=
  py_sum (map get_pod_cpu_request pending_pods).
Definition total_mem_of (pending_pods : list pod) : F :=
  py_sum (map get_pod_memory_request pending_pods).

(** The [for flavor in vm_flavors] scan of [greedy_autoscaling]; [best]
    and [best_score] are its loop-carried variables. *)
Fixpoint scan_flavors (total_cpu total_mem : F) (fls : list (flavor F))
    (best : option (flavor F)) (best_score : F) : res (option (flavor F)) :=
  match fls with
  | [] => Done best
  | fl :: rest =>
      score <-- calculate_score fl (py_min total_cpu (fl_cpu fl))
                                   (py_min total_mem (fl_memory fl)) ;;
      if (score >? best_score)%py
      then scan_flavors total_cpu total_mem rest (Some fl) score
      else scan_flavors total_cpu total_mem rest best best_score
  end.

(** The [while total_cpu > 0 or total_mem > 0] loop of
    [greedy_autoscaling], from given totals; the result is [selected]. *)
Fixpoint greedy_loop (fuel : nat) (total_cpu total_mem : F)
    (vm_flavors : list (flavor F)) : res (list (flavor F)) :=
  if (total_cpu >? of_int 0)%py || (total_mem >? of_int 0)%py then
    match fuel with
    | O => OutOfFuel
    | S fuel' =>
        best <-- scan_flavors total_cpu total_mem vm_flavors None
                              (of_int (-1)) ;;
        match best with
        | None => Done []
        | Some b =>
            selected <-- greedy_loop fuel' (total_cpu - fl_cpu b)%py
                                     (total_mem - fl_memory b)%py vm_flavors ;;
            Done (b :: selected)
        end
    end
  else Done [].

(** [greedy_autoscaling(pending_pods, vm_flavors)] *)
Definition greedy_autoscaling (fuel : nat) (pending_pods : list pod)
    (vm_flavors : list (flavor F)) : res (list (flavor F)) :=
  greedy_loop fuel (total_cpu_of pending_pods) (total_mem_of pending_pods)
              vm_flavors.

(** [node["spec"]]: a NodeProfile without [spec] raises. *)
Definition spec_of (node : node_profile F) : res (node_spec F) :=
  match np_spec node with
  | Some spec => Done spec
  | None => Raised KeyError
  end.

(** The comprehension that builds [zero_bin_nodes]. *)
Fixpoint zero_bin_nodes (batch_nodes : list (node_profile F))
    (scaling_cycle : Z) : res (list (node_profile F)) :=
  match batch_nodes with
  | [] => Done []
  | node :: rest =>
      spec <-- spec_of node ;;
      tail <-- zero_bin_nodes rest scaling_cycle ;;
      if default scaling_cycle (runtime spec) <? scaling_cycle
      then Done (node :: tail) else Done tail
  end.

(** The [for node in zero_bin_nodes] loop, on the pair of totals. *)
Definition subtract_capacity (totals : F * F) (spec : node_spec F) : F * F :=
  ((totals.1 - default (of_int 0) (cpuCapacity spec))%py,
   (totals.2 - default (of_int 0) (memoryCapacity spec))%py).

(** [batch_node_autoscaling(pending_pods, batch_nodes, scaling_cycle,
    vm_flavors)] *)
Definition batch_node_autoscaling (fuel : nat) (pending_pods : list pod)
    (batch_nodes : list (node_profile F)) (scaling_cycle : Z)
    (vm_flavors : list (flavor F)) : res (list (flavor F)) :=
  let total_cpu := total_cpu_of pending_pods in
  let total_mem := total_mem_of pending_pods in
  zero_bin <-- zero_bin_nodes batch_nodes scaling_cycle ;;
  (* every node of [zero_bin] has a [spec], or the comprehension raised *)
  let '(total_cpu, total_mem) :=
    fold_left subtract_capacity
              (omap np_spec zero_bin) (total_cpu, total_mem) in
  if (total_cpu <=? of_int 0)%py && (total_mem <=? of_int 0)%py
  then Done []
  else greedy_autoscaling fuel pending_pods vm_flavors.

(** The body of the [try] block of [scale_gke_node_pool]. The globals are
    read in the order the statements evaluate them. *)
Definition resize_node_pool (a : api) (node_pool : string) (needed_nodes : Z)
    (st : cluster F) : res (cluster F * scale_log) :=
  _ <-- lookup_global "build" ;;
  _ <-- lookup_global "credentials" ;;
  _ <-- lookup_global "os" ;;
  _ <-- lookup_global "project" ;;
  node_pool_info <--
    (if get_node_pool_ok a then
       match node_pools st !! node_pool with
       | Some info => Done info
       | None => Raised ApiException
       end
     else Raised ApiException) ;;
  let max_or_0 := default 0 (maxNodeCount node_pool_info) in
  let current_size :=
    if autoscaling_enabled node_pool_info && negb (max_or_0 =? 0)
    then max_or_0 else initialNodeCount node_pool_info in
  let target_size := current_size + needed_nodes in
  let max_size := default 100 (maxNodeCount node_pool_info) in
  let target_size := if max_size <? target_size then max_size else target_size in
  if target_size <=? current_size then Done (st, NoScaleUpNeeded)
  else if set_size_ok a then
    Done (Cluster (pods st) (nodeprofiles st) (autoscalerequests st)
                  (node_pools st) (<[node_pool := target_size]> (pool_sizes st)),
          ResizeTriggered node_pool target_size)
  else Raised ApiException.

(** [scale_gke_node_pool(workload_type, needed_nodes)], with what it
    printed. *)
Definition scale_gke_node_pool (a : api) (workload_type : string)
    (needed_nodes : Z) (st : cluster F) : cluster F * scale_log :=
  match NODE_POOL_MAPPING !! lower workload_type with
  | None => (st, NoMapping)
  | Some node_pool =>
      match resize_node_pool a node_pool needed_nodes st with
      | Done r => r
      | _ => (st, FailedToScale)
      end
  end.

(** The [for name in pod_names] loop of [autoscale_loop]: a pod that
    cannot be read is logged and skipped. *)
Fixpoint resolve_pending (st : cluster F) (pod_names : list string)
  : list pod :=
  match pod_names with
  | [] => []
  | name :: rest =>
      match pods st !! name with
      | Some p =>
          if phase_eqb (pod_phase p) Pending
          then p :: resolve_pending st rest
          else resolve_pending st rest
      | None => resolve_pending st rest
      end
  end.

(** The [for node in nodes_data] loop: a profile without [spec] raises,
    which ends the loop with the nodes collected so far. *)
Fixpoint collect_batch (nodes_data : list (node_profile F))
  : list (node_profile F) :=
  match nodes_data with
  | [] => []
  | node :: rest =>
      match np_spec node with
      | None => []
      | Some spec =>
          let node_name := lower (default "" (instanceName spec)) in
          if contains "batch" node_name then node :: collect_batch rest
          else collect_batch rest
      end
  end.

Definition fetch_batch_nodes (a : api) (st : cluster F)
  : list (node_profile F) :=
  if list_nodeprofiles_ok a then collect_batch (nodeprofiles st) else [].

(** [delete_namespaced_custom_object] inside its [try]. *)
Definition delete_request (a : api) (name : string) (st : cluster F)
  : cluster F :=
  if delete_accepted a name
  then Cluster (pods st) (nodeprofiles st) (delete name (autoscalerequests st))
               (node_pools st) (pool_sizes st)
  else st.

Definition scaling_cycle : Z := 300.

(** The flavors the loop asks for, for the pods it resolved. *)
Definition vms_needed_for (fuel : nat) (a : api) (st : cluster F)
    (workload_type : string) (pending_pods : list pod)
  : res (list (flavor F)) :=
  if String.eqb (lower workload_type) "long-running"
  then greedy_autoscaling fuel pending_pods VM_FLAVORS
  else batch_node_autoscaling fuel pending_pods (fetch_batch_nodes a st)
                              scaling_cycle VM_FLAVORS.

(** [req["spec"]]: a request without [spec] raises. *)
Definition spec_of_request (req : autoscale_request) : res request_spec :=
  match asr_spec req with
  | Some spec => Done spec
  | None => Raised KeyError
  end.

(** The body of [for req in autoscale_requests]; [None] is the
    [continue] that skips a request without pending pods. *)
Definition process_request (fuel : nat) (a : api) (req : autoscale_request)
    (st : cluster F) : res (cluster F * option scale_log) :=
  spec <-- spec_of_request req ;;
  let workload_type := default "batch" (workloadType spec) in
  let pod_names := default [] (podNames spec) in
  match resolve_pending st pod_names with
  | [] => Done (st, None)
  | pending_pods =>
      vms_needed <-- vms_needed_for fuel a st workload_type pending_pods ;;
      let '(st1, log) :=
        scale_gke_node_pool a workload_type
                            (Z.of_nat (length vms_needed)) st in
      Done (delete_request a (asr_name req) st1, Some log)
  end.

Fixpoint process_each (fuel : nat) (a : api) (reqs : list autoscale_request)
    (st : cluster F) : res (cluster F) :=
  match reqs with
  | [] => Done st
  | req :: rest =>
      r <-- process_request fuel a req st ;;
      process_each fuel a rest r.1
  end.

(** [autoscale_loop()]: one pass of its [while True] loop. *)
Definition autoscale_loop (fuel : nat) (a : api) (st : cluster F)
  : res (cluster F) :=
  let autoscale_requests := (map_to_list (autoscalerequests st)).*2 in
  process_each fuel a autoscale_requests st.

End Scaler.
End Autoscaler.

(** ** resource_profiler.py *)
Module ResourceProfiler.

(** A quantity as Python holds it. The Kubernetes client delivers
    quantities as strings ([dict(str, str)]); the arithmetic of the
    Profiler takes numbers and raises TypeError on a string. *)
Inductive pyval (F : Type) : Type :=
  | Str (s : string)
  | Num (x : F).
Arguments Str {F} s.
Arguments Num {F} x.

(** A node as the Profiler reads it: [metadata.name], [metadata.labels],
    [status.capacity['cpu']] and the two entries of [status.allocatable]
    it reads. *)
Record k8s_node (F : Type) : Type := K8sNode {
  nd_name : string;
  nd_labels : gmap string string;
  capacity_cpu : pyval F;
  allocatable_cpu : pyval F;
  allocatable_memory : pyval F;
}.
Arguments K8sNode {F}.
Arguments nd_name {F}.
Arguments nd_labels {F}.
Arguments capacity_cpu {F}.
Arguments allocatable_cpu {F}.
Arguments allocatable_memory {F}.

(** A pod as the Profiler reads it: [spec.nodeName], [status.phase] and
    the [resources.requests] of each container. *)
Record node_pod (F : Type) : Type := NodePod {
  on_node : string;
  np_phase : phase;
  np_requests : list (gmap string (pyval F));
}.
Arguments NodePod {F}.
Arguments on_node {F}.
Arguments np_phase {F}.
Arguments np_requests {F}.

(** The local variables of [update_node_profiles] that outlive the
    [for node in nodes] loop: [name] and [labels] are assigned for every
    node, the others only for nodes with a [workload] label. The two sums
    are numbers once they have been computed. *)
Record measured (F : Type) : Type := Measured {
  capacity : pyval F;
  allocatable : pyval F * pyval F;
  used_cpu : F;
  used_memory : F;
}.
Arguments Measured {F}.
Arguments capacity {F}.
Arguments allocatable {F}.
Arguments used_cpu {F}.
Arguments used_memory {F}.

Record frame (F : Type) : Type := Frame {
  name_labels : option (string * gmap string string);
  measures : option (measured F);
}.
Arguments Frame {F}.
Arguments name_labels {F}.
Arguments measures {F}.

Section Profiler.
Context {F : Type} `{PyNum F}.
Variable py_float : string -> option F.

(** [sum(values)]: the running total is a number, and adding a string to
    it raises. *)
Fixpoint sum_values (total : F) (values : list (pyval F)) : res F :=
  match values with
  | [] => Done total
  | Num x :: rest => sum_values (total + x)%py rest
  | Str _ :: _ => Raised TypeError
  end.

(** [sum(container.resources.requests.get(key, 0) for pod in pods
        for container in pod.spec.containers
        if pod.status.phase == 'Running')] *)
Definition used (key : string) (pods : list (node_pod F)) : res F :=
  sum_values (of_int 0)
    (flat_map
       (fun p =>
          flat_map
            (fun requests =>
               if phase_eqb (np_phase p) Running
               then [dict_get requests key (Num (of_int 0))] else [])
            (np_requests p))
       pods).

(** [list_pod_for_all_namespaces(field_selector=f"spec.nodeName={name}")] *)
Definition pods_on (name : string) (all_pods : list (node_pod F))
  : list (node_pod F) :=
  List.filter (fun p => String.eqb (on_node p) name) all_pods.

(** The body of [for node in nodes]. *)
Definition visit_node (all_pods : list (node_pod F)) (fr : frame F)
    (node : k8s_node F) : res (frame F) :=
  let name := nd_name node in
  let labels := nd_labels node in
  match labels !! "workload" with
  | None => Done (Frame (Some (name, labels)) (measures fr))
  | Some _ =>
      let pods := pods_on name all_pods in
      used_cpu <-- used "cpu" pods ;;
      used_memory <-- used "memory" pods ;;
      Done (Frame (Some (name, labels))
                  (Some (Measured (capacity_cpu node)
                                  (allocatable_cpu node,
                                   allocatable_memory node)
                                  used_cpu used_memory)))
  end.

(** The [for node in nodes] loop. *)
Fixpoint visit_nodes (all_pods : list (node_pod F)) (nodes : list (k8s_node F))
    (fr : frame F) : res (frame F) :=
  match nodes with
  | [] => Done fr
  | node :: rest =>
      fr' <-- visit_node all_pods fr node ;;
      visit_nodes all_pods rest fr'
  end.

(** [quantity - used] *)
Definition minus_used (quantity : pyval F) (used : F) : res F :=
  match quantity with
  | Num x => Done (x - used)%py
  | Str _ => Raised TypeError
  end.

(** [float(quantity)] *)
Definition float_of (quantity : pyval F) : res F :=
  match quantity with
  | Num x => Done x
  | Str s =>
      match py_float s with
      | Some x => Done x
      | None => Raised ValueError
      end
  end.

(** The statements after the loop: the two differences, then the
    dictionary [body["spec"]], built from whatever the variables hold. *)
Definition profile_body (fr : frame F) : res (string * node_spec F) :=
  match measures fr, name_labels fr with
  | Some m, Some (name, labels) =>
      cpu_available <-- minus_used (allocatable m).1 (used_cpu m) ;;
      memory_available <-- minus_used (allocatable m).2 (used_memory m) ;;
      cores <-- float_of (capacity m) ;;
      match to_int (cores * of_int 1000)%py with
      | None => Raised ValueError
      | Some millicores =>
          Done (name,
                NodeSpec (Some name)
                         (Some (dict_get labels
                                  "beta.kubernetes.io/instance-type" "unknown"))
                         (Some (of_int millicores))
                         (Some memory_available)
                         (Some cpu_available)
                         (Some memory_available)
                         (Some 0))
      end
  | _, _ => Raised NameError
  end.

(** The three calls on the [nodeprofiles] collection. *)
Definition get_object (up : bool) (store : gmap string (node_profile F))
    (name : string) : res (node_profile F) :=
  if up then
    match store !! name with
    | Some o => Done o
    | None => Raised ApiException
    end
  else Raised ApiException.

Definition replace_object (up : bool) (store : gmap string (node_profile F))
    (name : string) (body : node_profile F)
  : res (gmap string (node_profile F)) :=
  if up then
    match store !! name with
    | Some _ => Done (<[name := body]> store)
    | None => Raised ApiException
    end
  else Raised ApiException.

Definition create_object (up : bool) (store : gmap string (node_profile F))
    (name : string) (body : node_profile F)
  : res (gmap string (node_profile F)) :=
  if up then
    match store !! name with
    | None => Done (<[name := body]> store)
    | Some _ => Raised ApiException
    end
  else Raised ApiException.

(** The inner [try]: get, then replace; create when that raised
    [ApiException]. *)
Definition upsert (up : bool) (store : gmap string (node_profile F))
    (name : string) (body : node_profile F)
  : res (gmap string (node_profile F)) :=
  match (_ <-- get_object up store name ;;
         replace_object up store name body) with
  | Raised ApiException => create_object up store name body
  | r => r
  end.

(** [update_node_profiles()], one pass of its [while True] loop: the
    outer [try] swallows [ApiException] only. The frame is returned since
    the variables keep their values for the next pass. *)
Definition update_node_profiles (up : bool) (nodes : list (k8s_node F))
    (all_pods : list (node_pod F)) (fr : frame F)
    (store : gmap string (node_profile F))
  : res (gmap string (node_profile F) * frame F) :=
  if up then
    fr' <-- visit_nodes all_pods nodes fr ;;
    b <-- profile_body fr' ;;
    match upsert up store b.1 (NodeProfile (Some b.2)) with
    | Done store' => Done (store', fr')
    | Raised ApiException => Done (store, fr')
    | Raised e => Raised e
    | OutOfFuel => OutOfFuel
    end
  else Done (store, fr).

End Profiler.
End ResourceProfiler.

(** ** instance_cleaner.py *)
Module InstanceCleaner.

(** Whether a shell command exits with status 0 and whether the API
    server accepts a call. *)
Record api : Type := Api {
  shell_ok : string -> bool;
  create_pod_ok : bool;
  delete_pod_ok : bool;
}.

(** The pods of the cluster by (namespace, name). *)
Abbreviation pod_store := (gmap (string * string) pod).

(** A statement of the [try] block: it may change the pods and may
    raise; later statements do not run after a raise. *)
Definition stmt (A : Type) : Type := pod_store -> pod_store * res A.

Definition seq {A B} (s : stmt A) (k : A -> stmt B) : stmt B :=
  fun st =>
    match s st with
    | (st', Done a) => k a st'
    | (st', Raised e) => (st', Raised e)
    | (st', OutOfFuel) => (st', OutOfFuel)
    end.

Notation "s ';;;' k" := (seq s (fun _ => k))
  (at level 100, k at level 200, right associativity).

(** [subprocess.run(cmd, shell=True, check=True)]: the commands of the
    migration act inside containers and on local files, not on the pod
    objects. *)
Definition subprocess_run (a : api) (cmd : string) : stmt unit :=
  fun st =>
    (st, if shell_ok a cmd then Done tt else Raised CalledProcessError).

(** [api.create_namespaced_pod(namespace, body)] *)
Definition create_namespaced_pod (a : api) (namespace : string) (body : pod)
  : stmt unit :=
  fun st =>
    if create_pod_ok a then
      match st !! (namespace, pod_name body) with
      | None => (<[(namespace, pod_name body) := body]> st, Done tt)
      | Some _ => (st, Raised ApiException)
      end
    else (st, Raised ApiException).

(** [api.delete_namespaced_pod(name, namespace)] *)
Definition delete_namespaced_pod (a : api) (name namespace : string)
  : stmt unit :=
  fun st =>
    if delete_pod_ok a then
      match st !! (namespace, name) with
      | Some _ => (delete (namespace, name) st, Done tt)
      | None => (st, Raised ApiException)
      end
    else (st, Raised ApiException).

Definition checkpoint_cmd (pod_name namespace container_name : string)
  : string :=
  "kubectl exec " +:+ pod_name +:+ " -n " +:+ namespace +:+ " -c "
    +:+ container_name +:+ " -- "
    +:+ "criu dump --tree $(pgrep -f " +:+ container_name
    +:+ ") --images-dir /tmp/checkpoint "
    +:+ "--shell-job --leave-running".

Definition local_checkpoint_path (pod_name : string) : string :=
  "/tmp/checkpoint-" +:+ pod_name.

Definition copy_cmd (pod_name namespace : string) : string :=
  "kubectl cp " +:+ namespace +:+ "/" +:+ pod_name +:+ ":/tmp/checkpoint "
    +:+ local_checkpoint_path pod_name.

Definition new_pod_name (pod_name : string) : string :=
  pod_name +:+ "-migrated".

Definition copy_to_new_cmd (pod_name namespace : string) : string :=
  "kubectl cp " +:+ local_checkpoint_path pod_name +:+ " " +:+ namespace
    +:+ "/" +:+ new_pod_name pod_name +:+ ":/tmp/checkpoint".

Definition restore_cmd (pod_name namespace container_name : string)
  : string :=
  "kubectl exec " +:+ new_pod_name pod_name +:+ " -n " +:+ namespace
    +:+ " -c " +:+ container_name +:+ " -- "
    +:+ "criu restore --images-dir /tmp/checkpoint --shell-job".

(** The [V1Pod] built in step 3; the server starts it as [Pending]. *)
Definition new_pod (p : pod) (target_node : string) : pod :=
  Pod (new_pod_name (pod_name p)) (pod_namespace p) (pod_labels p) None
      None (Some target_node) (Some "Never") (containers p) Pending.

(** The [try] block of [migrate_container]. *)
Definition migration_steps (a : api) (p : pod) (container_name : string)
    (target_node : string) : stmt unit :=
  let pod_name := pod_name p in
  let namespace := pod_namespace p in
  subprocess_run a (checkpoint_cmd pod_name namespace container_name) ;;;
  subprocess_run a (copy_cmd pod_name namespace) ;;;
  create_namespaced_pod a namespace (new_pod p target_node) ;;;
  subprocess_run a (copy_to_new_cmd pod_name namespace) ;;;
  subprocess_run a (restore_cmd pod_name namespace container_name) ;;;
  delete_namespaced_pod a pod_name namespace.

(** [migrate_container(pod, target_node)]: the returned flag and the pods
    afterwards. [containers[0]] is read before the [try]. *)
Definition migrate_container (a : api) (p : pod) (target_node : string)
    (st : pod_store) : res (bool * pod_store) :=
  match containers p with
  | [] => Raised IndexError
  | c :: _ =>
      match migration_steps a p (c_name c) target_node st with
      | (st', Done _) => Done (true, st')
      | (st', _) => Done (false, st')
      end
  end.

(** *** Nodes: [check_node_resources], [reschedule_node] and the main
    loop *)

(** The node handling also raises on attributes of [None]. *)
Inductive error : Type :=
  | AttributeError
  | Of (e : exn).

Inductive result (A : Type) : Type :=
  | Returns (a : A)
  | Raises (e : error)
  | Unfinished.
Arguments Returns {A} a.
Arguments Raises {A} e.
Arguments Unfinished {A}.

Definition result_bind {A B} (r : result A) (k : A -> result B) : result B :=
  match r with
  | Returns a => k a
  | Raises e => Raises e
  | Unfinished => Unfinished
  end.

Notation "x <~~ r ;; k" := (result_bind r (fun x => k))
  (at level 100, r at next level, right associativity).

Definition of_res {A} (r : res A) : result A :=
  match r with
  | Done a => Returns a
  | Raised e => Raises (Of e)
  | OutOfFuel => Unfinished
  end.

Definition of_option {A} (e : exn) (o : option A) : result A :=
  match o with
  | Some a => Returns a
  | None => Raises (Of e)
  end.

(** A generator expression [f(x) for x in l if ...]: [f] returns [None]
    for an element the filter drops; the first raise ends it. *)
Fixpoint collect {A B} (f : A -> result (option B)) (l : list A)
  : result (list B) :=
  match l with
  | [] => Returns []
  | x :: rest =>
      y <~~ f x ;;
      ys <~~ collect f rest ;;
      Returns (match y with Some b => b :: ys | None => ys end)
  end.

(** A node as the Cleaner reads it: name, labels, [status.capacity],
    [status.allocatable], and [spec.unschedulable], which it sets. *)
Record node : Type := Node {
  n_name : string;
  n_labels : option (gmap string string);
  n_capacity : gmap string string;
  n_allocatable : gmap string string;
  n_unschedulable : bool;
}.

(** The cluster: pods, the nodes in the order [list_node()] returns
    them, and the VM instances whose deletion has been requested. *)
Record world : Type := World {
  w_pods : pod_store;
  w_nodes : list node;
  w_deleted_instances : list string;
}.

(** Whether the server accepts the calls on nodes and instances, and the
    place it gives a pod, by namespace and name, in a list it returns. *)
Record node_api : Type := NodeApi {
  patch_node_ok : bool;
  delete_node_ok : bool;
  delete_instance_ok : bool;
  listing_rank : string * string -> nat;
}.

(** [api.list_namespaced_pod(namespace="default",
      field_selector=f"spec.nodeName={name},status.phase=Running").items]:
    the pods the selector accepts, in the order of the server's ranks. *)
Definition running_on (name : string) (p : pod) : bool :=
  String.eqb (pod_namespace p) "default"
  && bool_decide (node_name p = Some name)
  && phase_eqb (pod_phase p) Running.

Definition list_namespaced_pod (na : node_api) (name : string)
    (st : pod_store) : list pod :=
  List.filter (running_on name)
    (py_sort Nat.ltb
       (fun p => listing_rank na (pod_namespace p, pod_name p))
       (map_to_list st).*2).

Section Nodes.
Context {F : Type} `{PyNum F}.
Variable py_float : string -> option F.
Variable py_int : string -> option Z.

(** [parse_memory(memory_str)], in MiB; the argument is an [int] or a
    string. *)
Definition parse_memory (memory_str : Z + string) : result F :=
  match memory_str with
  | inl n => Returns (of_int n)
  | inr s =>
      if endswith s "Ki" then
        n <~~ of_option ValueError (py_int (drop_last 2 s)) ;;
        Returns (fdiv (of_int n) (of_int 1024))
      else if endswith s "Mi" then
        n <~~ of_option ValueError (py_int (drop_last 2 s)) ;;
        Returns (of_int n)
      else if endswith s "Gi" then
        n <~~ of_option ValueError (py_int (drop_last 2 s)) ;;
        Returns (of_int (n * 1024))
      else
        n <~~ of_option ValueError (py_int s) ;;
        Returns (of_int n)
  end.

(** The filter [container.resources and
    container.resources.requests.get(key)] and the value
    [requests.get(key, '0')] behind it. *)
Definition requested (key : string) (c : container)
  : result (option string) :=
  match c_resources c with
  | None => Returns None
  | Some None => Raises AttributeError
  | Some (Some requests) =>
      match requests !! key with
      | Some v => Returns (if String.eqb v "" then None else Some v)
      | None => Returns None
      end
  end.

(** [float(requests.get('cpu', '0').replace('m', '')) / 1000] *)
Definition cpu_term (c : container) : result (option F) :=
  v <~~ requested "cpu" c ;;
  match v with
  | None => Returns None
  | Some cpu =>
      x <~~ of_option ValueError (py_float (remove_all "m" cpu)) ;;
      Returns (Some (fdiv x (of_int 1000)))
  end.

(** [parse_memory(requests.get('memory', '0'))] *)
Definition memory_term (c : container) : result (option F) :=
  v <~~ requested "memory" c ;;
  match v with
  | None => Returns None
  | Some memory =>
      x <~~ parse_memory (inr memory) ;;
      Returns (Some x)
  end.

(** The two sums over containers. *)
Definition cpu_requested (cs : list container) : result F :=
  xs <~~ collect cpu_term cs ;;
  Returns (py_sum xs).

Definition memory_requested (cs : list container) : result F :=
  xs <~~ collect memory_term cs ;;
  Returns (py_sum xs).

(** [d[key]] *)
Definition subscript (d : gmap string string) (key : string)
  : result string :=
  of_option KeyError (d !! key).

(** [calculate_node_utilization(node_name)] *)
Definition calculate_node_utilization (na : node_api) (name : string)
    (w : world) : result F :=
  node <~~ of_option ApiException
             (List.find (fun n => String.eqb (n_name n) name) (w_nodes w)) ;;
  let capacity := n_capacity node in
  let pods := list_namespaced_pod na name (w_pods w) in
  used_cpu <~~ cpu_requested (flat_map containers pods) ;;
  used_memory <~~ memory_requested (flat_map containers pods) ;;
  c <~~ subscript capacity "cpu" ;;
  cpu_capacity <~~ of_option ValueError (py_float c) ;;
  m <~~ subscript capacity "memory" ;;
  memory_capacity <~~ parse_memory (inr m) ;;
  let cpu_utilization :=
    if (cpu_capacity >? of_int 0)%py
    then (fdiv used_cpu cpu_capacity * of_int 100)%py else of_int 0 in
  let memory_utilization :=
    if (memory_capacity >? of_int 0)%py
    then (fdiv used_memory memory_capacity * of_int 100)%py
    else of_int 0 in
  Returns (fdiv (cpu_utilization + memory_utilization)%py (of_int 2)).

(** [check_node_resources(node, pod)] *)
Definition check_node_resources (na : node_api) (nd : node) (p : pod)
    (st : pod_store) : result bool :=
  let allocatable := n_allocatable nd in
  pod_cpu <~~ cpu_requested (containers p) ;;
  pod_memory <~~ memory_requested (containers p) ;;
  let node_pods := list_namespaced_pod na (n_name nd) st in
  current_cpu <~~ cpu_requested (flat_map containers node_pods) ;;
  current_memory <~~ memory_requested (flat_map containers node_pods) ;;
  c <~~ subscript allocatable "cpu" ;;
  x <~~ of_option ValueError (py_float c) ;;
  let cpu_available := (x - current_cpu)%py in
  m <~~ subscript allocatable "memory" ;;
  y <~~ parse_memory (inr m) ;;
  let memory_available := (y - current_memory)%py in
  Returns ((cpu_available >=? pod_cpu)%py
           && (memory_available >=? pod_memory)%py).

(** [[pod for pod in pods
      if pod.metadata.labels.get('workload-type') == 'batch']] *)
Definition is_batch_pod (p : pod) : result (option pod) :=
  match pod_labels p with
  | None => Raises AttributeError
  | Some labels =>
      Returns (if bool_decide (labels !! "workload-type" = Some "batch")
               then Some p else None)
  end.

(** The candidate nodes: labels are read only of a node with another
    name. *)
Definition is_candidate (name : string) (n : node) : result (option node) :=
  if String.eqb (n_name n) name then Returns None
  else
    match n_labels n with
    | None => Raises AttributeError
    | Some labels =>
        Returns (if bool_decide (labels !! "workload" = Some "batch")
                 then Some n else None)
    end.

(** The inner [for cand in candidate_nodes] loop with its [break]. *)
Fixpoint find_target (na : node_api) (candidate_nodes : list node) (p : pod)
    (st : pod_store) : result (option string) :=
  match candidate_nodes with
  | [] => Returns None
  | cand :: rest =>
      fit <~~ check_node_resources na cand p st ;;
      if fit then Returns (Some (n_name cand))
      else find_target na rest p st
  end.

(** The [for pod in batch_pods] loop: the pods afterwards and
    [migration_success], or what was raised on the way. *)
Fixpoint migrate_each (a : api) (na : node_api) (candidate_nodes : list node)
    (batch_pods : list pod) (st : pod_store) : pod_store * result bool :=
  match batch_pods with
  | [] => (st, Returns true)
  | p :: rest =>
      match find_target na candidate_nodes p st with
      | Returns target =>
          match target with
          | Some t =>
              if truthy target then
                match of_res (migrate_container a p t st) with
                | Returns (success, st') =>
                    if success
                    then migrate_each a na candidate_nodes rest st'
                    else (st', Returns false)
                | Raises e => (st, Raises e)
                | Unfinished => (st, Unfinished)
                end
              else (st, Returns false)
          | None => (st, Returns false)
          end
      | Raises e => (st, Raises e)
      | Unfinished => (st, Unfinished)
      end
  end.

(** [api.patch_node(name, body={"spec": {"unschedulable": True}})] *)
Definition patch_node (na : node_api) (name : string) (nodes : list node)
  : result (list node) :=
  if patch_node_ok na && existsb (fun n => String.eqb (n_name n) name) nodes
  then
    Returns
      (map (fun n =>
              if String.eqb (n_name n) name
              then Node (n_name n) (n_labels n) (n_capacity n)
                        (n_allocatable n) true
              else n)
           nodes)
  else Raises (Of ApiException).

(** [api.delete_node(name)] *)
Definition delete_node (na : node_api) (name : string) (nodes : list node)
  : result (list node) :=
  if delete_node_ok na && existsb (fun n => String.eqb (n_name n) name) nodes
  then Returns (List.filter (fun n => negb (String.eqb (n_name n) name)) nodes)
  else Raises (Of ApiException).

(** The [if migration_success:] branch: cordon, delete the node, ask for
    the deletion of the VM; the inner handler swallows what the last
    call raises, the outer one turns a raise of the first two into
    [False]. *)
Definition deprovision (na : node_api) (name : string) (w : world)
  : world * result bool :=
  match patch_node na name (w_nodes w) with
  | Returns cordoned =>
      match delete_node na name cordoned with
      | Returns remaining =>
          (World (w_pods w) remaining
                 (if delete_instance_ok na
                  then w_deleted_instances w ++ [name]
                  else w_deleted_instances w),
           Returns true)
      | _ => (World (w_pods w) cordoned (w_deleted_instances w),
              Returns false)
      end
  | _ => (w, Returns false)
  end.

(** [reschedule_node(node_name)] *)
Definition reschedule_node (a : api) (na : node_api) (name : string)
    (w : world) : world * result bool :=
  let pods := list_namespaced_pod na name (w_pods w) in
  match collect is_batch_pod pods with
  | Returns [] => (w, Returns false)
  | Returns batch_pods =>
      match collect (is_candidate name) (w_nodes w) with
      | Returns [] => (w, Returns false)
      | Returns candidate_nodes =>
          match migrate_each a na candidate_nodes batch_pods (w_pods w) with
          | (st, Returns true) =>
              deprovision na name
                (World st (w_nodes w) (w_deleted_instances w))
          | (st, r) => (World st (w_nodes w) (w_deleted_instances w), r)
          end
      | Raises e => (w, Raises e)
      | Unfinished => (w, Unfinished)
      end
  | Raises e => (w, Raises e)
  | Unfinished => (w, Unfinished)
  end.

(** [[node for node in api.list_node().items
      if node.metadata.labels.get('workload') == 'batch']] *)
Definition is_batch_node (n : node) : result (option node) :=
  match n_labels n with
  | None => Raises AttributeError
  | Some labels =>
      Returns (if bool_decide (labels !! "workload" = Some "batch")
               then Some n else None)
  end.

(** Reading a name inside [check_underutilized_nodes]: [locals] holds the
    string variables assigned so far; the module binds no string at top
    level. *)
Definition read_name (locals : gmap string string) (name : string)
  : result string :=
  of_option NameError (locals !! name).

(** The [for node in batch_nodes] loop of the main loop. *)
Fixpoint visit_batch_nodes (a : api) (na : node_api)
    (UTILIZATION_THRESHOLD : Z) (batch_nodes : list node) (w : world)
  : world * result unit :=
  match batch_nodes with
  | [] => (w, Returns tt)
  | nd :: rest =>
      let locals : gmap string string := {[ "node_name" := n_name nd ]} in
      match (arg <~~ read_name locals "nodse_name" ;;
             calculate_node_utilization na arg w) with
      | Returns utilization =>
          if (utilization <? of_int UTILIZATION_THRESHOLD)%py then
            match reschedule_node a na (n_name nd) w with
            | (w', Returns _) =>
                visit_batch_nodes a na UTILIZATION_THRESHOLD rest w'
            | (w', Raises e) => (w', Raises e)
            | (w', Unfinished) => (w', Unfinished)
            end
          else visit_batch_nodes a na UTILIZATION_THRESHOLD rest w
      | Raises e => (w, Raises e)
      | Unfinished => (w, Unfinished)
      end
  end.

(** [check_underutilized_nodes()], one pass of its [while True] loop. *)
Definition check_underutilized_nodes (a : api) (na : node_api)
    (UTILIZATION_THRESHOLD : Z) (w : world) : world * result unit :=
  match collect is_batch_node (w_nodes w) with
  | Returns batch_nodes =>
      visit_batch_nodes a na UTILIZATION_THRESHOLD batch_nodes w
  | Raises e => (w, Raises e)
  | Unfinished => (w, Unfinished)
  end.

End Nodes.

End InstanceCleaner.

(** ** Vocabulary of the statements *)

(** The nodes of a bin, in the order of the input. *)
Definition bin_group {F} (scaling_cycle : Z) (nodes : list (node_spec F))
    (b : Z) : list (node_spec F) :=
  List.filter (fun n => TaskPacker.node_bin scaling_cycle n =? b) nodes.

(** A spec the Packer files under the batch pool: it has an instance name
    and the name contains [batch]. *)
Definition batch_named {F} (n : node_spec F) : Prop :=
  exists s, instanceName n = Some s /\ contains "batch" (lower s) = true.


(** The specs of the zero bin: the batch nodes whose runtime-age, read
    with the default, is below the scaling cycle. *)
Definition zero_bin_specs {F} (scaling_cycle : Z)
    (batch_nodes : list (node_profile F)) : list (node_spec F) :=
  List.filter (fun spec => default scaling_cycle (runtime spec) <? scaling_cycle)
              (omap np_spec batch_nodes).

(** The pod names of a request: [req["spec"].get("podNames", [])]. *)
Definition named_pods (req : autoscale_request) : list string :=
  match asr_spec req with
  | Some spec => default [] (podNames spec)
  | None => []
  end.

(** The pods a request names that are still pending. *)
Definition pending_of {F} (st : Autoscaler.cluster F)
    (req : autoscale_request) : list pod :=
  Autoscaler.resolve_pending st (named_pods req).

(** Every AutoScaleRequest is stored under its [metadata.name]. *)
Definition well_named (store : gmap string autoscale_request) : Prop :=
  forall k r, store !! k = Some r -> asr_name r = k.

(** The request has a pending pod and the server accepts its deletion. *)
Definition deletable {F} (a : Autoscaler.api) (st : Autoscaler.cluster F)
    (req : autoscale_request) : bool :=
  match pending_of st req with
  | [] => false
  | _ => Autoscaler.delete_accepted a (asr_name req)
  end.

(** A flavor whose three divisors are non-zero is scored without a
    [ZeroDivisionError]. *)
Definition scorable {F} `{PyNum F} (fl : Autoscaler.flavor F) : Prop :=
  fzero (Autoscaler.fl_cpu fl) = false /\ fzero (Autoscaler.fl_memory fl) = false
  /\ fzero (Autoscaler.fl_price fl) = false.

(** The scores of e2-micro and of e2-standard-2 at the remaining totals
    of a round, as the scan of [greedy_autoscaling] computes them. *)
Definition catalog_scores {F} `{PyNum F} (total_cpu total_mem : F)
  : res (F * F) :=
  micro <--
    Autoscaler.calculate_score Autoscaler.e2_micro
      (py_min total_cpu (Autoscaler.fl_cpu Autoscaler.e2_micro))
      (py_min total_mem (Autoscaler.fl_memory Autoscaler.e2_micro)) ;;
  standard <--
    Autoscaler.calculate_score Autoscaler.e2_standard_2
      (py_min total_cpu (Autoscaler.fl_cpu Autoscaler.e2_standard_2))
      (py_min total_mem (Autoscaler.fl_memory Autoscaler.e2_standard_2)) ;;
  Done (micro, standard).

(** The fuel that suffices for CPU demand [tc]. *)
Definition enough_fuel (tc : Q) : nat := S (Z.to_nat (Qceiling tc + 4)).

(** The fuel that suffices for every request of a cycle. *)
Definition cycle_fuel (py_float : string -> option Q)
    (st : Autoscaler.cluster Q) (reqs : list autoscale_request) : nat :=
  foldr (fun req acc =>
           Nat.max (enough_fuel
                      (Autoscaler.total_cpu_of py_float (pending_of st req)))
                   acc)
        O reqs.

(** What a cycle leaves of the request store: each deletable request is
    removed. *)
Definition delete_processed {F} (a : Autoscaler.api)
    (st : Autoscaler.cluster F)
    (store : gmap string autoscale_request) (req : autoscale_request)
  : gmap string autoscale_request :=
  if deletable a st req then delete (asr_name req) store else store.

(** A spec with a non-empty instance name. *)
Definition name_truthy {F} (n : node_spec F) : Prop :=
  exists s, instanceName n = Some s /\ truthy (Some s) = true.

(** The pod has a committed binding. *)
Definition bound (st : TaskPacker.cluster) (p : pod) : Prop :=
  exists node,
    In (pod_namespace p, pod_name p, node) (TaskPacker.bindings st).

(** Some AutoScaleRequest names the pod. *)
Definition named_in_request (st : TaskPacker.cluster) (p : pod) : Prop :=
  exists k r,
    TaskPacker.autoscalerequests st !! k = Some r
    /\ In (pod_name p) (named_pods r).

(** The Packer only adds: bindings and requests of [st] are in [st']. *)
Definition grows (st st' : TaskPacker.cluster) : Prop :=
  (forall b, In b (TaskPacker.bindings st) -> In b (TaskPacker.bindings st'))
  /\ (forall k r, TaskPacker.autoscalerequests st !! k = Some r ->
                  TaskPacker.autoscalerequests st' !! k = Some r).

(** The two tests of the partition at the head of a Packer cycle: a
    spec is filed under the long-running pool when its name contains
    [longrunning], and under the batch pool when it does not and contains
    [batch]. *)
Definition filed_long_running {F} (spec : node_spec F) : bool :=
  contains "longrunning" (lower (default "" (instanceName spec))).

Definition filed_batch {F} (spec : node_spec F) : bool :=
  negb (filed_long_running spec)
  && contains "batch" (lower (default "" (instanceName spec))).

(** The pool the Packer searches for a pod. *)
Definition pool_of {F} (long_running_nodes batch_nodes : list (node_spec F))
    (p : pod) : list (node_spec F) :=
  if String.eqb (TaskPacker.pod_type p) "long-running"
  then long_running_nodes else batch_nodes.

(** The pod store files every pod under its namespace and name. *)
Definition keyed (st : InstanceCleaner.pod_store) : Prop :=
  map_Forall (fun k p => k = (pod_namespace p, pod_name p)) st.

(** [pod.metadata.labels.get('workload-type') == 'batch'] on a pod that
    has labels. *)
Definition batch_pod (p : pod) : bool :=
  match pod_labels p with
  | Some labels => bool_decide (labels !! "workload-type" = Some "batch")
  | None => false
  end.

(** [node.metadata.labels.get('workload') == 'batch'] on a node that has
    labels. *)
Definition batch_labelled (n : InstanceCleaner.node) : bool :=
  match InstanceCleaner.n_labels n with
  | Some labels => bool_decide (labels !! "workload" = Some "batch")
  | None => false
  end.

(** The key of a pod and the key of its replica. *)
Definition key_of (p : pod) : string * string :=
  (pod_namespace p, pod_name p).
Definition replica_key (p : pod) : string * string :=
  (pod_namespace p, InstanceCleaner.new_pod_name (pod_name p)).

(** Stand-ins for the builtins [int(s)] and [float(s)] on plain decimal
    numerals (digits, and for [float] an optional fraction), which is all
    the examples below feed them. *)
Definition digit_of (c : ascii) : option Z :=
  let n := N_of_ascii c in
  if ((48 <=? n) && (n <=? 57))%N then Some (Z.of_N (n - 48)) else None.

Fixpoint read_digits (s : string) (acc : Z) (count : nat)
  : Z * nat * string :=
  match s with
  | EmptyString => (acc, count, s)
  | String c s' =>
      match digit_of c with
      | Some d => read_digits s' (10 * acc + d) (S count)
      | None => (acc, count, s)
      end
  end.

Definition decimal_int (s : string) : option Z :=
  match read_digits s 0 0 with
  | (_, O, _) => None
  | (i, _, EmptyString) => Some i
  | _ => None
  end.

Definition decimal_float (s : string) : option Q :=
  match read_digits s 0 0 with
  | (_, O, _) => None
  | (i, _, EmptyString) => Some (inject_Z i)
  | (i, _, String "." frac) =>
      match read_digits frac 0 0 with
      | (_, O, _) => None
      | (f, k, EmptyString) =>
          Some (Qred ((i * 10 ^ Z.of_nat k + f) # Z.to_pos (10 ^ Z.of_nat k)))
      | _ => None
      end
  | _ => None
  end.

(** ** Example clusters *)
Module Scenario.

Definition requests_of (cpu memory : string) : gmap string string :=
  <["cpu" := cpu]> (<["memory" := memory]> ∅).

Definition task (name workload_type runtime cpu memory : string) : pod :=
  Pod name "default"
      (Some (<["workload-type" := workload_type]> ∅))
      (Some (<["runtime" := runtime]> ∅))
      (Some "htas-scheduler") None None
      [Container "main" (Some (Some (requests_of cpu memory)))]
      Pending.

Definition profile (name : string) (cpu mem : Q) (age : option Z)
  : node_spec Q :=
  NodeSpec (Some name) (Some "e2-standard-2") (Some cpu) (Some mem)
           (Some cpu) (Some mem) age.

(** Long-running placement: two nodes, the second the tighter fit. *)
Definition lr_a : node_spec Q := profile "longrunning-a" 4 8000 (Some 0).
Definition lr_b : node_spec Q := profile "longrunning-b" 4 4000 (Some 0).
Definition lr_task : pod := task "web" "long-running" "300" "1" "2000Mi".

(** Batch placement: a task of bin 3 and nodes of bins 0, 3 and 4. *)
Definition n1 : node_spec Q := profile "batch-n1" 4 8000 (Some 60).
Definition n2 : node_spec Q := profile "batch-n2" 4 8000 (Some 950).
Definition n3 : node_spec Q := profile "batch-n3" 4 8000 (Some 1400).
Definition batch_task : pod := task "job" "batch" "900" "500m" "1Gi".

(** A batch node whose spec carries no [runtime]. *)
Definition ageless : node_spec Q := profile "batch-new" 4 8000 None.

(** Autoscaling: demand (4 cpu, 16) and one young batch node of
    capacity (2, 0), which covers part of the demand only. *)
Definition demand : list pod := [task "job" "batch" "900" "4" "16"].
Definition young_node : node_profile Q :=
  NodeProfile (Some (NodeSpec (Some "batch-young") None
                              (Some 2%Q) (Some 0%Q) (Some 2%Q) (Some 0%Q)
                              (Some 100))).

(** An Autoscaler cycle: one request naming the pending pod of [demand],
    no node profiles, a batch pool of one node, every call accepted. *)
Definition request : autoscale_request :=
  AutoScaleRequest "asr-1700000000-batch" (Some "batch") (Some ["job"]).

Definition scaling_cluster : Autoscaler.cluster Q :=
  Autoscaler.Cluster
    (<["job" := task "job" "batch" "900" "4" "16"]> ∅)
    []
    (<["asr-1700000000-batch" := request]> ∅)
    (<["batch-pool" := Autoscaler.NodePoolInfo false (Some 10) 1]> ∅)
    ∅.

Definition all_accepted : Autoscaler.api :=
  Autoscaler.Api true true true (fun _ => true).

(** The container API cannot be reached; the other calls are accepted. *)
Definition pool_unreachable : Autoscaler.api :=
  Autoscaler.Api true false false (fun _ => true).

(** A young batch node that covers the whole demand (4, 16). *)
Definition covering_node : node_profile Q :=
  NodeProfile (Some (NodeSpec (Some "batch-big") None
                              (Some 4%Q) (Some 16%Q) (Some 4%Q) (Some 16%Q)
                              (Some 100))).

(** A Profiler pass over one batch node whose profile records a
    runtime-age of 120 s, and whose single Running pod requests more CPU
    than the node has allocatable. *)
Definition batch_node : ResourceProfiler.k8s_node Q :=
  ResourceProfiler.K8sNode "batch-node-1" (<["workload" := "batch"]> ∅)
    (ResourceProfiler.Num 4%Q) (ResourceProfiler.Num 1%Q)
    (ResourceProfiler.Num 16384%Q).

Definition greedy_pod : ResourceProfiler.node_pod Q :=
  ResourceProfiler.NodePod "batch-node-1" Running
    [<["cpu" := ResourceProfiler.Num 2%Q]>
       (<["memory" := ResourceProfiler.Num 1024%Q]> ∅)].

Definition aged_profiles : gmap string (node_profile Q) :=
  <["batch-node-1" :=
      NodeProfile (Some (profile "batch-node-1" 4000 16384 (Some 120)))]> ∅.

Definition fresh_frame : ResourceProfiler.frame Q :=
  ResourceProfiler.Frame None None.

(** A migration whose restore step fails. *)
Definition running_job : pod :=
  Pod "job" "default" (Some (<["workload-type" := "batch"]> ∅)) None
      (Some "htas-scheduler") (Some "bn-1") None
      [Container "main" (Some (Some (requests_of "500m" "2Gi")))]
      Running.

Definition restore_fails : InstanceCleaner.api :=
  InstanceCleaner.Api (fun cmd => negb (contains "criu restore" cmd))
                      true true.

(** A Packer cycle without nodes: two batch pods handled within the
    same clock second. *)
Definition job_a : pod := task "job-a" "batch" "900" "500m" "1Gi".
Definition job_b : pod := task "job-b" "batch" "900" "500m" "1Gi".

Definition same_second : TaskPacker.api :=
  TaskPacker.Api (fun _ => 1700000000) (fun _ _ => true) (fun _ _ => true).

(** The server refuses every binding. *)
Definition bind_refused : TaskPacker.api :=
  TaskPacker.Api (fun _ => 1700000000) (fun _ _ => false) (fun _ _ => true).

Definition no_objects : TaskPacker.cluster := TaskPacker.Cluster [] ∅.

(** A node outside the system (no [workload] label), listed after the
    batch node. *)
Definition system_node : ResourceProfiler.k8s_node Q :=
  ResourceProfiler.K8sNode "gke-system-1"
    (<["beta.kubernetes.io/instance-type" := "e2-medium"]> ∅)
    (ResourceProfiler.Num 2%Q) (ResourceProfiler.Num 2%Q)
    (ResourceProfiler.Num 4096%Q).


(** The Cleaner empties the batch node bn-1: a batch job and a logging
    agent run on it, bn-2 is the other batch node, every call is
    accepted. *)
Definition quantities (cpu memory : string) : gmap string string :=
  <["cpu" := cpu]> (<["memory" := memory]> ∅).

Definition bn_1 : InstanceCleaner.node :=
  InstanceCleaner.Node "bn-1" (Some (<["workload" := "batch"]> ∅))
    (quantities "4" "16384Mi") (quantities "4" "16384Mi") false.

Definition bn_2 : InstanceCleaner.node :=
  InstanceCleaner.Node "bn-2" (Some (<["workload" := "batch"]> ∅))
    (quantities "4" "16384Mi") (quantities "4" "8Gi") false.

Definition agent : pod :=
  Pod "log-agent" "default" (Some (<["app" := "logging"]> ∅)) None
      None (Some "bn-1") None
      [Container "agent" (Some (Some (requests_of "100m" "128Mi")))]
      Running.

Definition draining : InstanceCleaner.world :=
  InstanceCleaner.World
    (<[("default", "job") := running_job]>
       (<[("default", "log-agent") := agent]> ∅))
    [bn_1; bn_2] [].

(** A catalog entry offered at no price. *)
Definition free_tier : Autoscaler.flavor Q :=
  Autoscaler.Flavor "free-tier" 2%Q 4%Q 0%Q.

Definition calls_accepted : InstanceCleaner.api :=
  InstanceCleaner.Api (fun _ => true) true true.

Definition nodes_accepted : InstanceCleaner.node_api :=
  InstanceCleaner.NodeApi true true true (fun _ => O).

End Scenario.

(** * Properties *)

(** ** Numbers *)

#[export] Instance Q_PyNumOrder : PyNumOrder Q.
Proof.
  split; simpl.
  - reflexivity.
  - intros a b c Hab Hbc. apply Qle_bool_iff in Hab, Hbc.
    apply Qle_bool_iff. eapply Qle_trans; eassumption.
  - intros a b. destruct (Qlt_le_dec a b) as [Hlt | Hle].
    + left. apply Qle_bool_iff, Qlt_le_weak, Hlt.
    + right. apply Qle_bool_iff, Hle.
Qed.



(** ** The stable sort *)
Section SortFacts.
Context {A K : Type} (lt : K -> K -> bool) (key : A -> K).

(** [lt] is the strict part of a total preorder. *)
Hypothesis lt_asym : forall a b, lt a b = true -> lt b a = false.
Hypothesis ge_trans : forall a b c,
  lt b a = false -> lt c b = false -> lt c a = false.

Lemma sort_insert_perm (x : A) (l : list A) :
  Permutation (sort_insert lt key x l) (x :: l).
Proof.
  induction l as [| y l IH]; simpl; [reflexivity |].
  destruct (lt (key y) (key x)); [| reflexivity].
  rewrite IH. apply perm_swap.
Qed.

Lemma py_sort_perm (l : list A) : Permutation (py_sort lt key l) l.
Proof.
  induction l as [| x l IH]; simpl; [reflexivity |].
  fold (py_sort lt key l). rewrite sort_insert_perm. by constructor.
Qed.

Lemma py_sort_nil (l : list A) : py_sort lt key l = [] -> l = [].
Proof.
  intros Hs. pose proof (py_sort_perm l) as Hp. rewrite Hs in Hp.
  by apply Permutation_nil in Hp.
Qed.





End SortFacts.


Lemma filter_nil_none {A} (f : A -> bool) (l : list A) :
  List.filter f l = [] -> forall x, In x l -> f x = false.
Proof.
  intros Hf x Hx. destruct (f x) eqn:Hfx; [| done].
  assert (In x (List.filter f l)) as Hin by (by apply filter_In).
  rewrite Hf in Hin. destruct Hin.
Qed.

(** ** Task Packer: Best-Fit Decreasing *)
Module PackerFacts.
Import TaskPacker.

Section BFD.
Context {F : Type} `{PyNumOrder F}.
Variable py_float : string -> option F.




End BFD.
End PackerFacts.

(** ** Task Packer: Time-Bin BFD *)



Lemma sorted_In (l : list Z) (b : Z) : In b (sorted l) <-> In b l.
Proof.
  unfold sorted. split; apply Permutation_in;
    [| symmetry]; apply py_sort_perm.
Qed.

Lemma sorted_reverse_In (l : list Z) (b : Z) :
  In b (sorted_reverse l) <-> In b l.
Proof.
  unfold sorted_reverse. split; apply Permutation_in;
    [| symmetry]; apply py_sort_perm.
Qed.


Module TimeBinFacts.
Import TaskPacker.

Section TimeBin.
Context {F : Type} `{PyNumOrder F}.
Variable py_float : string -> option F.
Variable py_int : string -> option Z.

(** The dictionary [bins] holds, under each bin that occurs, the nodes of
    that bin in input order. *)
Lemma group_bins_lookup (S : Z) (nodes : list (node_spec F)) (b : Z) :
  group_bins S nodes !! b =
    match bin_group S nodes b with
    | [] => None
    | g => Some g
    end.
Proof.
  unfold group_bins, bin_group.
  induction nodes as [| x l IH] using rev_ind; [done |].
  rewrite fold_left_app, List.filter_app. simpl. unfold setdefault_append at 1.
  destruct (Z.eqb_spec (node_bin S x) b) as [-> | Hne].
  - rewrite lookup_insert_eq, IH.
    by destruct (List.filter _ l).
  - rewrite lookup_insert_ne, IH by done. by rewrite app_nil_r.
Qed.

Lemma bin_keys_In (S : Z) (nodes : list (node_spec F)) (b : Z) :
  In b (bin_keys (group_bins S nodes))
  <-> exists n, In n nodes /\ node_bin S n = b.
Proof.
  unfold bin_keys. rewrite <- list_elem_of_In, list_elem_of_fmap. split.
  - intros ([k g] & -> & Hin). apply elem_of_map_to_list in Hin.
    rewrite group_bins_lookup in Hin. simpl.
    destruct (bin_group S nodes k) as [| n g'] eqn:Hg; [done |].
    assert (In n (bin_group S nodes k)) as Hn by (rewrite Hg; by left).
    apply filter_In in Hn as [Hn Hb]. exists n. split; [done | lia].
  - intros (n & Hn & Hb).
    assert (In n (bin_group S nodes b)) as Hin.
    { apply filter_In. split; [done | lia]. }
    destruct (bin_group S nodes b) as [| n' g] eqn:Hg; [done |].
    exists (b, n' :: g). split; [done |].
    apply elem_of_map_to_list. by rewrite group_bins_lookup, Hg.
Qed.


Lemma batch_named_truthy (n : node_spec F) :
  batch_named n -> exists s, instanceName n = Some s /\ truthy (Some s) = true.
Proof.
  intros (s & Hs & Hc). exists s. split; [done |].
  destruct s; [discriminate | done].
Qed.






End TimeBin.
End TimeBinFacts.

(** ** Nodes without a [runtime] field *)

Lemma zero_bin_nodes_young {F} (batch_nodes zero_bin : list (node_profile F))
    (S : Z) :
  Autoscaler.zero_bin_nodes batch_nodes S = Done zero_bin ->
  forall node, In node zero_bin ->
    exists spec, np_spec node = Some spec /\ default S (runtime spec) < S.
Proof.
  revert zero_bin. induction batch_nodes as [| n l IH]; simpl;
    intros zero_bin Hz node Hin.
  - injection Hz as <-. destruct Hin.
  - unfold Autoscaler.spec_of in Hz.
    destruct (np_spec n) as [spec |] eqn:Hspec; [| discriminate]. simpl in Hz.
    destruct (Autoscaler.zero_bin_nodes l S) as [tail | |]; [| done | done].
    simpl in Hz.
    destruct (Z.ltb_spec (default S (runtime spec)) S) as [Hlt | Hge];
      injection Hz as <-.
    + destruct Hin as [<- | Hin]; [by exists spec | by apply (IH tail)].
    + by apply (IH tail).
Qed.

(** C10. A batch node spec without a [runtime] field is read with the
    value scaling_cycle by both consumers: the Packer's time-bin scheduler
    puts it in bin 1 = scaling_cycle // scaling_cycle, not in bin 0, and
    the Autoscaler's zero-bin selection leaves it out, the defaulted value
    not being strictly below scaling_cycle. *)
Theorem missing_runtime_defaults_to_cycle {F} (spec : node_spec F) (S : Z) :
  runtime spec = None ->
  S <> 0 ->
  TaskPacker.node_bin S spec = 1
  /\ (forall nodes, In spec nodes ->
        exists g, TaskPacker.group_bins S nodes !! 1 = Some g /\ In spec g)
  /\ (forall nodes g, TaskPacker.group_bins S nodes !! 0 = Some g ->
        ~ In spec g)
  /\ (forall batch_nodes zero_bin,
        Autoscaler.zero_bin_nodes batch_nodes S = Done zero_bin ->
        ~ In (NodeProfile (Some spec)) zero_bin).
Proof.
  intros Hrt HS.
  assert (TaskPacker.node_bin S spec = 1) as Hbin.
  { unfold TaskPacker.node_bin. rewrite Hrt. simpl. by apply Z_div_same_full. }
  split; [done |]. split; [| split].
  - intros nodes Hin. rewrite TimeBinFacts.group_bins_lookup.
    assert (In spec (bin_group S nodes 1)) as Hg.
    { apply filter_In. split; [done | lia]. }
    destruct (bin_group S nodes 1) as [| n g]; [done |]. by exists (n :: g).
  - intros nodes g Hg Hin. rewrite TimeBinFacts.group_bins_lookup in Hg.
    assert (In spec (bin_group S nodes 0)) as Hin'.
    { destruct (bin_group S nodes 0); [done |]. by injection Hg as ->. }
    apply filter_In in Hin' as [_ Hb]. lia.
  - intros batch_nodes zero_bin Hz Hin.
    destruct (zero_bin_nodes_young _ _ _ Hz _ Hin) as (spec' & Hs & Hlt).
    simpl in Hs. injection Hs as <-. rewrite Hrt in Hlt. simpl in Hlt. lia.
Qed.

(** ** The scenarios of the specification, evaluated *)

Example long_running_placement :
  TaskPacker.bfd_algorithm decimal_float Scenario.lr_task
    [Scenario.lr_a; Scenario.lr_b] = Done (Some "longrunning-b").
Proof. vm_compute. reflexivity. Qed.

Example batch_placement :
  TaskPacker.time_bin_bfd decimal_float decimal_int Scenario.batch_task
    [Scenario.n1; Scenario.n2; Scenario.n3] 300 = Done (Some "batch-n2").
Proof. vm_compute. reflexivity. Qed.

Example batch_visit_order :
  TaskPacker.visit_order 3
    (TaskPacker.group_bins 300
       [Scenario.n1; Scenario.n2; Scenario.n3; Scenario.ageless])
  = [3; 4; 1; 0].
Proof. vm_compute. reflexivity. Qed.

Example zero_bin_covers_demand :
  Autoscaler.batch_node_autoscaling decimal_float 10 Scenario.demand
    [Scenario.covering_node] 300 Autoscaler.VM_FLAVORS = Done [].
Proof. vm_compute. reflexivity. Qed.

Example batch_requests :
  TaskPacker.pod_requests decimal_float Scenario.batch_task
  = ((500 # 1000)%Q, 1024%Q).
Proof. vm_compute. reflexivity. Qed.

(** ** The theorems with hypotheses, at the scenarios *)



Lemma missing_runtime_defaults_to_cycle_witness :
  runtime Scenario.ageless = None
  /\ 300 <> 0
  /\ TaskPacker.node_bin 300 Scenario.ageless = 1
  /\ (forall nodes, In Scenario.ageless nodes ->
        exists g, TaskPacker.group_bins 300 nodes !! 1 = Some g
                  /\ In Scenario.ageless g)
  /\ (forall nodes g, TaskPacker.group_bins 300 nodes !! 0 = Some g ->
        ~ In Scenario.ageless g)
  /\ (forall batch_nodes zero_bin,
        Autoscaler.zero_bin_nodes batch_nodes 300 = Done zero_bin ->
        ~ In (NodeProfile (Some Scenario.ageless)) zero_bin).
Proof.
  assert (300 <> 0) as HS by lia.
  split; [reflexivity |]. split; [exact HS |].
  exact (missing_runtime_defaults_to_cycle Scenario.ageless 300 eq_refl HS).
Defined.

(** ** Autoscaler: the greedy flavor selector *)
Module GreedyFacts.
Import Autoscaler.

(** The catalog in binary64 is the one the source writes. *)
Example VM_FLAVORS_binary64 :
  VM_FLAVORS (F := float)
  = [ Flavor "e2-micro" 2%float 1%float 0.0060%float;
      Flavor "e2-standard-2" 2%float 8%float 0.0686%float ].
Proof. vm_compute. reflexivity. Qed.

(** The scores of the first round, in exact arithmetic: 1/0.006 for
    e2-micro against 1/0.0686 for e2-standard-2. *)
Example first_round_scores :
  exists micro standard : Q,
    calculate_score e2_micro (py_min 4 2)%Q (py_min 16 1)%Q = Done micro
    /\ calculate_score e2_standard_2 (py_min 4 2)%Q (py_min 16 8)%Q
       = Done standard
    /\ (micro == 10000 # 60)%Q /\ (standard == 10000 # 686)%Q
    /\ (standard < micro)%Q.
Proof. do 2 eexists. repeat split; vm_compute; reflexivity. Qed.

(** C3, as the code has it. With the catalog {e2-micro: (2, 1, 0.006),
    e2-standard-2: (2, 8, 0.0686)} and unmet demand (4 cpu, 16 GiB), the
    greedy selector returns [e2-micro, e2-micro, e2-micro, e2-micro], in
    binary64 as in exact arithmetic, and whether memory is counted in GiB
    (16) or, as the pod requests are, in MiB (16384). In binary64, round
    by round: at the remaining totals (4, 16), (2, 15) and (0, 14)
    e2-micro scores strictly higher than e2-standard-2; at (-2, 13) both
    score exactly 0, and e2-micro is taken because it stands first in
    the catalog and a later flavor replaces the best one only by a
    strictly higher score (with the catalog reversed the fourth pick is
    e2-standard-2); at (-4, 12) both scores are below the initial best
    score -1, that of e2-standard-2 being the higher, so the scan picks
    nothing and the loop ends there, with memory demand left. *)
Theorem greedy_scenario_picks_micro (fuel : nat) :
  greedy_loop (F := float) (5 + fuel) (of_int 4) (of_int 16) VM_FLAVORS
    = Done [e2_micro; e2_micro; e2_micro; e2_micro]
  /\ greedy_loop (F := float) (5 + fuel) (of_int 4) (of_int 16384) VM_FLAVORS
    = Done [e2_micro; e2_micro; e2_micro; e2_micro]
  /\ greedy_loop (F := Q) (5 + fuel) (of_int 4) (of_int 16) VM_FLAVORS
    = Done [e2_micro; e2_micro; e2_micro; e2_micro]
  /\ greedy_loop (F := Q) (5 + fuel) (of_int 4) (of_int 16384) VM_FLAVORS
    = Done [e2_micro; e2_micro; e2_micro; e2_micro]
  /\ (exists micro standard : float,
        catalog_scores (of_int 4) (of_int 16) = Done (micro, standard)
        /\ (standard <? micro)%py = true)
  /\ (exists micro standard : float,
        catalog_scores (of_int 2) (of_int 15) = Done (micro, standard)
        /\ (standard <? micro)%py = true)
  /\ (exists micro standard : float,
        catalog_scores (of_int 0) (of_int 14) = Done (micro, standard)
        /\ (standard <? micro)%py = true)
  /\ catalog_scores (F := float) (of_int (-2)) (of_int 13)
     = Done (of_int 0, of_int 0)
  /\ (exists micro standard : float,
        catalog_scores (of_int (-4)) (of_int 12) = Done (micro, standard)
        /\ (micro <? standard)%py = true
        /\ (standard <? of_int (-1))%py = true)
  /\ scan_flavors (F := float) (of_int (-4)) (of_int 12) VM_FLAVORS None
       (of_int (-1))
     = Done None
  /\ greedy_loop (F := float) (5 + fuel) (of_int 4) (of_int 16)
       [e2_standard_2; e2_micro]
     = Done [e2_micro; e2_micro; e2_micro; e2_standard_2].
Proof.
  repeat split; try (vm_compute; reflexivity);
    do 2 eexists; repeat split; vm_compute; reflexivity.
Qed.

(** C3 as stated fails: no amount of fuel makes the selector return
    [e2-standard-2, e2-standard-2], in binary64 or in exact arithmetic. *)
Lemma greedy_scenario_not_two_standard :
  ~ (exists fuel,
       greedy_loop (F := float) fuel (of_int 4) (of_int 16) VM_FLAVORS
         = Done [e2_standard_2; e2_standard_2])
  /\ ~ (exists fuel,
       greedy_loop (F := Q) fuel (of_int 4) (of_int 16) VM_FLAVORS
         = Done [e2_standard_2; e2_standard_2]).
Proof.
  split; intros [fuel Hr];
    do 5 (destruct fuel as [| fuel]; [vm_compute in Hr; discriminate |]);
    vm_compute in Hr; discriminate.
Qed.

End GreedyFacts.

(** ** Autoscaler: zero-bin subtraction *)
Module ZeroBinFacts.
Import Autoscaler.

Section ZeroBin.
Context {F : Type} `{PyNum F}.
Variable py_float : string -> option F.

Lemma zero_bin_nodes_specs (batch_nodes : list (node_profile F)) (S : Z) :
  Forall (fun node => is_Some (np_spec node)) batch_nodes ->
  exists zero_bin,
    zero_bin_nodes batch_nodes S = Done zero_bin
    /\ omap np_spec zero_bin = zero_bin_specs S batch_nodes.
Proof.
  unfold zero_bin_specs.
  induction 1 as [| node l [spec Hspec] _ (zb & Hz & Hzb)]; cbn.
  - by exists [].
  - unfold spec_of. rewrite Hspec, Hz. cbn.
    destruct (default S (runtime spec) <? S).
    + exists (node :: zb). cbn. by rewrite Hspec, Hzb.
    + by exists zb.
Qed.

(** [batch_node_autoscaling] in one equation. *)
Lemma batch_node_autoscaling_eq (fuel : nat)
    (pending_pods : list pod) (batch_nodes : list (node_profile F))
    (S : Z) (vm_flavors : list (flavor F)) :
  Forall (fun node => is_Some (np_spec node)) batch_nodes ->
  batch_node_autoscaling py_float fuel pending_pods batch_nodes S vm_flavors
  = let reduced :=
      fold_left subtract_capacity (zero_bin_specs S batch_nodes)
                (total_cpu_of py_float pending_pods,
                 total_mem_of py_float pending_pods) in
    if (reduced.1 <=? of_int 0)%py && (reduced.2 <=? of_int 0)%py
    then Done []
    else greedy_autoscaling py_float fuel pending_pods vm_flavors.
Proof.
  intros Hspec.
  destruct (zero_bin_nodes_specs batch_nodes S Hspec) as (zb & Hz & Hzb).
  unfold batch_node_autoscaling. rewrite Hz. unfold res_bind. rewrite Hzb.
  by destruct (fold_left _ _ _).
Qed.

(** C4, as the code has it. For a batch request whose node profiles
    carry a spec, the autoscaler subtracts the cpuCapacity and
    memoryCapacity of every batch-pool profile with runtime-age below
    scaling_cycle from the pending tasks' totals; if both reduced totals
    are <= 0 it selects no flavors, and otherwise the greedy selector
    runs from the original totals of the pending tasks: the reduced
    totals only decide whether to provision at all. *)
Theorem batch_autoscaling_gates_on_reduced_totals (fuel : nat)
    (pending_pods : list pod) (batch_nodes : list (node_profile F))
    (S : Z) (vm_flavors : list (flavor F)) :
  Forall (fun node => is_Some (np_spec node)) batch_nodes ->
  let total_cpu := total_cpu_of py_float pending_pods in
  let total_mem := total_mem_of py_float pending_pods in
  let reduced := fold_left subtract_capacity (zero_bin_specs S batch_nodes)
                           (total_cpu, total_mem) in
  batch_node_autoscaling py_float fuel pending_pods batch_nodes S vm_flavors
  = if (reduced.1 <=? of_int 0)%py && (reduced.2 <=? of_int 0)%py
    then Done []
    else greedy_loop fuel total_cpu total_mem vm_flavors.
Proof.
  intros Hspec total_cpu total_mem reduced.
  by rewrite batch_node_autoscaling_eq.
Qed.

End ZeroBin.

(** In exact arithmetic the loop leaves the totals less the summed
    capacities. *)
Lemma subtract_capacity_sum (specs : list (node_spec Q)) (cpu mem : Q) :
  let reduced := fold_left subtract_capacity specs (cpu, mem) in
  (reduced.1 ==
     cpu - fold_right Qplus 0 (map (fun s => default 0 (cpuCapacity s)) specs))%Q
  /\ (reduced.2 ==
     mem - fold_right Qplus 0
             (map (fun s => default 0 (memoryCapacity s)) specs))%Q.
Proof.
  revert cpu mem. induction specs as [| s l IH]; intros cpu mem; simpl.
  - split; ring.
  - destruct (IH (cpu - default 0 (cpuCapacity s))%Q
                 (mem - default 0 (memoryCapacity s))%Q) as [H1 H2].
    simpl in H1, H2. unfold subtract_capacity at 2 4. simpl.
    rewrite H1, H2. split; ring.
Qed.

(** C4 as stated fails: with demand (4, 16) and a young batch node of
    capacity (2, 0) the reduced totals are (2, 16), yet the flavors
    selected are those for (4, 16), not those for (2, 16). *)
Lemma batch_autoscaling_not_from_reduced_totals :
  let pending_pods := Scenario.demand in
  let batch_nodes := [Scenario.young_node] in
  let reduced :=
    fold_left subtract_capacity (zero_bin_specs 300 batch_nodes)
              (total_cpu_of decimal_float pending_pods,
               total_mem_of decimal_float pending_pods) in
  reduced = (2%Q, 16%Q)
  /\ batch_node_autoscaling decimal_float 10 pending_pods batch_nodes 300
                            VM_FLAVORS
     = Done [e2_micro; e2_micro; e2_micro; e2_micro]
  /\ greedy_loop 10 reduced.1 reduced.2 VM_FLAVORS
     = Done [e2_micro; e2_micro; e2_micro]
  /\ batch_node_autoscaling decimal_float 10 pending_pods batch_nodes 300
                            VM_FLAVORS
     <> greedy_loop 10 reduced.1 reduced.2 VM_FLAVORS.
Proof.
  repeat split; try (vm_compute; reflexivity).
  vm_compute. discriminate.
Qed.

End ZeroBinFacts.

Lemma batch_autoscaling_gates_on_reduced_totals_witness :
  let pending_pods := Scenario.demand in
  let batch_nodes := [Scenario.young_node] in
  Forall (fun node => is_Some (np_spec node)) batch_nodes
  /\ (let total_cpu := Autoscaler.total_cpu_of decimal_float pending_pods in
      let total_mem := Autoscaler.total_mem_of decimal_float pending_pods in
      let reduced :=
        fold_left Autoscaler.subtract_capacity (zero_bin_specs 300 batch_nodes)
                  (total_cpu, total_mem) in
      Autoscaler.batch_node_autoscaling decimal_float 10 pending_pods
        batch_nodes 300 Autoscaler.VM_FLAVORS
      = if (reduced.1 <=? of_int 0)%py && (reduced.2 <=? of_int 0)%py
        then Done []
        else Autoscaler.greedy_loop 10 total_cpu total_mem
                                    Autoscaler.VM_FLAVORS).
Proof.
  intros pending_pods batch_nodes.
  assert (Forall (fun node : node_profile Q => is_Some (np_spec node))
                 batch_nodes) as Hs.
  { repeat constructor. by eexists. }
  split; [exact Hs |].
  exact (ZeroBinFacts.batch_autoscaling_gates_on_reduced_totals
           decimal_float 10 pending_pods batch_nodes 300
           Autoscaler.VM_FLAVORS Hs).
Defined.

(** ** Autoscaler: the selector returns *)
Module GreedyTermination.
Import Autoscaler.

Lemma calculate_score_returns {F} `{PyNum F} (fl : flavor F) (u v : F) :
  scorable fl -> exists s, calculate_score fl u v = Done s.
Proof.
  intros (Hc & Hm & Hp). unfold calculate_score, py_div.
  rewrite Hc, Hm, Hp. simpl. by eexists.
Qed.

(** The scan returns the incoming [best] or a flavor of the catalog. *)
Lemma scan_flavors_member {F} `{PyNum F} (fls : list (flavor F))
    (tc tm : F) (best : option (flavor F)) (best_score : F) :
  Forall scorable fls ->
  exists best',
    scan_flavors tc tm fls best best_score = Done best'
    /\ (best' = best \/ exists fl, In fl fls /\ best' = Some fl).
Proof.
  intros Hs. revert best best_score.
  induction Hs as [| fl fls Hfl _ IH]; intros best best_score; simpl.
  - exists best. by split; [| left].
  - destruct (calculate_score_returns fl (py_min tc (fl_cpu fl))
                (py_min tm (fl_memory fl)) Hfl) as [s ->]. simpl.
    destruct (flt best_score s).
    + destruct (IH (Some fl) s) as (b & -> & [-> | (fl' & Hin & ->)]).
      * exists (Some fl). split; [done |]. right. exists fl. by split; [left |].
      * exists (Some fl'). split; [done |]. right. exists fl'.
        by split; [right |].
    + destruct (IH best best_score) as (b & -> & [-> | (fl' & Hin & ->)]).
      * exists best. by split; [| left].
      * exists (Some fl'). split; [done |]. right. exists fl'.
        by split; [right |].
Qed.

Lemma py_min_Q_le_l (a b : Q) : (py_min a b <= a)%Q.
Proof.
  unfold py_min. simpl. destruct (Qle_bool a b) eqn:E; simpl; [lra |].
  assert (~ (a <= b)%Q) by (rewrite <- Qle_bool_iff; congruence). lra.
Qed.

Lemma py_min_Q_le_r (a b : Q) : (py_min a b <= b)%Q.
Proof.
  unfold py_min. simpl. destruct (Qle_bool a b) eqn:E; simpl; [| lra].
  by apply Qle_bool_iff.
Qed.

Lemma fzero_Q_pos (q : Q) : (0 < q)%Q -> fzero q = false.
Proof.
  intros Hq. simpl. apply Z.eqb_neq. intros Hn.
  destruct q as [n d]. simpl in Hn. subst n. unfold Qlt in Hq. simpl in Hq. lia.
Qed.

(** Once CPU demand is overshot by two nodes, a flavor of 2 cores and a
    price of at most 0.5 scores -1 or less. *)
Lemma calculate_score_low (fl : flavor Q) (u v : Q) :
  (fl_cpu fl == 2)%Q -> (0 < fl_memory fl)%Q ->
  (0 < fl_price fl)%Q -> (fl_price fl <= 1 # 2)%Q ->
  (u <= -4)%Q ->
  exists s, calculate_score fl u v = Done s /\ (s <= -1)%Q.
Proof.
  intros Hc Hm Hp Hp' Hu. unfold calculate_score, py_div.
  rewrite (fzero_Q_pos (fl_cpu fl)) by lra.
  rewrite (fzero_Q_pos (fl_memory fl)), (fzero_Q_pos (fl_price fl)) by done.
  simpl. eexists. split; [reflexivity |].
  pose proof (py_min_Q_le_l (u / fl_cpu fl) (inject_Z 1)) as HA.
  pose proof (py_min_Q_le_r (v / fl_memory fl) (inject_Z 1)) as HB.
  set (A := py_min (u / fl_cpu fl)%Q (inject_Z 1)) in *.
  set (B := py_min (v / fl_memory fl)%Q (inject_Z 1)) in *.
  assert (u / fl_cpu fl <= -2)%Q as Hdiv.
  { apply Qle_shift_div_r; lra. }
  assert (lit 1 2 == 1 # 2)%Q as Hhalf by reflexivity.
  apply Qle_shift_div_r; [done |].
  rewrite Hhalf. change (inject_Z 1) with 1%Q in HA, HB. lra.
Qed.

Lemma VM_FLAVORS_scorable : Forall scorable (VM_FLAVORS (F := Q)).
Proof. repeat constructor. Qed.

Lemma VM_FLAVORS_two_cores (fl : flavor Q) :
  In fl VM_FLAVORS -> fl_cpu fl = 2%Q.
Proof. intros [<- | [<- | []]]; reflexivity. Qed.

Lemma scan_overshot (tc tm : Q) :
  (tc <= -4)%Q ->
  scan_flavors tc tm VM_FLAVORS None (of_int (-1)) = Done None.
Proof.
  intros Htc. unfold VM_FLAVORS.
  assert (forall fl : flavor Q, (fl_cpu fl == 2)%Q ->
            (py_min tc (fl_cpu fl) <= -4)%Q) as Hu.
  { intros fl Hc. pose proof (py_min_Q_le_l tc (fl_cpu fl)). lra. }
  assert (forall s : Q, (s <= -1)%Q -> flt (of_int (-1)) s = false) as Hlow.
  { intros s Hs. simpl. apply negb_false_iff, Qle_bool_iff.
    by change (inject_Z (-1)) with (-1)%Q. }
  cbn [scan_flavors].
  destruct (calculate_score_low e2_micro (py_min tc (fl_cpu e2_micro))
              (py_min tm (fl_memory e2_micro))) as (s1 & -> & Hs1);
    [reflexivity | reflexivity | reflexivity | by vm_compute
    | by apply Hu |].
  cbn [res_bind]. rewrite (Hlow s1 Hs1).
  destruct (calculate_score_low e2_standard_2
              (py_min tc (fl_cpu e2_standard_2))
              (py_min tm (fl_memory e2_standard_2))) as (s2 & -> & Hs2);
    [reflexivity | reflexivity | reflexivity | by vm_compute
    | by apply Hu |].
  cbn [res_bind]. by rewrite (Hlow s2 Hs2).
Qed.

(** With the catalog of the source, the selector returns once the fuel
    covers half the CPU demand plus two rounds. *)
Lemma greedy_loop_returns (fuel : nat) (tc tm : Q) :
  (tc + 4 <= inject_Z (2 * Z.of_nat fuel))%Q ->
  exists selected, greedy_loop (S fuel) tc tm VM_FLAVORS = Done selected.
Proof.
  revert tc tm. induction fuel as [| fuel IH]; intros tc tm Hf.
  - cbn [greedy_loop].
    destruct (_ || _); [| by eexists].
    rewrite scan_overshot; [by eexists |].
    change (inject_Z (2 * Z.of_nat 0)) with 0%Q in Hf. lra.
  - remember (S fuel) as k eqn:Hk. cbn [greedy_loop].
    destruct (_ || _); [| by eexists].
    destruct (scan_flavors_member VM_FLAVORS tc tm None (of_int (-1))
                VM_FLAVORS_scorable)
      as (best & -> & [-> | (fl & Hin & ->)]); cbn [res_bind];
      [by eexists |].
    subst k. destruct (IH (tc - fl_cpu fl)%Q (tm - fl_memory fl)%Q)
      as [sel Hsel].
    + rewrite (VM_FLAVORS_two_cores fl Hin).
      assert (inject_Z (2 * Z.of_nat (S fuel))
              == inject_Z (2 * Z.of_nat fuel) + 2)%Q as Hs.
      { rewrite <- (inject_Z_plus _ 2). f_equiv. lia. }
      lra.
    + change (tc - fl_cpu fl)%py with (tc - fl_cpu fl)%Q.
      change (tm - fl_memory fl)%py with (tm - fl_memory fl)%Q.
      rewrite Hsel. cbn [res_bind]. by eexists.
Qed.

Lemma greedy_loop_total (tc tm : Q) (fuel : nat) :
  (enough_fuel tc <= fuel)%nat ->
  exists selected, greedy_loop fuel tc tm VM_FLAVORS = Done selected.
Proof.
  unfold enough_fuel. intros Hf. destruct fuel as [| fuel]; [lia |].
  apply greedy_loop_returns.
  pose proof (Qle_ceiling tc) as Hc.
  assert (inject_Z (Qceiling tc + 4) <= inject_Z (2 * Z.of_nat fuel))%Q as Hz.
  { rewrite <- Zle_Qle. lia. }
  rewrite inject_Z_plus in Hz. change (inject_Z 4) with 4%Q in Hz. lra.
Qed.

End GreedyTermination.

(** ** Autoscaler: what a cycle does to a request *)
Module CycleFacts.
Import Autoscaler GreedyTermination.

Section AnyNumber.
Context {F : Type} `{PyNum F}.
Variable py_float : string -> option F.
Variable a : api.

Lemma resize_preserves (node_pool : string) (needed : Z)
    (st st1 : cluster F) (log : scale_log) :
  resize_node_pool a node_pool needed st = Done (st1, log) ->
  pods st1 = pods st /\ nodeprofiles st1 = nodeprofiles st
  /\ autoscalerequests st1 = autoscalerequests st.
Proof.
  unfold resize_node_pool, res_bind. intros E.
  repeat case_match; simplify_eq; done.
Qed.

(** Scaling touches the pool sizes only. *)
Lemma scale_preserves (workload_type : string) (needed : Z) (st : cluster F) :
  let st1 := (scale_gke_node_pool a workload_type needed st).1 in
  pods st1 = pods st /\ nodeprofiles st1 = nodeprofiles st
  /\ autoscalerequests st1 = autoscalerequests st.
Proof.
  unfold scale_gke_node_pool.
  destruct (NODE_POOL_MAPPING !! lower workload_type) as [pool |]; [| done].
  destruct (resize_node_pool a pool needed st) as [[st1 log] | |] eqn:E;
    [| done | done].
  by apply resize_preserves in E.
Qed.

Lemma resolve_pending_pods (st st1 : cluster F) (names : list string) :
  pods st1 = pods st -> resolve_pending st1 names = resolve_pending st names.
Proof.
  intros Hp. induction names as [| n l IH]; simpl; [done |].
  by rewrite Hp, IH.
Qed.

Lemma collect_batch_specs (l : list (node_profile F)) :
  Forall (fun node => is_Some (np_spec node)) (collect_batch l).
Proof.
  induction l as [| n l IH]; simpl; [constructor |].
  destruct (np_spec n) as [spec |] eqn:Hs; [| constructor].
  destruct (contains _ _); [| done]. constructor; [by rewrite Hs | done].
Qed.

(** One request, when its handling returns: pods and profiles are as
    before, and the request is gone exactly when it was deletable. *)
Lemma process_request_sound (req : autoscale_request) (st st1 : cluster F)
    (fuel : nat) (log : option scale_log) :
  process_request py_float fuel a req st = Done (st1, log) ->
  pods st1 = pods st /\ nodeprofiles st1 = nodeprofiles st
  /\ autoscalerequests st1
     = delete_processed a st (autoscalerequests st) req.
Proof.
  unfold process_request, spec_of_request, delete_processed, deletable,
    pending_of, named_pods.
  destruct (asr_spec req) as [spec |]; [| done]. cbn [res_bind].
  destruct (resolve_pending st (default [] (podNames spec)))
    as [| p l] eqn:Hp; [by intros [= <- <-] |].
  destruct (vms_needed_for py_float fuel a st _ (p :: l)) as [vms | |];
    [| done | done].
  cbn [res_bind].
  pose proof (scale_preserves (default "batch" (workloadType spec))
                (Z.of_nat (length vms)) st) as (Hpods & Hprof & Hreq).
  destruct (scale_gke_node_pool a _ _ st) as [st2 log2]. simpl in *.
  intros [= <- <-]. unfold delete_request.
  destruct (delete_accepted a (asr_name req)); simpl; by rewrite ?Hreq.
Qed.

Lemma deletable_pods (st st1 : cluster F) (req : autoscale_request) :
  pods st1 = pods st -> deletable a st1 req = deletable a st req.
Proof.
  intros Hp. unfold deletable, pending_of. by rewrite (resolve_pending_pods st).
Qed.

Lemma process_each_sound (st0 : cluster F) (reqs : list autoscale_request)
    (fuel : nat) (st st' : cluster F) :
  pods st = pods st0 ->
  process_each py_float fuel a reqs st = Done st' ->
  pods st' = pods st0
  /\ autoscalerequests st'
     = fold_left (delete_processed a st0) reqs (autoscalerequests st).
Proof.
  revert st. induction reqs as [| req reqs IH]; intros st Hp; simpl.
  - by intros [= <-].
  - destruct (process_request py_float fuel a req st) as [[st1 log] | |]
      eqn:Hreq; [| done | done].
    cbn [res_bind fst]. intros Hrest.
    apply process_request_sound in Hreq as (Hp1 & _ & Hs1).
    apply IH in Hrest as (Hp' & Hs'); [| by rewrite Hp1].
    split; [done |]. rewrite Hs', Hs1. unfold delete_processed.
    by rewrite (deletable_pods st0 st).
Qed.

Lemma fold_delete_lookup (st0 : cluster F) (reqs : list autoscale_request)
    (store : gmap string autoscale_request) (k : string) :
  fold_left (delete_processed a st0) reqs store !! k = None
  <-> store !! k = None
      \/ exists req, In req reqs /\ asr_name req = k
                     /\ deletable a st0 req = true.
Proof.
  revert store. induction reqs as [| r l IH]; intros store; simpl.
  - split; [by left | intros [Hn | (req & [] & _)]; done].
  - rewrite IH. unfold delete_processed at 1.
    destruct (deletable a st0 r) eqn:Hd.
    + rewrite lookup_delete_None. split.
      * intros [[<- | Hn] | (req & Hin & Hk & Hreq)];
          [right; exists r; by repeat split; [left | ..]
          | by left
          | right; exists req; by repeat split; [right | ..]].
      * intros [Hn | (req & [<- | Hin] & Hk & Hreq)];
          [left; by right
          | left; by left
          | right; by exists req].
    + split.
      * intros [Hn | (req & Hin & Hk & Hreq)];
          [by left | right; exists req; by repeat split; [right | ..]].
      * intros [Hn | (req & [<- | Hin] & Hk & Hreq)];
          [by left | congruence | right; by exists req].
Qed.

(** C5, as the code has it. After one Autoscaler cycle that completes
    over a store that holds request R, R is deleted if and only if at
    least one task it names is still Pending and the server accepts the
    delete call. The outcome of the node-pool resize plays no part: the
    request is deleted after a failed resize as after a successful one,
    and a request none of whose tasks is Pending is skipped and stays.
    This holds in any arithmetic, binary64 included; a cycle that does
    not complete (a request without spec, a flavor selection that does
    not end) is not a cycle of this statement. *)
Theorem request_deleted_iff_pending_and_accepted (st st' : cluster F)
    (R : autoscale_request) (fuel : nat) :
  well_named (autoscalerequests st) ->
  autoscalerequests st !! asr_name R = Some R ->
  autoscale_loop py_float fuel a st = Done st' ->
  autoscalerequests st' !! asr_name R = None
  <-> pending_of st R <> [] /\ delete_accepted a (asr_name R) = true.
Proof.
  intros Hwn HR Hrun. unfold autoscale_loop in Hrun.
  apply (process_each_sound st) in Hrun as [_ Hstore]; [| done].
  rewrite Hstore, fold_delete_lookup, HR.
  assert (deletable a st R = true
          <-> pending_of st R <> [] /\ delete_accepted a (asr_name R) = true)
    as Hdel.
  { unfold deletable. destruct (pending_of st R).
    - split; [done | by intros [? _]].
    - split; [by intros ? | by intros [_ ?]]. }
  rewrite <- Hdel. split.
  - intros [? | (req & Hin & Hk & Hd)]; [done |].
    apply list_elem_of_In, list_elem_of_fmap in Hin as ([k r] & -> & Hin).
    apply elem_of_map_to_list in Hin. simpl in *.
    pose proof (Hwn k r Hin) as Hkr. subst k.
    rewrite Hk, HR in Hin. by injection Hin as ->.
  - intros Hd. right. exists R. split; [| done].
    apply list_elem_of_In, list_elem_of_fmap. exists (asr_name R, R).
    split; [done |]. by apply elem_of_map_to_list.
Qed.

End AnyNumber.

(** In exact arithmetic a cycle over requests that have a spec completes,
    given fuel for its flavor selections. *)
Section Exact.
Variable py_float : string -> option Q.
Variable a : api.

Lemma vms_needed_returns (st : cluster Q) (workload_type : string)
    (pending_pods : list pod) (fuel : nat) :
  (enough_fuel (total_cpu_of py_float pending_pods) <= fuel)%nat ->
  exists vms,
    vms_needed_for py_float fuel a st workload_type pending_pods = Done vms.
Proof.
  intros Hf. unfold vms_needed_for.
  destruct (String.eqb _ _); [by apply greedy_loop_total |].
  rewrite ZeroBinFacts.batch_node_autoscaling_eq.
  - simpl. destruct (_ && _); [by eexists | by apply greedy_loop_total].
  - unfold fetch_batch_nodes.
    destruct (list_nodeprofiles_ok a); [apply collect_batch_specs | constructor].
Qed.

Lemma process_request_returns (req : autoscale_request) (st : cluster Q)
    (fuel : nat) :
  is_Some (asr_spec req) ->
  (enough_fuel (total_cpu_of py_float (pending_of st req)) <= fuel)%nat ->
  exists st1 log, process_request py_float fuel a req st = Done (st1, log).
Proof.
  unfold process_request, spec_of_request, pending_of, named_pods.
  intros [spec ->] Hf. cbn [res_bind].
  destruct (resolve_pending st (default [] (podNames spec)))
    as [| p l] eqn:Hp; [by exists st, None |].
  destruct (vms_needed_returns st (default "batch" (workloadType spec))
              (p :: l) fuel Hf) as [vms ->].
  cbn [res_bind]. destruct (scale_gke_node_pool a _ _ st) as [st1 log].
  by eexists _, _.
Qed.

Lemma process_each_returns (st0 : cluster Q) (reqs : list autoscale_request)
    (fuel : nat) (st : cluster Q) :
  pods st = pods st0 ->
  Forall (fun req =>
            is_Some (asr_spec req)
            /\ (enough_fuel (total_cpu_of py_float (pending_of st0 req))
                <= fuel)%nat) reqs ->
  exists st', process_each py_float fuel a reqs st = Done st'.
Proof.
  intros Hp Hf. revert st Hp.
  induction Hf as [| req reqs [Hspec Hreq] _ IH]; intros st Hp; simpl.
  - by exists st.
  - destruct (process_request_returns req st fuel Hspec)
      as (st1 & log & Hrun).
    { unfold pending_of in *. by rewrite (resolve_pending_pods st0). }
    rewrite Hrun. cbn [res_bind fst].
    apply process_request_sound in Hrun as (Hp1 & _).
    apply IH. by rewrite Hp1.
Qed.

Lemma cycle_fuel_covers (st : cluster Q) (reqs : list autoscale_request)
    (fuel : nat) :
  (cycle_fuel py_float st reqs <= fuel)%nat ->
  Forall (fun req =>
            (enough_fuel (total_cpu_of py_float (pending_of st req))
             <= fuel)%nat) reqs.
Proof.
  induction reqs as [| r l IH]; simpl; intros Hf; constructor.
  - lia.
  - apply IH. lia.
Qed.

Lemma autoscale_loop_returns (st : cluster Q) (fuel : nat) :
  map_Forall (fun _ req => is_Some (asr_spec req)) (autoscalerequests st) ->
  (cycle_fuel py_float st (map_to_list (autoscalerequests st)).*2
   <= fuel)%nat ->
  exists st', autoscale_loop py_float fuel a st = Done st'.
Proof.
  intros Hspec Hfuel. unfold autoscale_loop.
  apply (process_each_returns st); [done |].
  apply cycle_fuel_covers in Hfuel.
  apply Forall_forall. intros req Hin. split.
  - apply list_elem_of_fmap in Hin as ([k r] & -> & Hin).
    apply elem_of_map_to_list in Hin. by apply (Hspec k).
  - rewrite Forall_forall in Hfuel. by apply Hfuel.
Qed.

End Exact.
End CycleFacts.

(** C5 as stated fails: the container API cannot be reached, so the
    resize of the batch pool fails; the zero-bin subtraction leaves the
    demand (4, 16) as it is; and the request is deleted all the same, by
    the request's own step and by the cycle. *)
Lemma request_deleted_although_scaling_failed :
  let st := Scenario.scaling_cluster in
  let R := Scenario.request in
  let a := Scenario.pool_unreachable in
  let reduced :=
    fold_left Autoscaler.subtract_capacity
      (zero_bin_specs 300 (Autoscaler.fetch_batch_nodes a st))
      (Autoscaler.total_cpu_of decimal_float (pending_of st R),
       Autoscaler.total_mem_of decimal_float (pending_of st R)) in
  Autoscaler.autoscalerequests st !! asr_name R = Some R
  /\ ((reduced.1 <=? of_int 0)%py && (reduced.2 <=? of_int 0)%py) = false
  /\ exists st',
       Autoscaler.process_request decimal_float 10 a R st
         = Done (st', Some Autoscaler.FailedToScale)
       /\ Autoscaler.pool_sizes st' = Autoscaler.pool_sizes st
       /\ Autoscaler.autoscalerequests st' !! asr_name R = None
       /\ Autoscaler.autoscale_loop decimal_float 10 a st = Done st'.
Proof.
  repeat split; try (vm_compute; reflexivity).
  eexists. repeat split; vm_compute; reflexivity.
Qed.

Lemma request_deleted_iff_pending_and_accepted_witness :
  let st := Scenario.scaling_cluster in
  let R := Scenario.request in
  let st' :=
    match Autoscaler.autoscale_loop decimal_float 10 Scenario.all_accepted st
    with
    | Done s => s
    | _ => st
    end in
  well_named (Autoscaler.autoscalerequests st)
  /\ Autoscaler.autoscalerequests st !! asr_name R = Some R
  /\ Autoscaler.autoscale_loop decimal_float 10 Scenario.all_accepted st
     = Done st'
  /\ (Autoscaler.autoscalerequests st' !! asr_name R = None
      <-> pending_of st R <> []
          /\ Autoscaler.delete_accepted Scenario.all_accepted (asr_name R)
             = true).
Proof.
  intros st R st'.
  assert (well_named (Autoscaler.autoscalerequests st)) as Hwn.
  { intros k r Hk. simpl in Hk.
    apply lookup_insert_Some in Hk as [[<- <-] | [_ Hk]]; [done |].
    by rewrite lookup_empty in Hk. }
  assert (Autoscaler.autoscalerequests st !! asr_name R = Some R) as HR.
  { apply lookup_insert_eq. }
  assert (Autoscaler.autoscale_loop decimal_float 10 Scenario.all_accepted st
          = Done st') as Hrun by (vm_compute; reflexivity).
  split; [exact Hwn |]. split; [exact HR |]. split; [exact Hrun |].
  exact (CycleFacts.request_deleted_iff_pending_and_accepted
           decimal_float Scenario.all_accepted st st' R 10 Hwn HR Hrun).
Defined.

(** ** Instance Cleaner: migration *)
Module MigrationFacts.
Import InstanceCleaner.

Lemma new_pod_name_fresh (name : string) : new_pod_name name <> name.
Proof.
  unfold new_pod_name. induction name as [| c s IH].
  - discriminate.
  - intros Heq. apply IH.
    change (String c (s +:+ "-migrated") = String c s) in Heq.
    by injection Heq.
Qed.

(** C8. Migration is atomic with respect to the original task: whenever
    one of checkpoint, copy-out, replica creation, copy-in or restore
    fails, the call returns False and the original pod object is exactly
    as before, still Running on its source node; the original's entry
    changes only by the final delete, which runs only after the restore in
    the replica has succeeded. *)
Theorem migration_atomic_for_original (a : api) (p : pod)
    (target_node : string) (st : pod_store) (c : container)
    (cs : list container) :
  containers p = c :: cs ->
  let name := pod_name p in
  let namespace := pod_namespace p in
  let steps_succeed :=
    shell_ok a (checkpoint_cmd name namespace (c_name c))
    && shell_ok a (copy_cmd name namespace)
    && (create_pod_ok a
        && bool_decide (st !! (namespace, new_pod_name name) = None))
    && shell_ok a (copy_to_new_cmd name namespace)
    && shell_ok a (restore_cmd name namespace (c_name c)) in
  exists ok st',
    migrate_container a p target_node st = Done (ok, st')
    /\ (steps_succeed = false ->
        ok = false /\ st' !! (namespace, name) = st !! (namespace, name))
    /\ (st' !! (namespace, name) <> st !! (namespace, name) ->
        steps_succeed = true /\ ok = true /\ st' !! (namespace, name) = None).
Proof.
  intros Hc name namespace steps_succeed. subst steps_succeed name namespace.
  assert ((pod_namespace p, new_pod_name (pod_name p))
          <> (pod_namespace p, pod_name p)) as Hne.
  { intros Heq. injection Heq as Heq. by apply new_pod_name_fresh in Heq. }
  unfold migrate_container, migration_steps, seq, subprocess_run,
    create_namespaced_pod, delete_namespaced_pod.
  rewrite Hc. simpl.
  destruct (shell_ok a (checkpoint_cmd _ _ _)); simpl;
    [| eexists _, _; by repeat split].
  destruct (shell_ok a (copy_cmd _ _)); simpl;
    [| eexists _, _; by repeat split].
  destruct (create_pod_ok a); simpl; [| eexists _, _; by repeat split].
  destruct (st !! (pod_namespace p, new_pod_name (pod_name p))) eqn:Hnew;
    simpl; [eexists _, _; by repeat split |].
  destruct (shell_ok a (copy_to_new_cmd _ _)); simpl.
  2: { eexists _, _. split; [done |]. rewrite lookup_insert_ne by done.
       by split. }
  destruct (shell_ok a (restore_cmd _ _ _)); simpl.
  2: { eexists _, _. split; [done |]. rewrite lookup_insert_ne by done.
       by split. }
  destruct (delete_pod_ok a); simpl.
  2: { eexists _, _. split; [done |]. rewrite lookup_insert_ne by done.
       by split. }
  rewrite lookup_insert_ne by done.
  destruct (st !! (pod_namespace p, pod_name p)) eqn:Horig.
  - eexists _, _. split; [done |]. rewrite lookup_delete_eq.
    split; [done |]. by intros _.
  - eexists _, _. split; [done |]. rewrite lookup_insert_ne, Horig by done.
    by split.
Qed.

End MigrationFacts.

Example migration_abort :
  InstanceCleaner.migrate_container Scenario.restore_fails
    Scenario.running_job "bn-2" (<[("default", "job") := Scenario.running_job]> ∅)
  = Done (false,
          <[("default", "job-migrated") :=
              InstanceCleaner.new_pod Scenario.running_job "bn-2"]>
            (<[("default", "job") := Scenario.running_job]> ∅)).
Proof. vm_compute. reflexivity. Qed.

Lemma migration_atomic_for_original_witness :
  let p := Scenario.running_job in
  let st : InstanceCleaner.pod_store := <[("default", "job") := p]> ∅ in
  let a := Scenario.restore_fails in
  let c := Container "main"
             (Some (Some (Scenario.requests_of "500m" "2Gi"))) in
  containers p = [c]
  /\ (let name := pod_name p in
      let namespace := pod_namespace p in
      let steps_succeed :=
        InstanceCleaner.shell_ok a
          (InstanceCleaner.checkpoint_cmd name namespace (c_name c))
        && InstanceCleaner.shell_ok a (InstanceCleaner.copy_cmd name namespace)
        && (InstanceCleaner.create_pod_ok a
            && bool_decide
                 (st !! (namespace, InstanceCleaner.new_pod_name name) = None))
        && InstanceCleaner.shell_ok a
             (InstanceCleaner.copy_to_new_cmd name namespace)
        && InstanceCleaner.shell_ok a
             (InstanceCleaner.restore_cmd name namespace (c_name c)) in
      exists ok st',
        InstanceCleaner.migrate_container a p "bn-2" st = Done (ok, st')
        /\ (steps_succeed = false ->
            ok = false
            /\ st' !! (namespace, name) = st !! (namespace, name))
        /\ (st' !! (namespace, name) <> st !! (namespace, name) ->
            steps_succeed = true /\ ok = true
            /\ st' !! (namespace, name) = None)).
Proof.
  intros p st a c. split; [reflexivity |].
  exact (MigrationFacts.migration_atomic_for_original a p "bn-2" st c []
           eq_refl).
Defined.

(** ** Resource Profiler *)
Module ProfilerFacts.
Import ResourceProfiler.

Section Profiler.
Context {F : Type} `{PyNum F}.
Variable py_float : string -> option F.

Lemma upsert_up (store : gmap string (node_profile F)) (name : string)
    (body : node_profile F) :
  upsert true store name body = Done (<[name := body]> store).
Proof.
  unfold upsert, get_object, replace_object, create_object. simpl.
  by destruct (store !! name).
Qed.




Lemma visit_nodes_app (all_pods : list (node_pod F))
    (l1 l2 : list (k8s_node F)) (fr : frame F) :
  visit_nodes all_pods (l1 ++ l2) fr
  = (fr1 <-- visit_nodes all_pods l1 fr ;; visit_nodes all_pods l2 fr1).
Proof.
  revert fr. induction l1 as [| n l IH]; intros fr; simpl; [done |].
  destruct (visit_node all_pods fr n); simpl; [apply IH | done | done].
Qed.

(** Nodes without a [workload] label leave the measurements alone. *)
Lemma visit_nodes_unlabelled (all_pods : list (node_pod F))
    (nodes : list (k8s_node F)) (fr : frame F) :
  Forall (fun n => nd_labels n !! "workload" = None) nodes ->
  exists fr',
    visit_nodes all_pods nodes fr = Done fr'
    /\ measures fr' = measures fr.
Proof.
  intros Hnodes. revert fr.
  induction Hnodes as [| n l Hn _ IH]; intros fr; simpl; [by exists fr |].
  unfold visit_node. rewrite Hn. simpl.
  destruct (IH (Frame (Some (nd_name n, nd_labels n)) (measures fr)))
    as (fr' & -> & Hm).
  by exists fr'.
Qed.

(** The measurements are those of the last node of the pass that carries
    a [workload] label: its allocatable and the summed requests of the
    Running pods on it. *)
Lemma measures_of_last_labelled (all_pods : list (node_pod F))
    (pre post : list (k8s_node F)) (node : k8s_node F) (fr fr' : frame F) :
  is_Some (nd_labels node !! "workload") ->
  Forall (fun n => nd_labels n !! "workload" = None) post ->
  visit_nodes all_pods (pre ++ node :: post) fr = Done fr' ->
  exists u_cpu u_mem,
    used "cpu" (pods_on (nd_name node) all_pods) = Done u_cpu
    /\ used "memory" (pods_on (nd_name node) all_pods) = Done u_mem
    /\ measures fr'
       = Some (Measured (capacity_cpu node)
                        (allocatable_cpu node, allocatable_memory node)
                        u_cpu u_mem).
Proof.
  intros [v Hv] Hpost. rewrite visit_nodes_app.
  destruct (visit_nodes all_pods pre fr) as [fr1 | |]; [| done | done].
  cbn [res_bind visit_nodes]. unfold visit_node at 1. rewrite Hv.
  destruct (used "cpu" _) as [u_cpu | |]; [| done | done].
  destruct (used "memory" _) as [u_mem | |]; [| done | done].
  cbn [res_bind].
  match goal with
  | |- visit_nodes _ _ ?fr2 = _ -> _ =>
      destruct (visit_nodes_unlabelled all_pods post fr2 Hpost)
        as (fr3 & -> & Hm)
  end.
  intros [= <-]. exists u_cpu, u_mem. by rewrite Hm.
Qed.

(** [name] and [labels] are those of the last node of the pass. *)
Lemma name_labels_of_last (all_pods : list (node_pod F))
    (l : list (k8s_node F)) (last : k8s_node F) (fr fr' : frame F) :
  visit_nodes all_pods (l ++ [last]) fr = Done fr' ->
  name_labels fr' = Some (nd_name last, nd_labels last).
Proof.
  rewrite visit_nodes_app.
  destruct (visit_nodes all_pods l fr) as [fr1 | |]; [| done | done].
  cbn [res_bind visit_nodes]. unfold visit_node.
  destruct (nd_labels last !! "workload"); [| by intros [= <-]].
  destruct (used "cpu" _); [| done | done].
  destruct (used "memory" _); [| done | done].
  by intros [= <-].
Qed.

Lemma last_labelled (nodes : list (k8s_node F)) :
  Exists (fun n => is_Some (nd_labels n !! "workload")) nodes ->
  exists pre node post,
    nodes = pre ++ node :: post
    /\ is_Some (nd_labels node !! "workload")
    /\ Forall (fun n => nd_labels n !! "workload" = None) post.
Proof.
  induction nodes as [| n l IH]; intros Hex; [by apply Exists_nil in Hex |].
  destruct (decide (Exists (fun n => is_Some (nd_labels n !! "workload")) l))
    as [Hl | Hl].
  - destruct (IH Hl) as (pre & node & post & -> & Hn & Hp).
    by exists (n :: pre), node, post.
  - apply Exists_cons in Hex as [Hn | Hl']; [| done].
    exists [], n, l. split; [done |]. split; [done |].
    apply not_Exists_Forall in Hl; [| intros x; apply _].
    eapply Forall_impl; [exact Hl |]. simpl. intros x Hx.
    by apply eq_None_not_Some.
Qed.

(** What the dictionary built after the loop holds: it is built only
    from allocatable quantities that are numbers. *)
Lemma profile_body_fields (fr : frame F) (name : string) (spec : node_spec F) :
  profile_body py_float fr = Done (name, spec) ->
  exists m labels a_cpu a_mem,
    measures fr = Some m /\ name_labels fr = Some (name, labels)
    /\ allocatable m = (Num a_cpu, Num a_mem)
    /\ instanceName spec = Some name
    /\ instanceType spec
       = Some (dict_get labels "beta.kubernetes.io/instance-type" "unknown")
    /\ cpuAvailable spec = Some (a_cpu - used_cpu m)%py
    /\ memoryAvailable spec = Some (a_mem - used_memory m)%py
    /\ runtime spec = Some 0.
Proof.
  unfold profile_body, minus_used. intros Hb.
  destruct (measures fr) as [m |]; [| done].
  destruct (name_labels fr) as [[n labels] |]; [| done].
  destruct (allocatable m) as [[s | a_cpu] [s' | a_mem]] eqn:Hall;
    cbn [res_bind fst snd] in Hb; try done.
  destruct (float_of py_float (capacity m)); [| done | done].
  cbn [res_bind] in Hb.
  destruct (to_int _); [| done]. injection Hb as <- <-.
  exists m, labels, a_cpu, a_mem. by repeat split.
Qed.

(** A pass that returns has left the store alone, the API being down,
    or has written exactly one profile, the body. *)
Lemma reconcile_writes_body (up : bool) (nodes : list (k8s_node F))
    (all_pods : list (node_pod F)) (fr fr' : frame F)
    (store store' : gmap string (node_profile F)) :
  update_node_profiles py_float up nodes all_pods fr store
  = Done (store', fr') ->
  (up = false /\ store' = store /\ fr' = fr)
  \/ (up = true /\ visit_nodes all_pods nodes fr = Done fr'
      /\ exists name spec,
           profile_body py_float fr' = Done (name, spec)
           /\ store' = <[name := NodeProfile (Some spec)]> store).
Proof.
  unfold update_node_profiles. destruct up; [| intros [= <- <-]; by left].
  intros Hr. right.
  destruct (visit_nodes all_pods nodes fr) as [fr1 | |]; [| done | done].
  cbn [res_bind] in Hr.
  destruct (profile_body py_float fr1) as [[name spec] | |] eqn:Hb;
    [| done | done].
  cbn [res_bind fst snd] in Hr. rewrite upsert_up in Hr.
  injection Hr as <- <-. split; [done |]. split; [done |].
  by exists name, spec.
Qed.


(** The measurements behind a written profile: those of the last
    labelled node of the pass, or those an earlier pass left when the
    pass meets no labelled node. *)
Lemma measures_of_pass (all_pods : list (node_pod F))
    (nodes : list (k8s_node F)) (fr fr' : frame F) (m : measured F) :
  visit_nodes all_pods nodes fr = Done fr' ->
  measures fr' = Some m ->
  (exists pre node post,
      nodes = pre ++ node :: post
      /\ is_Some (nd_labels node !! "workload")
      /\ Forall (fun n => nd_labels n !! "workload" = None) post
      /\ capacity m = capacity_cpu node
      /\ allocatable m = (allocatable_cpu node, allocatable_memory node)
      /\ used "cpu" (pods_on (nd_name node) all_pods) = Done (used_cpu m)
      /\ used "memory" (pods_on (nd_name node) all_pods)
         = Done (used_memory m))
  \/ (Forall (fun n => nd_labels n !! "workload" = None) nodes
      /\ measures fr = Some m).
Proof.
  intros Hrun Hm.
  destruct (decide (Exists (fun n => is_Some (nd_labels n !! "workload"))
                           nodes)) as [Hex | Hno].
  - left. destruct (last_labelled nodes Hex)
      as (pre & node & post & -> & Hn & Hpost).
    destruct (measures_of_last_labelled all_pods pre post node fr fr'
                Hn Hpost Hrun) as (u_cpu & u_mem & Hc & Hmem & Hm').
    rewrite Hm in Hm'. injection Hm' as ->.
    exists pre, node, post. by repeat split.
  - right. apply not_Exists_Forall in Hno; [| intros x; apply _].
    assert (Forall (fun n => nd_labels n !! "workload" = None) nodes)
      as Hnone.
    { eapply Forall_impl; [exact Hno |]. simpl. intros x Hx.
      by apply eq_None_not_Some. }
    split; [done |].
    destruct (visit_nodes_unlabelled all_pods nodes fr Hnone)
      as (fr1 & Hrun1 & Hm1).
    rewrite Hrun in Hrun1. injection Hrun1 as <-. by rewrite <- Hm1.
Qed.

End Profiler.


End ProfilerFacts.





(** ** Task Packer: one cycle *)
Module CyclePackerFacts.
Import TaskPacker.

Section Cycle.
Context {F : Type} `{PyNum F}.
Variable py_float : string -> option F.
Variable py_int : string -> option Z.
Variable a : api.

(** BFD on specs with a non-empty name raises nothing and returns none or
    a non-empty name. *)
Lemma bfd_result_named (p : pod) (N : list (node_spec F)) :
  Forall name_truthy N ->
  bfd_algorithm py_float p N = Done None
  \/ exists name, bfd_algorithm py_float p N = Done (Some name)
                  /\ truthy (Some name) = true.
Proof.
  intros HN. unfold bfd_algorithm.
  destruct (pod_requests py_float p) as [c m].
  destruct (py_sort flt node_mem (List.filter (fits c m) N)) as [| n t] eqn:Hs;
    [by left |].
  assert (In n N) as Hin.
  { assert (In n (py_sort flt node_mem (List.filter (fits c m) N))) as Hn
      by (rewrite Hs; by left).
    eapply Permutation_in in Hn; [| apply py_sort_perm].
    by apply filter_In in Hn as [Hn _]. }
  rewrite Forall_forall in HN.
  destruct (HN n) as (s & -> & Ht); [by apply list_elem_of_In |].
  right. by exists s.
Qed.

Lemma search_bins_result (p : pod) (S : Z) (nodes : list (node_spec F))
    (order : list Z) :
  Forall name_truthy nodes ->
  search_bins py_float p (group_bins S nodes) order = Done None
  \/ exists name,
       search_bins py_float p (group_bins S nodes) order = Done (Some name)
       /\ truthy (Some name) = true.
Proof.
  intros Hn. induction order as [| b rest IH]; simpl; [by left |].
  rewrite TimeBinFacts.group_bins_lookup.
  destruct (bin_group S nodes b) as [| n g] eqn:Hg; [done |].
  destruct (bfd_result_named p (n :: g)) as [-> | (name & -> & Ht)].
  - rewrite <- Hg. apply Forall_forall. intros x Hx.
    apply list_elem_of_In, filter_In in Hx as [Hx _].
    rewrite Forall_forall in Hn. by apply Hn, list_elem_of_In.
  - done.
  - simpl. simpl in Ht. rewrite Ht. right. by exists name.
Qed.

Lemma contains_nonempty (pat s : string) :
  pat <> "" -> contains pat s = true -> s <> "".
Proof. intros Hp Hc ->. simpl in Hc. by destruct pat. Qed.

Lemma filed_spec_named (pat : string) (spec : node_spec F) :
  pat <> "" ->
  contains pat (lower (default "" (instanceName spec))) = true ->
  exists s, instanceName spec = Some s /\ contains pat (lower s) = true
            /\ truthy (Some s) = true.
Proof.
  intros Hp Hc. destruct (instanceName spec) as [s |]; simpl in Hc.
  - exists s. repeat split; [done |].
    destruct s; [| done]. simpl in Hc. by destruct pat.
  - by destruct pat.
Qed.

(** The pools hold named specs only, the batch pool specs whose name
    contains [batch]. *)
Lemma partition_profiles_named (node_profiles : list (node_profile F)) :
  Forall name_truthy (partition_profiles node_profiles).1
  /\ Forall name_truthy (partition_profiles node_profiles).2
  /\ Forall batch_named (partition_profiles node_profiles).2.
Proof.
  unfold partition_profiles.
  assert (forall acc : list (node_spec F) * list (node_spec F),
            Forall name_truthy acc.1 /\ Forall name_truthy acc.2
            /\ Forall batch_named acc.2 ->
            let r :=
              fold_left
                (fun '(long_running_nodes, batch_nodes) np =>
                   let spec := default empty_spec (np_spec np) in
                   let instance_name := default "" (instanceName spec) in
                   if contains "longrunning" (lower instance_name)
                   then (long_running_nodes ++ [spec], batch_nodes)
                   else if contains "batch" (lower instance_name)
                   then (long_running_nodes, batch_nodes ++ [spec])
                   else (long_running_nodes, batch_nodes))
                node_profiles acc in
            Forall name_truthy r.1 /\ Forall name_truthy r.2
            /\ Forall batch_named r.2) as Hgen.
  { induction node_profiles as [| np l IH]; intros [lr bt] Hacc; [done |].
    simpl. apply IH. destruct Hacc as (Hlr & Hbt & Hbn). simpl in *.
    destruct (contains "longrunning" _) eqn:Hl.
    - apply filed_spec_named in Hl as (s & Hs & _ & Ht); [| done].
      simpl. repeat split; [| done | done].
      apply Forall_app. split; [done |]. constructor; [| done]. by exists s.
    - destruct (contains "batch" _) eqn:Hb; [| done].
      apply filed_spec_named in Hb as (s & Hs & Hc & Ht); [| done].
      simpl. repeat split; [done | |].
      + apply Forall_app. split; [done |]. constructor; [| done]. by exists s.
      + apply Forall_app. split; [done |]. constructor; [| done]. by exists s. }
  by apply (Hgen ([], [])).
Qed.

(** On the pools of a cycle the choice of a target raises nothing. *)
Lemma select_target_result (lr bt : list (node_spec F)) (p : pod) :
  Forall name_truthy lr -> Forall name_truthy bt ->
  select_target py_float py_int lr bt p = Done None
  \/ exists node,
       select_target py_float py_int lr bt p = Done (Some node)
       /\ truthy (Some node) = true.
Proof.
  intros Hlr Hbt. unfold select_target.
  destruct (String.eqb _ _); [by apply bfd_result_named |].
  unfold time_bin_bfd, scaling_cycle.
  change (300 =? 0) with false. cbv iota. by apply search_bins_result.
Qed.

Lemma trigger_autoscaling_grows (now : Z) (workload_type : string)
    (pods : list pod) (st : cluster) :
  grows st (trigger_autoscaling a now workload_type pods st).
Proof.
  unfold trigger_autoscaling, create_custom_object. simpl.
  destruct (create_accepted a _); [| done].
  destruct (autoscalerequests st !! _) eqn:Hk; [done |].
  split; [done |]. simpl. intros k r Hr.
  rewrite lookup_insert_ne; [done |]. intros <-. congruence.
Qed.

Lemma grows_trans (st1 st2 st3 : cluster) :
  grows st1 st2 -> grows st2 st3 -> grows st1 st3.
Proof. intros [Hb1 Hr1] [Hb2 Hr2]. split; eauto. Qed.

(** One pod: the step returns and only adds. *)
Lemma schedule_pod_grows (lr bt : list (node_spec F)) (p : pod)
    (st : cluster) :
  Forall name_truthy lr -> Forall name_truthy bt ->
  exists st', schedule_pod py_float py_int a lr bt p st = Done st'
              /\ grows st st'.
Proof.
  intros Hlr Hbt. unfold schedule_pod.
  destruct (select_target_result lr bt p Hlr Hbt)
    as [-> | (node & -> & Ht)]; simpl.
  - eexists. split; [done |]. apply trigger_autoscaling_grows.
  - simpl in Ht. rewrite Ht. destruct (bind_accepted a _ _).
    + eexists. split; [done |]. split; [| done]. simpl. intros b Hb.
      apply in_or_app. by left.
    + by exists st.
Qed.

Lemma schedule_each_grows (lr bt : list (node_spec F)) (l : list pod)
    (st : cluster) :
  Forall name_truthy lr -> Forall name_truthy bt ->
  exists st', schedule_each py_float py_int a lr bt l st = Done st'
              /\ grows st st'.
Proof.
  intros Hlr Hbt. revert st. induction l as [| p l IH]; intros st; simpl.
  - by exists st.
  - destruct (schedule_pod_grows lr bt p st Hlr Hbt) as (st1 & -> & Hg1).
    simpl. destruct (IH st1) as (st' & -> & Hg').
    exists st'. split; [done |]. by apply (grows_trans _ st1).
Qed.

Lemma schedule_each_app (lr bt : list (node_spec F)) (l1 l2 : list pod)
    (st : cluster) :
  schedule_each py_float py_int a lr bt (l1 ++ l2) st
  = (st1 <-- schedule_each py_float py_int a lr bt l1 st ;;
     schedule_each py_float py_int a lr bt l2 st1).
Proof.
  revert st. induction l1 as [| p l IH]; intros st; simpl; [done |].
  destruct (schedule_pod py_float py_int a lr bt p st); simpl; [| done | done].
  apply IH.
Qed.

(** C9, as the code has it. In one Packer cycle every Pending task of
    namespace default tagged for the htas-scheduler is handled, and no
    other pod is listed: the choice of a target raises nothing; if a
    candidate node exists the task is bound to it provided the server
    accepts the binding; if none exists the Packer asks for an
    AutoScaleRequest named asr-<seconds>-<class> for the task's workload
    class holding the task's name, and that request exists after the cycle
    provided the server accepts the create and no request of that name
    exists yet when the task is handled. *)
Theorem pending_pod_bound_or_requested (pods : list pod)
    (node_profiles : list (node_profile F)) (st : cluster)
    (l1 l2 : list pod) (p : pod) :
  get_pending_pods pods = l1 ++ p :: l2 ->
  let lr := (partition_profiles node_profiles).1 in
  let bt := (partition_profiles node_profiles).2 in
  pod_namespace p = "default"
  /\ pod_phase p = Pending
  /\ scheduler_name p = Some "htas-scheduler"
  /\ exists st1 st' target,
    schedule_each py_float py_int a lr bt l1 st = Done st1
    /\ schedule_pods py_float py_int a pods node_profiles st = Done st'
    /\ select_target py_float py_int lr bt p = Done target
    /\ match target with
       | Some node =>
           node <> ""
           /\ (bind_accepted a (pod_name p) node = true ->
               In (pod_namespace p, pod_name p, node) (bindings st'))
       | None =>
           let name := request_name (clock a (pod_name p)) (pod_type p) in
           create_accepted a [pod_name p] name = true ->
           autoscalerequests st1 !! name = None ->
           autoscalerequests st' !! name
           = Some (AutoScaleRequest name (Some (pod_type p))
                                    (Some [pod_name p]))
       end.
Proof.
  intros Hpending lr bt.
  assert (In p (get_pending_pods pods)) as Hlisted
    by (rewrite Hpending; apply in_elt).
  apply filter_In in Hlisted as [Hlisted Hsched].
  apply filter_In in Hlisted as [_ [Hns Hphase]%andb_true_iff].
  apply String.eqb_eq in Hns.
  split; [exact Hns |]. split; [by destruct (pod_phase p) |].
  split.
  { destruct (scheduler_name p) as [sch |]; [| done].
    by apply String.eqb_eq in Hsched as ->. }
  destruct (partition_profiles_named node_profiles) as (Hlr & Hbt & _).
  fold lr bt in Hlr, Hbt.
  destruct (schedule_each_grows lr bt l1 st Hlr Hbt) as (st1 & Hst1 & _).
  destruct (schedule_pod_grows lr bt p st1 Hlr Hbt) as (st2 & Hst2 & _).
  destruct (schedule_each_grows lr bt l2 st2 Hlr Hbt) as (st' & Hst' & Hg).
  assert (schedule_pods py_float py_int a pods node_profiles st = Done st')
    as Hcycle.
  { unfold schedule_pods. rewrite Hpending.
    destruct (l1 ++ p :: l2) eqn:Hl; [by destruct l1 |]. rewrite <- Hl.
    destruct (partition_profiles node_profiles) as [lr' bt'] eqn:Hp.
    simpl in lr, bt. subst lr bt.
    rewrite schedule_each_app, Hst1. simpl. by rewrite Hst2. }
  unfold schedule_pod in Hst2.
  destruct (select_target_result lr bt p Hlr Hbt)
    as [Ht | (node & Ht & Hnode)]; rewrite Ht in Hst2; simpl in Hst2.
  - exists st1, st', None. repeat split; [done | done | done |].
    intros name Hacc Hfree. injection Hst2 as <-.
    apply Hg. unfold trigger_autoscaling, create_custom_object. simpl.
    fold name. rewrite Hacc, Hfree. simpl. apply lookup_insert_eq.
  - exists st1, st', (Some node). repeat split; [done | done | done | |].
    + intros ->. done.
    + intros Hacc. simpl in Hnode. rewrite Hnode, Hacc in Hst2.
      injection Hst2 as <-. apply Hg. simpl. apply in_or_app. right. by left.
Qed.

End Cycle.
End CyclePackerFacts.

(** C9 as stated fails, in two ways. Two batch pods without a candidate
    node are handled within the same second: the second create names the
    request the first one made and is refused, so job-b is neither bound
    nor named. And a pod with a candidate whose binding the server refuses
    is neither bound nor named. *)
Lemma pending_pod_neither_bound_nor_named :
  (exists st',
     TaskPacker.schedule_pods decimal_float decimal_int
       Scenario.same_second [Scenario.job_a; Scenario.job_b] []
       Scenario.no_objects = Done st'
     /\ In Scenario.job_b
          (TaskPacker.get_pending_pods [Scenario.job_a; Scenario.job_b])
     /\ ~ bound st' Scenario.job_b
     /\ ~ named_in_request st' Scenario.job_b)
  /\ (exists st',
     TaskPacker.schedule_pods decimal_float decimal_int
       Scenario.bind_refused [Scenario.batch_task]
       [NodeProfile (Some Scenario.n2)] Scenario.no_objects = Done st'
     /\ In Scenario.batch_task
          (TaskPacker.get_pending_pods [Scenario.batch_task])
     /\ ~ bound st' Scenario.batch_task
     /\ ~ named_in_request st' Scenario.batch_task).
Proof.
  split.
  - exists (TaskPacker.Cluster []
              (<["asr-1700000000-batch" :=
                   AutoScaleRequest "asr-1700000000-batch" (Some "batch")
                                    (Some ["job-a"])]> ∅)).
    split; [vm_compute; reflexivity |].
    split; [right; by left |]. split.
    + intros (node & []).
    + intros (k & r & Hk & Hin). simpl in Hk.
      apply lookup_insert_Some in Hk as [[_ <-] | [_ Hk]];
        [| by rewrite lookup_empty in Hk].
      by destruct Hin as [Heq | []].
  - exists Scenario.no_objects.
    split; [vm_compute; reflexivity |].
    split; [by left |]. split.
    + intros (node & []).
    + intros (k & r & Hk & _). simpl in Hk.
      by rewrite lookup_empty in Hk.
Qed.

Lemma pending_pod_bound_or_requested_witness :
  let a := Scenario.same_second in
  let pods := [Scenario.job_a; Scenario.job_b] in
  let node_profiles : list (node_profile Q) := [] in
  let st := Scenario.no_objects in
  let p := Scenario.job_a in
  TaskPacker.get_pending_pods pods = [] ++ p :: [Scenario.job_b]
  /\ (let lr := (TaskPacker.partition_profiles node_profiles).1 in
      let bt := (TaskPacker.partition_profiles node_profiles).2 in
      pod_namespace p = "default"
      /\ pod_phase p = Pending
      /\ scheduler_name p = Some "htas-scheduler"
      /\ exists st1 st' target,
        TaskPacker.schedule_each decimal_float decimal_int a lr bt [] st
        = Done st1
        /\ TaskPacker.schedule_pods decimal_float decimal_int a pods
             node_profiles st = Done st'
        /\ TaskPacker.select_target decimal_float decimal_int lr bt p
           = Done target
        /\ match target with
           | Some node =>
               node <> ""
               /\ (TaskPacker.bind_accepted a (pod_name p) node = true ->
                   In (pod_namespace p, pod_name p, node)
                      (TaskPacker.bindings st'))
           | None =>
               let name :=
                 TaskPacker.request_name
                   (TaskPacker.clock a (pod_name p)) (TaskPacker.pod_type p) in
               TaskPacker.create_accepted a [pod_name p] name = true ->
               TaskPacker.autoscalerequests st1 !! name = None ->
               TaskPacker.autoscalerequests st' !! name
               = Some (AutoScaleRequest name (Some (TaskPacker.pod_type p))
                                        (Some [pod_name p]))
           end).
Proof.
  intros a pods node_profiles st p.
  assert (TaskPacker.get_pending_pods pods = [] ++ p :: [Scenario.job_b])
    as Hp by reflexivity.
  split; [exact Hp |].
  exact (CyclePackerFacts.pending_pod_bound_or_requested
           decimal_float decimal_int a pods node_profiles st
           [] [Scenario.job_b] p Hp).
Defined.

(** * Further properties of the four programs *)

(** ** Strings *)

Lemma append_cons (c : ascii) (s t : string) :
  String c s +:+ t = String c (s +:+ t).
Proof. reflexivity. Qed.

Lemma length_append (s t : string) :
  String.length (s +:+ t) = (String.length s + String.length t)%nat.
Proof.
  induction s as [| c s IH]; [done |].
  rewrite append_cons. simpl. by rewrite IH.
Qed.

Lemma substring_all (s : string) : substring 0 (String.length s) s = s.
Proof. induction s as [| c s IH]; [done |]. simpl. by rewrite IH. Qed.

Lemma substring_append_l (s t : string) :
  substring 0 (String.length s) (s +:+ t) = s.
Proof.
  induction s as [| c s IH]; [by destruct t |].
  rewrite append_cons. simpl. by rewrite IH.
Qed.

Lemma substring_append_r (s t : string) (m : nat) :
  substring (String.length s) m (s +:+ t) = substring 0 m t.
Proof.
  induction s as [| c s IH]; [done |]. rewrite append_cons. simpl. exact IH.
Qed.

Lemma endswith_append (s t : string) : endswith (s +:+ t) t = true.
Proof.
  unfold endswith. rewrite length_append.
  replace (String.length s + String.length t - String.length t)%nat
    with (String.length s) by lia.
  rewrite substring_append_r, substring_all, String.eqb_refl.
  rewrite andb_true_r. apply Nat.leb_le. lia.
Qed.

Lemma endswith_append_ne (s t u : string) :
  String.length u = String.length t -> u <> t ->
  endswith (s +:+ t) u = false.
Proof.
  intros Hlen Hne. unfold endswith. rewrite length_append, Hlen.
  replace (String.length s + String.length t - String.length t)%nat
    with (String.length s) by lia.
  rewrite substring_append_r, substring_all.
  apply andb_false_iff. right. apply String.eqb_neq. congruence.
Qed.

Lemma drop_last_append (s t : string) :
  drop_last (String.length t) (s +:+ t) = s.
Proof.
  unfold drop_last. rewrite length_append.
  replace (String.length s + String.length t - String.length t)%nat
    with (String.length s) by lia.
  apply substring_append_l.
Qed.

Lemma lower_append (s t : string) : lower (s +:+ t) = lower s +:+ lower t.
Proof.
  induction s as [| c s IH]; [done |].
  rewrite append_cons. simpl. by rewrite IH.
Qed.

(** ** Task Packer: quantities, pools, placement *)
Module PackerMore.
Import TaskPacker.

Section Packer.
Context {F : Type} `{PyNum F}.
Variable py_float : string -> option F.
Variable py_int : string -> option Z.

(** X1. The unit suffixes of the Packer's parsers: for every numeral
    text n, [parse_cpu] reads n followed by m as float(n) / 1000,
    [parse_memory] reads n followed by Mi as float of the lower-cased n
    and n followed by Gi as 1024 times that; each is 0 when float
    rejects the text. *)
Theorem packer_quantity_units (n : string) :
  parse_cpu py_float (n +:+ "m")
  = match py_float n with
    | Some x => fdiv x (of_int 1000)
    | None => of_int 0
    end
  /\ parse_memory py_float (n +:+ "Mi")
     = match py_float (lower n) with
       | Some x => x
       | None => of_int 0
       end
  /\ parse_memory py_float (n +:+ "Gi")
     = match py_float (lower n) with
       | Some x => (x * of_int 1024)%py
       | None => of_int 0
       end.
Proof.
  pose proof (drop_last_append n "m") as Hm.
  pose proof (drop_last_append (lower n) "mi") as Hmi.
  pose proof (drop_last_append (lower n) "gi") as Hgi.
  change (String.length "m") with 1%nat in Hm.
  change (String.length "mi") with 2%nat in Hmi.
  change (String.length "gi") with 2%nat in Hgi.
  split; [| split].
  - unfold parse_cpu. by rewrite endswith_append, Hm.
  - unfold parse_memory. rewrite lower_append.
    change (lower "Mi") with "mi". by rewrite endswith_append, Hmi.
  - unfold parse_memory. rewrite lower_append.
    change (lower "Gi") with "gi".
    rewrite (endswith_append_ne (lower n) "gi" "mi") by done.
    by rewrite endswith_append, Hgi.
Qed.

(** X2. The partition at the head of a cycle is a pair of filters over
    the specs in input order: the long-running pool holds the specs whose
    lower-cased name contains longrunning, the batch pool those whose
    name does not but contains batch; no spec is in both pools, and a
    profile without a spec or a name is in neither. *)
Theorem partition_profiles_filters (node_profiles : list (node_profile F)) :
  let specs := map (fun np => default empty_spec (np_spec np)) node_profiles in
  partition_profiles node_profiles
  = (List.filter filed_long_running specs, List.filter filed_batch specs).
Proof.
  intros specs. subst specs. unfold partition_profiles.
  assert (forall (l : list (node_profile F)) (lr bt : list (node_spec F)),
            fold_left
              (fun '(long_running_nodes, batch_nodes) np =>
                 let spec := default empty_spec (np_spec np) in
                 let instance_name := default "" (instanceName spec) in
                 if contains "longrunning" (lower instance_name)
                 then (long_running_nodes ++ [spec], batch_nodes)
                 else if contains "batch" (lower instance_name)
                 then (long_running_nodes, batch_nodes ++ [spec])
                 else (long_running_nodes, batch_nodes))
              l (lr, bt)
            = (lr ++ List.filter filed_long_running
                       (map (fun np => default empty_spec (np_spec np)) l),
               bt ++ List.filter filed_batch
                       (map (fun np => default empty_spec (np_spec np)) l)))
    as Hgen.
  { induction l as [| np l IH]; intros lr bt; simpl.
    - by rewrite !app_nil_r.
    - unfold filed_batch, filed_long_running.
      destruct (contains "longrunning" _) eqn:Hl; simpl.
      + rewrite IH. unfold filed_batch, filed_long_running.
        by rewrite <- app_assoc.
      + destruct (contains "batch" _) eqn:Hb; simpl; rewrite IH;
          unfold filed_batch, filed_long_running; [| done].
        by rewrite <- app_assoc. }
  exact (Hgen node_profiles [] []).
Qed.

(** BFD returns none exactly when no node of the group fits, and a name
    only of a node of the group that fits. *)
Lemma bfd_finds_fit (p : pod) (N : list (node_spec F)) :
  let c := (pod_requests py_float p).1 in
  let m := (pod_requests py_float p).2 in
  ((forall n, In n N -> fits c m n = false)
   /\ bfd_algorithm py_float p N = Done None)
  \/ (exists n,
        In n N /\ fits c m n = true
        /\ bfd_algorithm py_float p N
           = match instanceName n with
             | Some s => Done (Some s)
             | None => Raised KeyError
             end).
Proof.
  simpl. unfold bfd_algorithm. destruct (pod_requests py_float p) as [c m].
  simpl.
  destruct (py_sort flt node_mem (List.filter (fits c m) N)) as [| n t] eqn:Hs.
  - left. split; [| done]. apply py_sort_nil in Hs. by apply filter_nil_none.
  - right. exists n.
    assert (In n (List.filter (fits c m) N)) as Hn.
    { eapply Permutation_in; [apply (py_sort_perm flt node_mem) |].
      rewrite Hs. by left. }
    apply filter_In in Hn as [Hin Hfit]. by repeat split.
Qed.

Lemma search_bins_finds_fit (p : pod) (S : Z) (nodes : list (node_spec F))
    (order : list Z) :
  Forall name_truthy nodes ->
  let c := (pod_requests py_float p).1 in
  let m := (pod_requests py_float p).2 in
  (search_bins py_float p (group_bins S nodes) order = Done None
   /\ forall b n, In b order -> In n (bin_group S nodes b) ->
                  fits c m n = false)
  \/ (exists name n,
        search_bins py_float p (group_bins S nodes) order = Done (Some name)
        /\ In n nodes /\ instanceName n = Some name /\ fits c m n = true).
Proof.
  intros Hn c m. rewrite Forall_forall in Hn.
  induction order as [| b rest IH]; simpl.
  - left. split; [done |]. intros b n [].
  - rewrite TimeBinFacts.group_bins_lookup.
    destruct (bin_group S nodes b) as [| x g] eqn:Hg.
    + destruct IH as [[Hr Hnone] | Hsome]; [left | by right].
      split; [done |]. intros b' n [<- | Hb'] Hin; [| by eapply Hnone].
      rewrite Hg in Hin. destruct Hin.
    + destruct (bfd_finds_fit p (x :: g)) as [[Hnofit ->] | (n & Hin & Hfit & ->)].
      * simpl. destruct IH as [[Hr Hnone] | Hsome]; [left | by right].
        split; [done |]. intros b' n [<- | Hb'] Hin; [| by eapply Hnone].
        rewrite Hg in Hin. by apply Hnofit.
      * right. rewrite <- Hg in Hin.
        apply filter_In in Hin as [Hin _].
        destruct (Hn n) as (s & Hs & Ht); [by apply list_elem_of_In |].
        rewrite Hs. simpl. simpl in Ht. rewrite Ht. by exists s, n.
Qed.

(** X3. Time bins order the search but never hide a node: on batch-pool
    specs Time-Bin BFD returns none exactly when no node at all has
    enough CPU and memory available for the task, whatever the bins;
    and a name it returns is that of a node of the pool that fits. *)
Theorem time_bin_bfd_finds_any_fit (p : pod) (nodes : list (node_spec F))
    (S : Z) :
  S <> 0 ->
  Forall batch_named nodes ->
  let c := (pod_requests py_float p).1 in
  let m := (pod_requests py_float p).2 in
  (time_bin_bfd py_float py_int p nodes S = Done None
   /\ forall n, In n nodes -> fits c m n = false)
  \/ (exists name n,
        time_bin_bfd py_float py_int p nodes S = Done (Some name)
        /\ In n nodes /\ instanceName n = Some name /\ fits c m n = true).
Proof.
  intros HS Hb c m. unfold time_bin_bfd.
  destruct (Z.eqb_spec S 0) as [-> | _]; [done |].
  set (tb := get_pod_runtime py_int p `div` S).
  destruct (search_bins_finds_fit p S nodes
              (visit_order tb (group_bins S nodes)))
    as [[Hr Hnone] | Hsome]; [| | by right].
  { eapply Forall_impl; [exact Hb |]. simpl. intros n Hn.
    destruct (TimeBinFacts.batch_named_truthy n Hn) as (s & Hs & Ht).
    by exists s. }
  left. split; [done |]. intros n Hin.
  apply (Hnone (node_bin S n) n); [| apply filter_In; split; [done | lia]].
  unfold visit_order. rewrite !in_app_iff.
  destruct (Z.lt_trichotomy (node_bin S n) tb) as [Hlt | [Heq | Hgt]].
  - right. right.
    apply (proj2 (sorted_reverse_In _ _)), filter_In. split; [| lia].
    apply (proj2 (TimeBinFacts.bin_keys_In S nodes _)). by exists n.
  - left. left. by rewrite Heq.
  - right. left.
    apply (proj2 (sorted_In _ _)), filter_In. split; [| lia].
    apply (proj2 (TimeBinFacts.bin_keys_In S nodes _)). by exists n.
Qed.

End Packer.
End PackerMore.

(** ** Task Packer: what a pass writes *)
Module PackerCycleMore.
Import TaskPacker.

Section Cycle.
Context {F : Type} `{PyNum F}.
Variable py_float : string -> option F.
Variable py_int : string -> option Z.
Variable a : api.

(** X4. Once the server has accepted a create under the name
    asr-<seconds>-<class>, the name is taken, by the request just made
    or by one that was there before, and every later
    [trigger_autoscaling] for that second and class changes nothing,
    whatever the server would answer and whatever pods it is called
    with: the stored request keeps its pods and those of the later call
    are not added to it. *)
Theorem trigger_autoscaling_idempotent (a1 a2 : api) (now : Z)
    (workload_type : string) (pods1 pods2 : list pod) (st : cluster) :
  create_accepted a1 (map pod_name pods1) (request_name now workload_type)
  = true ->
  let name := request_name now workload_type in
  let st1 := trigger_autoscaling a1 now workload_type pods1 st in
  is_Some (autoscalerequests st1 !! name)
  /\ (autoscalerequests st !! name = None ->
      autoscalerequests st1 !! name
      = Some (AutoScaleRequest name (Some workload_type)
                               (Some (map pod_name pods1))))
  /\ trigger_autoscaling a2 now workload_type pods2 st1 = st1.
Proof.
  intros Hacc name st1. subst st1 name.
  unfold trigger_autoscaling, create_custom_object. rewrite Hacc.
  set (name := request_name now workload_type).
  cbn [asr_name AutoScaleRequest].
  destruct (autoscalerequests st !! name) as [r |] eqn:Hk;
    cbn [autoscalerequests bindings].
  - rewrite Hk. split; [by eexists |]. split; [done |].
    by destruct (create_accepted a2 _ _).
  - rewrite lookup_insert_eq. split; [by eexists |]. split; [done |].
    by destruct (create_accepted a2 _ _).
Qed.

(** A target the Packer selects is the name of a node of the pod's pool
    that fits the pod. *)
Lemma select_target_sound (lr bt : list (node_spec F)) (p : pod)
    (node : string) :
  Forall name_truthy bt ->
  select_target py_float py_int lr bt p = Done (Some node) ->
  exists n,
    In n (pool_of lr bt p) /\ instanceName n = Some node
    /\ fits (pod_requests py_float p).1 (pod_requests py_float p).2 n = true.
Proof.
  intros Hbt. unfold select_target, pool_of.
  destruct (String.eqb (pod_type p) "long-running").
  - destruct (PackerMore.bfd_finds_fit py_float p lr)
      as [[_ ->] | (n & Hin & Hfit & ->)]; [done |].
    intros Hr. exists n. split; [done |].
    destruct (instanceName n); [| done]. by injection Hr as ->.
  - unfold time_bin_bfd, scaling_cycle. change (300 =? 0) with false.
    cbv iota.
    destruct (PackerMore.search_bins_finds_fit py_float p 300 bt
                (visit_order (get_pod_runtime py_int p `div` 300)
                             (group_bins 300 bt)) Hbt)
      as [[-> _] | (name & n & -> & Hin & Hname & Hfit)]; [done |].
    intros [= ->]. by exists n.
Qed.

(** One pod of the pass: what the step may add. *)
Lemma schedule_pod_adds (lr bt : list (node_spec F)) (p : pod) (st : cluster) :
  Forall name_truthy lr -> Forall name_truthy bt ->
  exists st',
    schedule_pod py_float py_int a lr bt p st = Done st'
    /\ (forall b, In b (bindings st') ->
          In b (bindings st)
          \/ exists node n,
               b = (pod_namespace p, pod_name p, node)
               /\ bind_accepted a (pod_name p) node = true
               /\ In n (pool_of lr bt p) /\ instanceName n = Some node
               /\ fits (pod_requests py_float p).1
                       (pod_requests py_float p).2 n = true)
    /\ (forall k r, autoscalerequests st' !! k = Some r ->
          autoscalerequests st !! k = Some r
          \/ (k = request_name (clock a (pod_name p)) (pod_type p)
              /\ r = AutoScaleRequest k (Some (pod_type p))
                                      (Some [pod_name p])
              /\ select_target py_float py_int lr bt p = Done None)).
Proof.
  intros Hlr Hbt. unfold schedule_pod.
  destruct (CyclePackerFacts.select_target_result py_float py_int lr bt p
              Hlr Hbt) as [Ht | (node & Ht & Hnode)]; rewrite Ht; simpl.
  - eexists. split; [done |].
    unfold trigger_autoscaling, create_custom_object. simpl.
    destruct (create_accepted a _); [| split; intros; by left].
    destruct (autoscalerequests st !! _) eqn:Hk; [split; intros; by left |].
    simpl. split; [intros b Hb; by left |]. intros k r.
    intros [[<- <-] | [_ Hr]]%lookup_insert_Some; [by right | by left].
  - simpl in Hnode. rewrite Hnode.
    destruct (bind_accepted a (pod_name p) node) eqn:Hacc.
    + eexists. split; [done |]. simpl. split; [| intros k r Hr; by left].
      intros b [Hb | [<- | []]]%in_app_or; [by left |]. right.
      destruct (select_target_sound lr bt p node Hbt Ht)
        as (n & Hin & Hname & Hfit).
      by exists node, n.
    + exists st. split; [done |]. split; [by left | by left].
Qed.

Lemma schedule_each_adds (lr bt : list (node_spec F)) (l : list pod)
    (st : cluster) :
  Forall name_truthy lr -> Forall name_truthy bt ->
  exists st',
    schedule_each py_float py_int a lr bt l st = Done st'
    /\ (forall b, In b (bindings st') ->
          In b (bindings st)
          \/ exists p node n,
               In p l /\ b = (pod_namespace p, pod_name p, node)
               /\ bind_accepted a (pod_name p) node = true
               /\ In n (pool_of lr bt p) /\ instanceName n = Some node
               /\ fits (pod_requests py_float p).1
                       (pod_requests py_float p).2 n = true)
    /\ (forall k r, autoscalerequests st' !! k = Some r ->
          autoscalerequests st !! k = Some r
          \/ exists p,
               In p l
               /\ k = request_name (clock a (pod_name p)) (pod_type p)
               /\ r = AutoScaleRequest k (Some (pod_type p))
                                       (Some [pod_name p])
               /\ select_target py_float py_int lr bt p = Done None).
Proof.
  intros Hlr Hbt. revert st. induction l as [| p l IH]; intros st; simpl.
  - exists st. split; [done |]. split; intros; by left.
  - destruct (schedule_pod_adds lr bt p st Hlr Hbt) as (st1 & -> & Hb1 & Hr1).
    simpl. destruct (IH st1) as (st' & -> & Hb' & Hr').
    exists st'. split; [done |]. split.
    + intros b Hb. destruct (Hb' b Hb)
        as [Hin | (q & node & n & Hq & Hrest)].
      * destruct (Hb1 b Hin) as [? | (node & n & Hrest)]; [by left |].
        right. exists p, node, n. by split; [left |].
      * right. exists q, node, n. by split; [right |].
    + intros k r Hk. destruct (Hr' k r Hk) as [Hin | (q & Hq & Hrest)].
      * destruct (Hr1 k r Hin) as [? | Hrest]; [by left |].
        right. exists p. by split; [left |].
      * right. exists q. by split; [right |].
Qed.

(** X5. One pass of [schedule_pods] raises nothing and only adds: what
    was bound or requested before stays; each new binding is that of a
    Pending htas pod to the named node of the pod's own pool that has
    enough CPU and memory available for it, accepted by the server; each
    new AutoScaleRequest is named asr-<seconds>-<class> and holds the
    class and the single name of a Pending htas pod for which no node was
    found. *)
Theorem schedule_pods_adds_sound_objects (pods : list pod)
    (node_profiles : list (node_profile F)) (st : cluster) :
  let lr := (partition_profiles node_profiles).1 in
  let bt := (partition_profiles node_profiles).2 in
  exists st',
    schedule_pods py_float py_int a pods node_profiles st = Done st'
    /\ grows st st'
    /\ (forall b, In b (bindings st') ->
          In b (bindings st)
          \/ exists p node n,
               In p (get_pending_pods pods)
               /\ b = (pod_namespace p, pod_name p, node)
               /\ bind_accepted a (pod_name p) node = true
               /\ In n (pool_of lr bt p) /\ instanceName n = Some node
               /\ fits (pod_requests py_float p).1
                       (pod_requests py_float p).2 n = true)
    /\ (forall k r, autoscalerequests st' !! k = Some r ->
          autoscalerequests st !! k = Some r
          \/ exists p,
               In p (get_pending_pods pods)
               /\ k = request_name (clock a (pod_name p)) (pod_type p)
               /\ r = AutoScaleRequest k (Some (pod_type p))
                                       (Some [pod_name p])
               /\ select_target py_float py_int lr bt p = Done None).
Proof.
  intros lr bt.
  destruct (CyclePackerFacts.partition_profiles_named node_profiles)
    as (Hlr & Hbt & _). fold lr bt in Hlr, Hbt.
  unfold schedule_pods.
  destruct (get_pending_pods pods) as [| p l] eqn:Hp.
  - exists st. split; [done |]. split; [by split |]. split; intros; by left.
  - destruct (partition_profiles node_profiles) as [lr' bt'] eqn:Hpart.
    simpl in lr, bt. subst lr bt.
    destruct (schedule_each_adds lr' bt' (p :: l) st Hlr Hbt)
      as (st' & Hrun & Hb & Hr).
    destruct (CyclePackerFacts.schedule_each_grows py_float py_int a
                lr' bt' (p :: l) st Hlr Hbt) as (st'' & Hrun' & Hg).
    rewrite Hrun in Hrun'. injection Hrun' as <-.
    exists st'. split; [exact Hrun |]. split; [exact Hg |].
    split; [exact Hb | exact Hr].
Qed.

End Cycle.
End PackerCycleMore.

(** ** Autoscaler: the selector, the resize, a pass *)
Module AutoscalerMore.
Import Autoscaler GreedyTermination.

Section AnyNumber.
Context {F : Type} `{PyNum F}.

Lemma scan_flavors_picks_member (fls : list (flavor F)) (tc tm : F)
    (best best' : option (flavor F)) (best_score : F) :
  scan_flavors tc tm fls best best_score = Done best' ->
  best' = best \/ exists fl, In fl fls /\ best' = Some fl.
Proof.
  revert best best_score.
  induction fls as [| fl fls IH]; intros best best_score; simpl.
  - intros [= <-]. by left.
  - destruct (calculate_score fl _ _) as [s | |]; simpl; [| done | done].
    destruct (flt best_score s); intros Hr; apply IH in Hr
      as [-> | (fl' & Hin & ->)].
    + right. exists fl. by split; [left |].
    + right. exists fl'. by split; [right |].
    + by left.
    + right. exists fl'. by split; [right |].
Qed.

(** X6. Whatever the selector returns is made of flavors of the catalog
    it was given, repetitions allowed: it invents no flavor. *)
Theorem greedy_selects_from_catalog (fuel : nat) (tc tm : F)
    (vm_flavors selected : list (flavor F)) :
  greedy_loop fuel tc tm vm_flavors = Done selected ->
  Forall (fun b => In b vm_flavors) selected.
Proof.
  revert tc tm selected.
  induction fuel as [| fuel IH]; intros tc tm selected; simpl.
  - destruct (_ || _); [done |]. intros [= <-]. constructor.
  - destruct (_ || _); [| intros [= <-]; constructor].
    destruct (scan_flavors tc tm vm_flavors None (of_int (-1)))
      as [best | |] eqn:Hscan; simpl; [| done | done].
    destruct best as [b |]; [| intros [= <-]; constructor].
    destruct (greedy_loop fuel _ _ vm_flavors) as [sel | |] eqn:Hrec;
      simpl; [| done | done].
    intros [= <-]. constructor; [| by eapply IH].
    apply scan_flavors_picks_member in Hscan as [? | (fl & Hin & [= ->])];
      done.
Qed.

Lemma calculate_score_raises (fl : flavor F) (u v : F) :
  fzero (fl_cpu fl) || fzero (fl_memory fl) || fzero (fl_price fl) = true ->
  calculate_score fl u v = Raised ZeroDivisionError.
Proof.
  unfold calculate_score, py_div. intros Hz.
  destruct (fzero (fl_cpu fl)); [done |].
  destruct (fzero (fl_memory fl)); [done |].
  destruct (fzero (fl_price fl)); [done |]. discriminate.
Qed.

Lemma scan_flavors_raises (fls1 fls2 : list (flavor F)) (fl : flavor F)
    (tc tm : F) (best : option (flavor F)) (best_score : F) :
  Forall scorable fls1 ->
  fzero (fl_cpu fl) || fzero (fl_memory fl) || fzero (fl_price fl) = true ->
  scan_flavors tc tm (fls1 ++ fl :: fls2) best best_score
  = Raised ZeroDivisionError.
Proof.
  intros Hs Hz. revert best best_score.
  induction Hs as [| x l Hx _ IH]; intros best best_score; simpl.
  - by rewrite calculate_score_raises.
  - destruct (calculate_score_returns x (py_min tc (fl_cpu x))
                (py_min tm (fl_memory x)) Hx) as [s ->]. simpl.
    destruct (flt best_score s); apply IH.
Qed.

(** X7. A catalog entry with zero CPU, zero memory or zero price makes
    the selector raise ZeroDivisionError as soon as there is demand: the
    scan scores every entry of the catalog in turn, whether or not an
    earlier entry already scored well. *)
Theorem greedy_raises_on_degenerate_flavor (fuel : nat) (tc tm : F)
    (fls1 fls2 : list (flavor F)) (fl : flavor F) :
  Forall scorable fls1 ->
  fzero (fl_cpu fl) || fzero (fl_memory fl) || fzero (fl_price fl) = true ->
  (tc >? of_int 0)%py || (tm >? of_int 0)%py = true ->
  greedy_loop (S fuel) tc tm (fls1 ++ fl :: fls2) = Raised ZeroDivisionError.
Proof.
  intros Hs Hz Hdemand. simpl. rewrite Hdemand.
  by rewrite scan_flavors_raises.
Qed.

(** The [try] block of [scale_gke_node_pool] ends at the read of the
    name [os], which the module binds nowhere. *)
Lemma resize_node_pool_unbound (a : api) (node_pool : string) (needed : Z)
    (st : cluster F) :
  resize_node_pool a node_pool needed st = Raised NameError.
Proof. reflexivity. Qed.

Lemma scale_gke_node_pool_unchanged (a : api) (workload_type : string)
    (needed : Z) (st : cluster F) :
  exists log, scale_gke_node_pool a workload_type needed st = (st, log).
Proof.
  unfold scale_gke_node_pool.
  destruct (NODE_POOL_MAPPING !! lower workload_type); [| by eexists].
  rewrite resize_node_pool_unbound. by eexists.
Qed.

(** X8. [scale_gke_node_pool] never resizes a pool. For a workload type
    that is neither batch nor long-running in lower case it reports that
    no pool is mapped; for the two mapped types its try block stops at
    the unbound name os and it reports the failure. The cluster is left
    as it was in both cases, whatever count was asked. *)
Theorem scale_gke_node_pool_never_resizes (a : api) (workload_type : string)
    (needed : Z) (st : cluster F) :
  scale_gke_node_pool a workload_type needed st
  = (st, if bool_decide (lower workload_type = "batch"
                         \/ lower workload_type = "long-running")
         then FailedToScale else NoMapping).
Proof.
  unfold scale_gke_node_pool.
  destruct (NODE_POOL_MAPPING !! lower workload_type) as [pool |] eqn:Hm.
  - rewrite resize_node_pool_unbound. rewrite bool_decide_eq_true_2; [done |].
    unfold NODE_POOL_MAPPING in Hm.
    apply lookup_insert_Some in Hm as [[<- _] | [_ Hm]]; [by left |].
    apply lookup_insert_Some in Hm as [[<- _] | [_ Hm]]; [by right |].
    by rewrite lookup_empty in Hm.
  - rewrite bool_decide_eq_false_2; [done |].
    unfold NODE_POOL_MAPPING in Hm.
    intros [Hb | Hl].
    + by rewrite Hb, lookup_insert_eq in Hm.
    + rewrite Hl, lookup_insert_ne, lookup_insert_eq in Hm; done.
Qed.

(** X9. Collecting the batch profiles stops at the first profile that
    has no spec: the profiles listed after it are dropped, batch nodes
    included. What is collected is a profile of the listing that has a
    spec whose lower-cased name contains batch. *)
Theorem collect_batch_stops_at_missing_spec (l1 l2 : list (node_profile F)) :
  collect_batch (l1 ++ NodeProfile None :: l2) = collect_batch l1
  /\ forall node, In node (collect_batch l1) ->
       In node l1
       /\ exists spec, np_spec node = Some spec
            /\ contains "batch" (lower (default "" (instanceName spec)))
               = true.
Proof.
  split.
  - induction l1 as [| n l IH]; simpl; [done |].
    destruct (np_spec n); [| done]. destruct (contains _ _); by rewrite IH.
  - induction l1 as [| n l IH]; simpl; [done |].
    destruct (np_spec n) as [spec |] eqn:Hs; [| done].
    destruct (contains _ _) eqn:Hc.
    + intros node [<- | Hin].
      * split; [by left |]. by exists spec.
      * destruct (IH node Hin) as [? ?]. by split; [right |].
    + intros node Hin. destruct (IH node Hin) as [? ?]. by split; [right |].
Qed.

End AnyNumber.
End AutoscalerMore.

(** ** Autoscaler in exact arithmetic *)
Module AutoscalerExact.
Import Autoscaler GreedyTermination.

Lemma py_min_Q_glb (a b x : Q) :
  (x <= a)%Q -> (x <= b)%Q -> (x <= py_min a b)%Q.
Proof.
  intros Ha Hb. unfold py_min. simpl. by destruct (Qle_bool a b).
Qed.

Lemma py_min_Q_glb_lt (a b x : Q) :
  (x < a)%Q -> (x < b)%Q -> (x < py_min a b)%Q.
Proof.
  intros Ha Hb. unfold py_min. simpl. by destruct (Qle_bool a b).
Qed.

Lemma calculate_score_value (fl : flavor Q) (u v : Q) :
  (0 < fl_cpu fl)%Q -> (0 < fl_memory fl)%Q -> (0 < fl_price fl)%Q ->
  calculate_score fl u v
  = Done (((1 # 2) * py_min (u / fl_cpu fl) 1
           + (1 # 2) * py_min (v / fl_memory fl) 1) / fl_price fl)%Q.
Proof.
  intros Hc Hm Hp. unfold calculate_score, py_div.
  by rewrite !fzero_Q_pos.
Qed.

(** X10. With the catalog of the source, a pick made while no remaining
    total is negative is always e2-micro: both flavors have two cores,
    e2-micro's memory share is never the smaller one, and its price is
    the lower, so e2-standard-2 never scores strictly higher. *)
Theorem greedy_prefers_micro (tc tm : Q) :
  (0 <= tc)%Q -> (0 <= tm)%Q -> (0 < tc \/ 0 < tm)%Q ->
  scan_flavors tc tm VM_FLAVORS None (of_int (-1)) = Done (Some e2_micro).
Proof.
  intros Htc Htm Hpos. unfold VM_FLAVORS. cbn [scan_flavors].
  rewrite (calculate_score_value e2_micro) by reflexivity.
  rewrite (calculate_score_value e2_standard_2) by reflexivity.
  cbn [res_bind fl_cpu fl_memory fl_price e2_micro e2_standard_2 of_int
       Q_PyNum].
  change (inject_Z 2) with 2%Q. change (inject_Z 1) with 1%Q.
  change (inject_Z 8) with 8%Q.
  set (A := py_min (py_min tc 2 / 2)%Q 1%Q).
  set (B1 := py_min (py_min tm 1 / 1)%Q 1%Q).
  set (B8 := py_min (py_min tm 8 / 8)%Q 1%Q).
  assert (0 <= py_min tc 2)%Q as Hc0 by (apply py_min_Q_glb; lra).
  assert (0 <= py_min tm 1)%Q as Hm1 by (apply py_min_Q_glb; lra).
  assert (0 <= py_min tm 8)%Q as Hm8 by (apply py_min_Q_glb; lra).
  pose proof (py_min_Q_le_l tm 8) as Hm8l.
  pose proof (py_min_Q_le_r tm 8) as Hm8r.
  assert (py_min tc 2 / 2 == py_min tc 2 * (1 # 2))%Q as Ec by reflexivity.
  assert (py_min tm 1 / 1 == py_min tm 1)%Q as E1
    by (unfold Qdiv; change (/ 1)%Q with 1%Q; ring).
  assert (py_min tm 8 / 8 == py_min tm 8 * (1 # 8))%Q as E8 by reflexivity.
  assert (0 <= A)%Q as HA by (apply py_min_Q_glb; lra).
  assert (0 <= B1)%Q as HB1 by (apply py_min_Q_glb; lra).
  assert (B8 <= B1)%Q as HB.
  { pose proof (py_min_Q_le_l (py_min tm 8 / 8)%Q 1%Q) as H8l.
    pose proof (py_min_Q_le_r (py_min tm 8 / 8)%Q 1%Q) as H8r.
    fold B8 in H8l, H8r.
    apply py_min_Q_glb; [| lra]. rewrite E1.
    apply py_min_Q_glb; lra. }
  assert (0 < A + B1)%Q as Hsum.
  { destruct Hpos as [Hc | Hm].
    - assert (0 < A)%Q; [| lra].
      apply py_min_Q_glb_lt; [| lra]. rewrite Ec.
      assert (0 < py_min tc 2)%Q by (apply py_min_Q_glb_lt; lra). lra.
    - assert (0 < B1)%Q; [| lra].
      apply py_min_Q_glb_lt; [| lra]. rewrite E1.
      apply py_min_Q_glb_lt; lra. }
  set (s1 := (((1 # 2) * A + (1 # 2) * B1) / lit 60 10000)%Q).
  set (s8 := (((1 # 2) * A + (1 # 2) * B8) / lit 686 10000)%Q).
  assert (s1 == ((1 # 2) * A + (1 # 2) * B1) * (10000 # 60))%Q as Es1
    by reflexivity.
  assert (s8 == ((1 # 2) * A + (1 # 2) * B8) * (10000 # 686))%Q as Es8
    by reflexivity.
  assert (flt (inject_Z (-1)) s1 = true) as ->.
  { simpl. apply negb_true_iff. apply not_true_is_false.
    rewrite Qle_bool_iff. change (inject_Z (-1)) with (-1)%Q. lra. }
  assert (flt s1 s8 = false) as ->.
  { simpl. apply negb_false_iff, Qle_bool_iff. lra. }
  reflexivity.
Qed.

(** X11. With the catalog of the source the number of flavors selected
    is bounded by the CPU demand alone: if cpu + 4 <= 2 k the selector
    returns at most k flavors, however large the memory demand. Each
    flavor brings at most 8 GiB, so memory demand above 8 k GiB is
    returned uncovered. *)
Theorem greedy_picks_bounded_by_cpu (k fuel : nat) (tc tm : Q)
    (selected : list (flavor Q)) :
  (tc + 4 <= inject_Z (2 * Z.of_nat k))%Q ->
  greedy_loop fuel tc tm VM_FLAVORS = Done selected ->
  (length selected <= k)%nat.
Proof.
  revert fuel tc tm selected.
  induction k as [| k IH]; intros fuel tc tm selected Hk Hr.
  - destruct fuel as [| fuel]; cbn [greedy_loop] in Hr;
      (destruct (_ || _); [| injection Hr as <-; simpl; lia]); [done |].
    rewrite scan_overshot in Hr; cbn [res_bind] in Hr.
    + injection Hr as <-. simpl. lia.
    + change (inject_Z (2 * Z.of_nat 0)) with 0%Q in Hk. lra.
  - destruct fuel as [| fuel]; cbn [greedy_loop] in Hr;
      (destruct (_ || _); [| injection Hr as <-; simpl; lia]); [done |].
    destruct (scan_flavors_member VM_FLAVORS tc tm None (of_int (-1))
                VM_FLAVORS_scorable)
      as (best & Hscan & [-> | (fl & Hin & ->)]); rewrite Hscan in Hr;
      cbn [res_bind] in Hr.
    + injection Hr as <-. simpl. lia.
    + destruct (greedy_loop fuel _ _ VM_FLAVORS) as [sel | |] eqn:Hrec;
        cbn [res_bind] in Hr; [| done | done].
      injection Hr as <-. simpl. apply le_n_S.
      apply (IH fuel _ _ sel) in Hrec; [done |].
      rewrite (VM_FLAVORS_two_cores fl Hin).
      assert (inject_Z (2 * Z.of_nat (S k))
              == inject_Z (2 * Z.of_nat k) + 2)%Q as Hs.
      { rewrite <- (inject_Z_plus _ 2). f_equiv. lia. }
      simpl. lra.
Qed.

End AutoscalerExact.

(** ** Autoscaler: what a pass leaves alone *)
Module AutoscalerPassMore.
Import Autoscaler.

Section Pass.
Context {F : Type} `{PyNum F}.
Variable py_float : string -> option F.
Variable a : api.

Lemma process_request_keeps (fuel : nat) (req : autoscale_request)
    (st st1 : cluster F) (log : option scale_log) :
  process_request py_float fuel a req st = Done (st1, log) ->
  pods st1 = pods st /\ nodeprofiles st1 = nodeprofiles st
  /\ node_pools st1 = node_pools st /\ pool_sizes st1 = pool_sizes st
  /\ forall k r, autoscalerequests st1 !! k = Some r ->
                 autoscalerequests st !! k = Some r.
Proof.
  unfold process_request, spec_of_request.
  destruct (asr_spec req) as [spec |]; [| done]. cbn [res_bind].
  destruct (resolve_pending st _) as [| p l]; [by intros [= <- <-] |].
  destruct (vms_needed_for py_float fuel a st _ _) as [vms | |];
    cbn [res_bind]; [| done | done].
  destruct (AutoscalerMore.scale_gke_node_pool_unchanged a
              (default "batch" (workloadType spec))
              (Z.of_nat (length vms)) st) as [log' ->].
  intros [= <- <-]. unfold delete_request.
  destruct (delete_accepted a (asr_name req)); simpl; [| done].
  repeat split; try done. intros k r Hk.
  by apply lookup_delete_Some in Hk as [_ Hk].
Qed.

Lemma process_each_keeps (fuel : nat) (reqs : list autoscale_request)
    (st st' : cluster F) :
  process_each py_float fuel a reqs st = Done st' ->
  pods st' = pods st /\ nodeprofiles st' = nodeprofiles st
  /\ node_pools st' = node_pools st /\ pool_sizes st' = pool_sizes st
  /\ forall k r, autoscalerequests st' !! k = Some r ->
                 autoscalerequests st !! k = Some r.
Proof.
  revert st. induction reqs as [| req l IH]; intros st; simpl.
  - by intros [= <-].
  - destruct (process_request py_float fuel a req st) as [[st1 log] | |]
      eqn:Hreq; cbn [res_bind fst]; [| done | done].
    intros Hrest. apply IH in Hrest as (H1 & H2 & H3 & H4 & H5).
    apply process_request_keeps in Hreq as (G1 & G2 & G3 & G4 & G5).
    repeat split; try congruence. intros k r Hk. by apply G5, H5.
Qed.

(** X12. A pass of [autoscale_loop] that completes has only deleted, in
    any arithmetic: pods, node profiles, the node pools and the pool
    sizes are as before, no AutoScaleRequest has been added or rewritten,
    and what remains of the requests was there before. *)
Theorem autoscale_loop_only_deletes (st st' : cluster F) (fuel : nat) :
  autoscale_loop py_float fuel a st = Done st' ->
  pods st' = pods st /\ nodeprofiles st' = nodeprofiles st
  /\ node_pools st' = node_pools st /\ pool_sizes st' = pool_sizes st
  /\ forall k r, autoscalerequests st' !! k = Some r ->
                 autoscalerequests st !! k = Some r.
Proof. unfold autoscale_loop. apply process_each_keeps. Qed.

End Pass.
End AutoscalerPassMore.

(** ** Resource Profiler: which profile a pass writes *)
Module ProfilerMore.
Import ResourceProfiler.

Section Profiler.
Context {F : Type} `{PyNum F}.
Variable py_float : string -> option F.

(** X13. The upsert stands after the [for node in nodes] loop, so a pass
    that writes, writes one profile only: it is stored under the name of
    the last node listed and carries that node's instance type, while
    its availability figures are those of the last node with a
    [workload] label, which may be another node. Every other NodeProfile
    stays as it was. *)
Theorem reconcile_writes_one_profile (l : list (k8s_node F))
    (last : k8s_node F) (all_pods : list (node_pod F)) (fr fr' : frame F)
    (store store' : gmap string (node_profile F)) :
  Exists (fun n => is_Some (nd_labels n !! "workload")) (l ++ [last]) ->
  update_node_profiles py_float true (l ++ [last]) all_pods fr store
  = Done (store', fr') ->
  exists spec pre node post a_cpu a_mem u_cpu u_mem,
    (forall k, k <> nd_name last -> store' !! k = store !! k)
    /\ store' !! nd_name last = Some (NodeProfile (Some spec))
    /\ instanceName spec = Some (nd_name last)
    /\ instanceType spec
       = Some (dict_get (nd_labels last)
                 "beta.kubernetes.io/instance-type" "unknown")
    /\ l ++ [last] = pre ++ node :: post
    /\ is_Some (nd_labels node !! "workload")
    /\ Forall (fun n => nd_labels n !! "workload" = None) post
    /\ allocatable_cpu node = Num a_cpu
    /\ allocatable_memory node = Num a_mem
    /\ used "cpu" (pods_on (nd_name node) all_pods) = Done u_cpu
    /\ used "memory" (pods_on (nd_name node) all_pods) = Done u_mem
    /\ cpuAvailable spec = Some (a_cpu - u_cpu)%py
    /\ memoryAvailable spec = Some (a_mem - u_mem)%py.
Proof.
  intros Hex Hr.
  apply ProfilerFacts.reconcile_writes_body in Hr
    as [(Hup & _) | (_ & Hrun & name & spec & Hb & ->)]; [done |].
  apply ProfilerFacts.profile_body_fields in Hb
    as (m & labels & a_cpu & a_mem & Hm & Hnl & Hall & Hname & Htype
        & Hcpu & Hmem & _).
  rewrite (ProfilerFacts.name_labels_of_last all_pods l last fr fr' Hrun)
    in Hnl.
  injection Hnl as <- <-.
  destruct (ProfilerFacts.measures_of_pass all_pods (l ++ [last]) fr fr' m
              Hrun Hm)
    as [(pre & node & post & Hnodes & Hn & Hpost & _ & Hall' & Hc & Hu)
       | [Hnone _]].
  - rewrite Hall in Hall'. injection Hall' as Ha Hb.
    exists spec, pre, node, post, a_cpu, a_mem, (used_cpu m), (used_memory m).
    split; [by intros k Hk; rewrite lookup_insert_ne |].
    split; [by rewrite lookup_insert_eq |].
    by repeat split.
  - exfalso. apply Exists_exists in Hex as (n & Hin & [v Hv]).
    rewrite Forall_forall in Hnone. by rewrite (Hnone n Hin) in Hv.
Qed.

(** X14. A pass that meets no node with a [workload] label, while no
    earlier pass has left measurements behind, raises NameError before
    any write: [allocatable] is read unbound after the loop. The empty
    node list is such a pass. The handler of the pass catches
    ApiException only. *)
Theorem reconcile_raises_without_labelled_node
    (nodes : list (k8s_node F)) (all_pods : list (node_pod F))
    (fr : frame F) (store : gmap string (node_profile F)) :
  Forall (fun n => nd_labels n !! "workload" = None) nodes ->
  measures fr = None ->
  update_node_profiles py_float true nodes all_pods fr store
  = Raised NameError.
Proof.
  intros Hnodes Hfr.
  destruct (ProfilerFacts.visit_nodes_unlabelled all_pods nodes fr Hnodes)
    as (fr' & Hrun & Hm).
  unfold update_node_profiles. rewrite Hrun. cbn [res_bind].
  unfold profile_body. by rewrite Hm, Hfr.
Qed.


End Profiler.
End ProfilerMore.

Lemma reconcile_writes_one_profile_witness :
  let nodes := [Scenario.batch_node] ++ [Scenario.system_node] in
  let out :=
    ResourceProfiler.update_node_profiles decimal_float true nodes
      [Scenario.greedy_pod] Scenario.fresh_frame Scenario.aged_profiles in
  let store' :=
    match out with Done r => r.1 | _ => Scenario.aged_profiles end in
  let fr' := match out with Done r => r.2 | _ => Scenario.fresh_frame end in
  Exists (fun n => is_Some (ResourceProfiler.nd_labels n !! "workload")) nodes
  /\ out = Done (store', fr')
  /\ exists spec pre node post a_cpu a_mem u_cpu u_mem,
       (forall k, k <> ResourceProfiler.nd_name Scenario.system_node ->
                  store' !! k = Scenario.aged_profiles !! k)
       /\ store' !! ResourceProfiler.nd_name Scenario.system_node
          = Some (NodeProfile (Some spec))
       /\ instanceName spec
          = Some (ResourceProfiler.nd_name Scenario.system_node)
       /\ instanceType spec
          = Some (dict_get (ResourceProfiler.nd_labels Scenario.system_node)
                    "beta.kubernetes.io/instance-type" "unknown")
       /\ nodes = pre ++ node :: post
       /\ is_Some (ResourceProfiler.nd_labels node !! "workload")
       /\ Forall (fun n => ResourceProfiler.nd_labels n !! "workload" = None)
                 post
       /\ ResourceProfiler.allocatable_cpu node = ResourceProfiler.Num a_cpu
       /\ ResourceProfiler.allocatable_memory node
          = ResourceProfiler.Num a_mem
       /\ ResourceProfiler.used "cpu"
            (ResourceProfiler.pods_on (ResourceProfiler.nd_name node)
                                      [Scenario.greedy_pod])
          = Done u_cpu
       /\ ResourceProfiler.used "memory"
            (ResourceProfiler.pods_on (ResourceProfiler.nd_name node)
                                      [Scenario.greedy_pod])
          = Done u_mem
       /\ cpuAvailable spec = Some (a_cpu - u_cpu)%Q
       /\ memoryAvailable spec = Some (a_mem - u_mem)%Q.
Proof.
  intros nodes out store' fr'.
  assert (Exists (fun n => is_Some (ResourceProfiler.nd_labels n !! "workload"))
                 nodes) as Hex.
  { apply Exists_cons_hd. by eexists. }
  assert (out = Done (store', fr')) as Hrun by (vm_compute; reflexivity).
  split; [exact Hex |]. split; [exact Hrun |].
  exact (ProfilerMore.reconcile_writes_one_profile decimal_float
           [Scenario.batch_node] Scenario.system_node [Scenario.greedy_pod]
           Scenario.fresh_frame fr' Scenario.aged_profiles store' Hex Hrun).
Defined.

Lemma reconcile_raises_without_labelled_node_witness :
  Forall (fun n => ResourceProfiler.nd_labels n !! "workload" = None)
         [Scenario.system_node]
  /\ ResourceProfiler.measures Scenario.fresh_frame = None
  /\ ResourceProfiler.update_node_profiles decimal_float true
       [Scenario.system_node] [Scenario.greedy_pod] Scenario.fresh_frame
       Scenario.aged_profiles
     = Raised NameError.
Proof.
  assert (Forall (fun n => ResourceProfiler.nd_labels n !! "workload" = None)
                 [Scenario.system_node]) as Hno.
  { by repeat constructor. }
  split; [exact Hno |]. split; [reflexivity |].
  exact (ProfilerMore.reconcile_raises_without_labelled_node decimal_float
           [Scenario.system_node] [Scenario.greedy_pod] Scenario.fresh_frame
           Scenario.aged_profiles Hno eq_refl).
Defined.


(** ** One request, two readers *)

Lemma prefix_refl (t : string) : String.prefix t t = true.
Proof.
  induction t as [| a t IH]; [done |]. simpl.
  by destruct (ascii_dec a a).
Qed.

Lemma contains_append_r (t u : string) : contains t (u +:+ t) = true.
Proof.
  induction u as [| c u IH].
  - destruct t as [| a t]; [done |].
    change ("" +:+ String a t) with (String a t).
    cbn [contains]. by rewrite prefix_refl.
  - rewrite append_cons. cbn [contains]. rewrite IH. apply orb_true_r.
Qed.

Lemma substring_split (s : string) (k : nat) :
  (k <= String.length s)%nat ->
  s = substring 0 k s +:+ substring k (String.length s - k) s.
Proof.
  revert k. induction s as [| c s IH]; intros k Hk.
  - by destruct k.
  - destruct k as [| k]; simpl.
    + by rewrite substring_all.
    + rewrite append_cons. f_equal. apply IH. simpl in Hk. lia.
Qed.

Lemma endswith_inv (s t : string) :
  endswith s t = true -> exists u, s = u +:+ t.
Proof.
  unfold endswith. intros [Hlen Heq]%andb_true_iff.
  apply Nat.leb_le in Hlen. apply String.eqb_eq in Heq.
  exists (substring 0 (String.length s - String.length t) s).
  pose proof (substring_split s (String.length s - String.length t)
                ltac:(lia)) as Hs.
  replace (String.length s - (String.length s - String.length t))%nat
    with (String.length t) in Hs by lia.
  by rewrite Heq in Hs.
Qed.

Lemma not_contains_not_endswith (s t : string) :
  contains t s = false -> endswith s t = false.
Proof.
  intros Hc. destruct (endswith s t) eqn:He; [| done].
  apply endswith_inv in He as [u ->]. by rewrite contains_append_r in Hc.
Qed.

(** [(n + a).replace(a, "")] for a one-character [a] that [n] does not
    contain. *)
Lemma remove_all_append_1 (a : ascii) (n : string) :
  contains (String a "") n = false ->
  remove_all (String a "") (n +:+ String a "") = n.
Proof.
  unfold remove_all. induction n as [| c n IH]; intros Hc.
  - simpl. by destruct (ascii_dec a a).
  - cbn [contains] in Hc. apply orb_false_iff in Hc as [Hp Hc].
    rewrite append_cons. cbn [remove_go]. simpl in Hp |- *.
    destruct (ascii_dec a c); [by destruct n |].
    by rewrite IH.
Qed.

(** The same for a suffix of two different characters. *)
Lemma remove_all_append_2 (a b : ascii) (n : string) :
  a <> b ->
  contains (String a (String b "")) n = false ->
  remove_all (String a (String b "")) (n +:+ String a (String b "")) = n.
Proof.
  intros Hab. unfold remove_all. induction n as [| c n IH]; intros Hc.
  - simpl. destruct (ascii_dec a a); [| done].
    by destruct (ascii_dec b b).
  - cbn [contains] in Hc. apply orb_false_iff in Hc as [Hp Hc].
    rewrite append_cons. cbn [remove_go].
    assert (String.prefix (String a (String b "")) (String c (n +:+ String a (String b "")))
            = false) as ->.
    { simpl in Hp |- *. destruct (ascii_dec a c); [| done].
      destruct n as [| d n]; simpl.
      - by destruct (ascii_dec b a) as [-> |].
      - simpl in Hp. destruct (ascii_dec b d); [by destruct n | done]. }
    by rewrite IH.
Qed.

(** A text without capital letters contains no pattern that starts with
    one. *)
Lemma lower_fixed_contains (a : ascii) (t s : string) :
  lower_ascii a <> a -> lower s = s -> contains (String a t) s = false.
Proof.
  intros Ha. induction s as [| c s IH]; intros Hs; [done |].
  simpl in Hs. injection Hs as Hc Hs.
  cbn [contains]. rewrite (IH Hs), orb_false_r. simpl.
  destruct (ascii_dec a c) as [-> |]; [done | done].
Qed.

Module UnitsAgreement.
Section Units.
Context {F : Type} `{PyNum F}.
Variable py_float : string -> option F.

(** X15. The Packer and the Autoscaler read the same CPU and memory
    request off a pod: for a CPU quantity that is a numeral c without the
    letter m, alone or followed by m, and a memory quantity that is a
    numeral without capital letters followed by Mi or Gi, or such a
    numeral alone, [get_pod_cpu_request] and [get_pod_memory_request]
    return what [bfd_algorithm] computes from [parse_cpu] and
    [parse_memory]. *)
Theorem autoscaler_reads_as_packer (p : pod) (requests : gmap string string)
    (c m : string) :
  Autoscaler.first_requests p = Some requests ->
  contains "m" c = false ->
  lower m = m ->
  dict_get requests "cpu" "0" = c \/ dict_get requests "cpu" "0" = c +:+ "m" ->
  dict_get requests "memory" "0" = m +:+ "Mi"
  \/ dict_get requests "memory" "0" = m +:+ "Gi"
  \/ (dict_get requests "memory" "0" = m
      /\ endswith m "mi" = false /\ endswith m "gi" = false) ->
  (Autoscaler.get_pod_cpu_request py_float p,
   Autoscaler.get_pod_memory_request py_float p)
  = TaskPacker.pod_requests py_float p.
Proof.
  intros Hreq Hc Hm Hcpu Hmem.
  unfold Autoscaler.get_pod_cpu_request, Autoscaler.get_pod_memory_request,
    TaskPacker.pod_requests.
  rewrite Hreq. unfold Autoscaler.first_requests in Hreq.
  destruct (containers p) as [| k ks]; [done |].
  destruct (c_resources k) as [[r |] |]; [| done | done].
  injection Hreq as ->.
  change (default ∅ (Some requests)) with requests.
  pose proof (drop_last_append c "m") as Dm.
  pose proof (drop_last_append m "mi") as Dmi.
  pose proof (drop_last_append m "gi") as Dgi.
  change (String.length "m") with 1%nat in Dm.
  change (String.length "mi") with 2%nat in Dmi.
  change (String.length "gi") with 2%nat in Dgi.
  pose proof (lower_fixed_contains "M" "i" m ltac:(done) Hm) as HMi.
  pose proof (lower_fixed_contains "G" "i" m ltac:(done) Hm) as HGi.
  f_equal.
  - destruct Hcpu as [-> | ->].
    + rewrite Hc. unfold TaskPacker.parse_cpu.
      by rewrite (not_contains_not_endswith c "m" Hc).
    + rewrite contains_append_r, (remove_all_append_1 "m" c Hc).
      unfold TaskPacker.parse_cpu.
      by rewrite endswith_append, Dm.
  - destruct Hmem as [-> | [-> | (-> & Hmi & Hgi)]].
    + rewrite endswith_append, (remove_all_append_2 "M" "i" m) by done.
      unfold TaskPacker.parse_memory. rewrite lower_append, Hm.
      change (lower "Mi") with "mi".
      by rewrite endswith_append, Dmi.
    + rewrite (endswith_append_ne m "Gi" "Mi") by done.
      rewrite endswith_append, (remove_all_append_2 "G" "i" m) by done.
      unfold TaskPacker.parse_memory. rewrite lower_append, Hm.
      change (lower "Gi") with "gi".
      rewrite (endswith_append_ne m "gi" "mi") by done.
      by rewrite endswith_append, Dgi.
    + rewrite (not_contains_not_endswith m "Mi" HMi).
      rewrite (not_contains_not_endswith m "Gi" HGi).
      unfold TaskPacker.parse_memory. by rewrite Hm, Hmi, Hgi.
Qed.

End Units.
End UnitsAgreement.

(** ** Instance Cleaner: emptying a node *)
Module CleanerFacts.
Import InstanceCleaner.

(** A generator that keeps the elements passing a test, once it
    returns. *)
Lemma collect_filter {A} (c : A -> bool) (f : A -> result (option A))
    (l ys : list A) :
  (forall x y, f x = Returns y -> y = if c x then Some x else None) ->
  collect f l = Returns ys -> ys = List.filter c l.
Proof.
  intros Hf. revert ys. induction l as [| x l IH]; intros ys; simpl.
  - by intros [= <-].
  - destruct (f x) as [y | |] eqn:Hx; [| done | done]. simpl.
    destruct (collect f l) as [zs | |]; [| done | done]. simpl.
    intros [= <-]. rewrite (Hf x y Hx), (IH zs eq_refl).
    by destruct (c x).
Qed.

Lemma is_batch_pod_test (p : pod) (y : option pod) :
  is_batch_pod p = Returns y -> y = if batch_pod p then Some p else None.
Proof.
  unfold is_batch_pod, batch_pod. destruct (pod_labels p); [| done].
  by intros [= <-].
Qed.

Lemma is_candidate_test (name : string) (n : node) (y : option node) :
  is_candidate name n = Returns y ->
  y = if negb (String.eqb (n_name n) name) && batch_labelled n
      then Some n else None.
Proof.
  unfold is_candidate, batch_labelled.
  destruct (String.eqb (n_name n) name); [by intros [= <-] |].
  destruct (n_labels n); [| done]. by intros [= <-].
Qed.

Lemma is_batch_node_test (n : node) (y : option node) :
  is_batch_node n = Returns y ->
  y = if batch_labelled n then Some n else None.
Proof.
  unfold is_batch_node, batch_labelled. destruct (n_labels n); [| done].
  by intros [= <-].
Qed.

Lemma keyed_lookup (st : pod_store) (k : string * string) (p : pod) :
  keyed st -> st !! k = Some p -> st !! key_of p = Some p.
Proof.
  intros Hkeyed Hp. unfold key_of.
  by rewrite <- (map_Forall_lookup_1 _ _ _ _ Hkeyed Hp).
Qed.

(** What a successful migration does to the store. *)
Lemma migrate_container_true (a : api) (p : pod) (t : string)
    (st st' : pod_store) :
  migrate_container a p t st = Done (true, st') ->
  st !! replica_key p = None
  /\ is_Some (st !! key_of p)
  /\ st' = delete (key_of p) (<[replica_key p := new_pod p t]> st).
Proof.
  assert (replica_key p <> key_of p) as Hne.
  { intros Heq. injection Heq as Heq.
    by apply MigrationFacts.new_pod_name_fresh in Heq. }
  unfold migrate_container, migration_steps, seq, subprocess_run,
    create_namespaced_pod, delete_namespaced_pod.
  fold (replica_key p). fold (key_of p).
  destruct (containers p) as [| c cs]; [done |]. simpl.
  destruct (shell_ok a (checkpoint_cmd _ _ _)); simpl; [| done].
  destruct (shell_ok a (copy_cmd _ _)); simpl; [| done].
  destruct (create_pod_ok a); simpl; [| done].
  change (pod_namespace p, new_pod_name (pod_name p)) with (replica_key p).
  change (pod_namespace p, pod_name p) with (key_of p).
  destruct (st !! replica_key p) eqn:Hnew; simpl; [done |].
  destruct (shell_ok a (copy_to_new_cmd _ _)); simpl; [| done].
  destruct (shell_ok a (restore_cmd _ _ _)); simpl; [| done].
  destruct (delete_pod_ok a); simpl; [| done].
  rewrite lookup_insert_ne by done.
  destruct (st !! key_of p) eqn:Horig; [| done].
  intros [= <-]. by repeat split.
Qed.

(** A failed migration leaves the store as it was, or with the replica
    it had created. *)
Lemma migrate_container_false (a : api) (p : pod) (t : string)
    (st st' : pod_store) :
  migrate_container a p t st = Done (false, st') ->
  st' = st
  \/ (st !! replica_key p = None
      /\ st' = <[replica_key p := new_pod p t]> st).
Proof.
  unfold migrate_container, migration_steps, seq, subprocess_run,
    create_namespaced_pod, delete_namespaced_pod.
  destruct (containers p) as [| c cs]; [done |]. simpl.
  change (pod_namespace p, new_pod_name (pod_name p)) with (replica_key p).
  change (pod_namespace p, pod_name p) with (key_of p).
  destruct (shell_ok a (checkpoint_cmd _ _ _)); simpl;
    [| intros [= <-]; by left].
  destruct (shell_ok a (copy_cmd _ _)); simpl; [| intros [= <-]; by left].
  destruct (create_pod_ok a); simpl; [| intros [= <-]; by left].
  destruct (st !! replica_key p) eqn:Hnew; simpl; [intros [= <-]; by left |].
  destruct (shell_ok a (copy_to_new_cmd _ _)); simpl;
    [| intros [= <-]; by right].
  destruct (shell_ok a (restore_cmd _ _ _)); simpl;
    [| intros [= <-]; by right].
  destruct (delete_pod_ok a); simpl; [| intros [= <-]; by right].
  destruct (<[replica_key p := new_pod p t]> st !! key_of p);
    [done | intros [= <-]; by right].
Qed.

Section Nodes.
Context {F : Type} `{PyNum F}.
Variable py_float : string -> option F.
Variable py_int : string -> option Z.

Lemma find_target_in (na : node_api) (cands : list node) (p : pod)
    (st : pod_store) (t : string) :
  find_target py_float py_int na cands p st = Returns (Some t) ->
  exists cand,
    In cand cands /\ t = n_name cand
    /\ check_node_resources py_float py_int na cand p st = Returns true.
Proof.
  induction cands as [| cand rest IH]; simpl; [done |].
  destruct (check_node_resources py_float py_int na cand p st)
    as [[|] | |] eqn:Hfit; simpl; [| | done | done].
  - intros [= <-]. exists cand. by repeat split; [left |..].
  - intros Hrest. destruct (IH Hrest) as (c & Hin & Ht & Hc).
    exists c. by repeat split; [right |..].
Qed.

(** The loop over the batch pods: the pods of a prefix [L1] have been
    migrated, those behind it have not; the loop reports success only
    when the prefix is the whole list. Pods outside the prefix keep their
    entries, and what is new in the store is a replica, which starts as
    Pending. *)
Lemma migrate_each_effect (a : api) (na : node_api) (cands : list node)
    (L : list pod) (st st' : pod_store) (r : result bool) :
  keyed st -> List.NoDup L ->
  (forall p, In p L -> st !! key_of p = Some p) ->
  migrate_each py_float py_int a na cands L st = (st', r) ->
  exists L1 L2,
    L = L1 ++ L2
    /\ (r = Returns true -> L2 = [])
    /\ keyed st'
    /\ (forall p, In p L1 ->
          exists cand, In cand cands
            /\ st' !! replica_key p = Some (new_pod p (n_name cand)))
    /\ (forall k q, st' !! k = Some q ->
          (st !! k = Some q /\ ~ In q L1) \/ pod_phase q = Pending)
    /\ (forall k q, st !! k = Some q -> st' !! k = Some q \/ In q L1).
Proof.
  assert (forall (st : pod_store) (L : list pod) (r : result bool),
            keyed st -> r <> Returns true ->
            exists L1 L2,
              L = L1 ++ L2
              /\ (r = Returns true -> L2 = [])
              /\ keyed st
              /\ (forall p, In p L1 ->
                    exists cand, In cand cands
                      /\ st !! replica_key p
                         = Some (new_pod p (n_name cand)))
              /\ (forall k q, st !! k = Some q ->
                    (st !! k = Some q /\ ~ In q L1)
                    \/ pod_phase q = Pending)
              /\ (forall k q, st !! k = Some q ->
                               st !! k = Some q \/ In q L1)) as Hstop.
  { intros st0 L0 r0 Hk Hr. exists [], L0. split; [done |].
    split; [done |]. split; [done |]. split; [by intros p [] |].
    split; [| by left]. intros k q Hq. left. split; [done | by intros []]. }
  revert st. induction L as [| p rest IH]; intros st Hkeyed Hnd Hin; simpl.
  - intros [= <- <-]. exists [], []. split; [done |]. split; [done |].
    split; [done |]. split; [by intros p [] |]. split; [| by left].
    intros k q Hq. left. split; [done | by intros []].
  - destruct (find_target py_float py_int na cands p st) as [[t |] | |]
      eqn:Htarget;
      [| intros [= <- <-]; by apply Hstop ..].
    destruct (truthy (Some t)); [| intros [= <- <-]; by apply Hstop].
    destruct (migrate_container a p t st) as [[[|] st1] | |] eqn:Hmig;
      simpl; [| | intros [= <- <-]; by apply Hstop ..].
    + apply migrate_container_true in Hmig as (Hfree & [p0 Horig] & ->).
      apply find_target_in in Htarget as (cand & Hcand & -> & _).
      assert (st !! key_of p = Some p) as Hp by (apply Hin; by left).
      apply NoDup_cons_iff in Hnd as [Hp_rest Hnd].
      set (st1 := delete (key_of p)
                    (<[replica_key p := new_pod p (n_name cand)]> st)).
      assert (keyed st1) as Hkeyed1.
      { apply map_Forall_lookup. intros k q Hq. subst st1.
        apply lookup_delete_Some in Hq as [Hk Hq].
        apply lookup_insert_Some in Hq as [[<- <-] | [_ Hq]]; [done |].
        by apply (map_Forall_lookup_1 _ _ _ _ Hkeyed Hq). }
      assert (forall q, In q rest -> st1 !! key_of q = Some q) as Hin1.
      { intros q Hq. pose proof (Hin q (or_intror Hq)) as Hst. subst st1.
        rewrite lookup_delete_ne.
        - rewrite lookup_insert_ne; [done |]. intros Heq.
          rewrite <- Heq in Hst. congruence.
        - intros Heq. rewrite <- Heq in Hst.
          assert (q = p) as -> by congruence. done. }
      intros Hrest.
      destruct (IH st1 Hkeyed1 Hnd Hin1 Hrest)
        as (L1 & L2 & -> & Hall & Hk' & Hrep & Hold & Hkeep).
      exists (p :: L1), L2. split; [done |]. split; [exact Hall |].
      split; [exact Hk' |]. split; [| split].
      * intros q [<- | Hq]; [| by apply Hrep].
        exists cand. split; [done |].
        destruct (Hkeep (replica_key p) (new_pod p (n_name cand)))
          as [Hthere | Hnew]; [| done |].
        -- subst st1. rewrite lookup_delete_ne.
           ++ by rewrite lookup_insert_eq.
           ++ intros Heq. rewrite Heq in Hp. congruence.
        -- assert (In (new_pod p (n_name cand)) (L1 ++ L2)) as Hnew'
             by (apply in_or_app; by left).
           pose proof (Hin _ (or_intror Hnew')) as Hst.
           change (key_of (new_pod p (n_name cand))) with (replica_key p)
             in Hst.
           congruence.
      * intros k q Hq. destruct (Hold k q Hq) as [[Hq1 Hnot] | Hpend];
          [| by right].
        subst st1. apply lookup_delete_Some in Hq1 as [Hk Hq1].
        apply lookup_insert_Some in Hq1 as [[<- <-] | [_ Hq1]]; [by right |].
        left. split; [done |]. intros [<- | Hq']; [| done].
        by apply (map_Forall_lookup_1 _ _ _ _ Hkeyed) in Hq1.
      * intros k q Hq. destruct (decide (k = key_of p)) as [-> | Hk].
        -- right. left. congruence.
        -- destruct (Hkeep k q) as [Hthere | Hq']; [| by left | by right; right].
           subst st1. rewrite lookup_delete_ne by done.
           rewrite lookup_insert_ne; [done |]. intros <-. congruence.
    + intros [= <- <-]. apply migrate_container_false in Hmig.
      exists [], (p :: rest). split; [done |]. split; [done |].
      destruct Hmig as [-> | [Hfree ->]].
      * split; [done |]. split; [by intros q [] |]. split; [| by left].
        intros k q Hq. left. split; [done | by intros []].
      * split.
        { apply map_Forall_lookup. intros k q Hq.
          apply lookup_insert_Some in Hq as [[<- <-] | [_ Hq]]; [done |].
          by apply (map_Forall_lookup_1 _ _ _ _ Hkeyed Hq). }
        split; [by intros q [] |]. split.
        -- intros k q Hq.
           apply lookup_insert_Some in Hq as [[<- <-] | [_ Hq]];
             [by right |].
           left. split; [done | by intros []].
        -- intros k q Hq. left. rewrite lookup_insert_ne; [done |].
           intros <-. congruence.
Qed.

Lemma filter_cordoned (name : string) (nodes : list node) :
  List.filter (fun n => negb (String.eqb (n_name n) name))
    (map (fun n =>
            if String.eqb (n_name n) name
            then Node (n_name n) (n_labels n) (n_capacity n)
                      (n_allocatable n) true
            else n)
         nodes)
  = List.filter (fun n => negb (String.eqb (n_name n) name)) nodes.
Proof.
  induction nodes as [| n l IH]; [done |]. simpl.
  destruct (String.eqb (n_name n) name) eqn:Hn; simpl; rewrite Hn; simpl;
    by rewrite IH.
Qed.

(** The last branch never touches the pods; it removes the node when it
    answers [True] and removes neither node nor instance otherwise. *)
Lemma deprovision_effect (na : node_api) (name : string) (w w' : world)
    (r : result bool) :
  deprovision na name w = (w', r) ->
  w_pods w' = w_pods w
  /\ (r = Returns true \/ r = Returns false)
  /\ (r = Returns true ->
      w_nodes w'
      = List.filter (fun n => negb (String.eqb (n_name n) name)) (w_nodes w))
  /\ (r <> Returns true ->
      map n_name (w_nodes w') = map n_name (w_nodes w)
      /\ w_deleted_instances w' = w_deleted_instances w).
Proof.
  unfold deprovision, patch_node, delete_node.
  destruct (patch_node_ok na && existsb _ (w_nodes w)).
  - match goal with
    | |- context [existsb ?f (map ?g ?l)] => destruct (existsb f (map g l))
    end; rewrite ?andb_true_r, ?andb_false_r.
    + destruct (delete_node_ok na); intros [= <- <-]; simpl.
      * split; [done |]. split; [by left |]. split; [| done].
        intros _. apply filter_cordoned.
      * split; [done |]. split; [by right |]. split; [done |]. intros _.
        split; [| done]. rewrite map_map. apply map_ext.
        intros n. by destruct (String.eqb (n_name n) name).
    + intros [= <- <-]; simpl.
      split; [done |]. split; [by right |]. split; [done |]. intros _.
      split; [| done]. rewrite map_map. apply map_ext.
      intros n. by destruct (String.eqb (n_name n) name).
  - intros [= <- <-]. split; [done |]. split; [by right |]. by split.
Qed.

(** The pods [reschedule_node] sets out to migrate. *)
Lemma batch_pods_listed (na : node_api) (name : string) (st : pod_store)
    (L : list pod) :
  keyed st ->
  collect is_batch_pod (list_namespaced_pod na name st) = Returns L ->
  List.NoDup L
  /\ forall p, In p L <->
               batch_pod p = true /\ running_on name p = true
               /\ st !! key_of p = Some p.
Proof.
  intros Hkeyed HL.
  apply (collect_filter batch_pod) in HL; [| exact is_batch_pod_test].
  subst L. unfold list_namespaced_pod.
  set (rank := fun p : pod => listing_rank na (pod_namespace p, pod_name p)).
  pose proof (py_sort_perm Nat.ltb rank (map_to_list st).*2) as Hperm.
  split.
  - do 2 apply List.NoDup_filter. apply NoDup_ListNoDup. rewrite Hperm.
    apply NoDup_fmap_2_strong; [| apply NoDup_map_to_list].
    intros [k1 p1] [k2 p2] H1%elem_of_map_to_list H2%elem_of_map_to_list.
    simpl. intros <-.
    apply (map_Forall_lookup_1 _ _ _ _ Hkeyed) in H1, H2. congruence.
  - intros p. rewrite !filter_In. split.
    + intros [[Hp Hrun] Hbatch]. split; [done |]. split; [done |].
      apply list_elem_of_In in Hp. rewrite Hperm in Hp.
      apply list_elem_of_fmap in Hp as ([k q] & -> & Hq).
      apply elem_of_map_to_list in Hq. simpl.
      by apply (keyed_lookup _ k).
    + intros (Hbatch & Hrun & Hp). split; [| done]. split; [| done].
      apply list_elem_of_In. rewrite Hperm. apply list_elem_of_fmap.
      exists (key_of p, p). split; [done |]. by apply elem_of_map_to_list.
Qed.

(** X16. When [reschedule_node] answers True on a store that files every
    pod under its namespace and name, the node is gone from the cluster;
    every batch pod of namespace default that was Running on it has a
    replica on another node that carries the label workload=batch, and
    no batch pod of namespace default is Running on the node any more.
    Every other pod object is as it was: the function lists namespace
    default only, so the pods of other namespaces, batch pods included,
    and the pods without the batch label stay Running on the deleted
    node. *)
Theorem reschedule_node_true (a : api) (na : node_api) (name : string)
    (w w' : world) :
  keyed (w_pods w) ->
  reschedule_node py_float py_int a na name w = (w', Returns true) ->
  w_nodes w'
  = List.filter (fun n => negb (String.eqb (n_name n) name)) (w_nodes w)
  /\ (forall k p, w_pods w !! k = Some p ->
        running_on name p && batch_pod p = true ->
        exists cand,
          In cand (w_nodes w) /\ n_name cand <> name
          /\ batch_labelled cand = true
          /\ w_pods w' !! replica_key p = Some (new_pod p (n_name cand)))
  /\ (forall k q, w_pods w' !! k = Some q ->
        pod_namespace q = "default" -> node_name q = Some name ->
        pod_phase q = Running -> batch_pod q = false)
  /\ (forall k q, w_pods w !! k = Some q ->
        running_on name q && batch_pod q = false ->
        w_pods w' !! k = Some q)
  /\ (forall k q, w_pods w !! k = Some q ->
        pod_namespace q <> "default" -> w_pods w' !! k = Some q).
Proof.
  intros Hkeyed. unfold reschedule_node.
  destruct (collect is_batch_pod _) as [L | |] eqn:HL; [| done | done].
  destruct (batch_pods_listed na name (w_pods w) L Hkeyed HL) as [Hnd HinL].
  destruct L as [| b bs]; [done |]. revert Hnd HinL.
  generalize (b :: bs). clear b bs HL. intros L Hnd HinL.
  destruct (collect (is_candidate name) _) as [cands | |] eqn:Hcands;
    [| done | done].
  apply (collect_filter
           (fun n => negb (String.eqb (n_name n) name) && batch_labelled n))
    in Hcands; [| exact (is_candidate_test name)].
  destruct cands as [| c cs]; [done |]. revert Hcands.
  generalize (c :: cs). clear c cs. intros cands Hcands.
  destruct (migrate_each py_float py_int a na cands L (w_pods w))
    as [st [[|] | |]] eqn:Heach; [| done | done | done].
  intros Hdep. apply deprovision_effect in Hdep as (Hpods & _ & Hnodes & _).
  simpl in Hpods, Hnodes. rewrite Hpods.
  apply migrate_each_effect in Heach
    as (L1 & L2 & HL & Hall & _ & Hrep & Hold & Hkeep);
    [| done | done | intros p Hp; by apply HinL].
  rewrite (Hall eq_refl), app_nil_r in HL. subst L1.
  assert (forall k q, w_pods w !! k = Some q ->
            running_on name q && batch_pod q = false -> st !! k = Some q)
    as Hothers.
  { intros k q Hq Hnot. destruct (Hkeep k q Hq) as [Hthere | Hin]; [done |].
    apply HinL in Hin as (Hb & Hr & _). by rewrite Hb, Hr in Hnot. }
  split; [by apply Hnodes |]. split; [| split; [| split]].
  - intros k p Hp [Hrun Hbatch]%andb_true_iff.
    assert (In p L) as Hin.
    { apply HinL. split; [done |]. split; [done |].
      by apply (keyed_lookup _ k). }
    destruct (Hrep p Hin) as (cand & Hcand & Hreplica).
    exists cand. rewrite Hcands in Hcand.
    apply filter_In in Hcand as [Hcand [Hname Hlabel]%andb_true_iff].
    split; [done |]. split; [| by split].
    intros Heq. rewrite Heq, String.eqb_refl in Hname. done.
  - intros k q Hq Hns Hnode Hphase.
    destruct (Hold k q Hq) as [[Hq0 Hnot] | Hpend]; [| congruence].
    destruct (batch_pod q) eqn:Hbatch; [| done]. exfalso. apply Hnot.
    apply HinL. split; [done |]. split; [| by apply (keyed_lookup _ k)].
    unfold running_on. rewrite Hns, Hnode, Hphase. simpl.
    by rewrite bool_decide_eq_true_2.
  - exact Hothers.
  - intros k q Hq Hns. apply Hothers; [done |].
    unfold running_on. apply String.eqb_neq in Hns. by rewrite Hns.
Qed.

(** X17. [reschedule_node] removes the node and asks for the deletion of
    the VM only when it answers True: after any other outcome, a raise
    included, the cluster has the nodes it had and no instance deletion
    has been requested. *)
Theorem reschedule_node_keeps_node (a : api) (na : node_api) (name : string)
    (w w' : world) (r : result bool) :
  reschedule_node py_float py_int a na name w = (w', r) ->
  r <> Returns true ->
  map n_name (w_nodes w') = map n_name (w_nodes w)
  /\ w_deleted_instances w' = w_deleted_instances w.
Proof.
  unfold reschedule_node.
  destruct (collect is_batch_pod _) as [[| b bs] | |];
    [by intros [= <- <-] | | by intros [= <- <-] | by intros [= <- <-]].
  destruct (collect (is_candidate name) _) as [[| c cs] | |];
    [by intros [= <- <-] | | by intros [= <- <-] | by intros [= <- <-]].
  destruct (migrate_each py_float py_int a na _ _ _) as [st [[|] | |]];
    [| by intros [= <- <-] | by intros [= <- <-] | by intros [= <- <-]].
  intros Hdep Hr. apply deprovision_effect in Hdep as (_ & _ & _ & Hkeep).
  exact (Hkeep Hr).
Qed.

(** X18. [reschedule_node] loses no pod, whatever its outcome, a raise
    or an aborted migration included: every pod object of the store is
    still there unchanged afterwards, or it was a batch pod Running on
    the node and its replica stands on another node labelled
    workload=batch. Migrations done before a failure are not rolled
    back. *)
Theorem reschedule_node_loses_no_pod (a : api) (na : node_api)
    (name : string) (w w' : world) (r : result bool) :
  keyed (w_pods w) ->
  reschedule_node py_float py_int a na name w = (w', r) ->
  forall k p, w_pods w !! k = Some p ->
    w_pods w' !! k = Some p
    \/ (running_on name p && batch_pod p = true
        /\ exists cand,
             In cand (w_nodes w) /\ n_name cand <> name
             /\ batch_labelled cand = true
             /\ w_pods w' !! replica_key p
                = Some (new_pod p (n_name cand))).
Proof.
  intros Hkeyed. unfold reschedule_node.
  destruct (collect is_batch_pod _) as [L | |] eqn:HL;
    [| intros [= <- <-]; by left ..].
  destruct (batch_pods_listed na name (w_pods w) L Hkeyed HL) as [Hnd HinL].
  destruct L as [| b bs]; [intros [= <- <-]; by left |]. revert Hnd HinL.
  generalize (b :: bs). clear b bs HL. intros L Hnd HinL.
  destruct (collect (is_candidate name) _) as [cands | |] eqn:Hcands;
    [| intros [= <- <-]; by left ..].
  apply (collect_filter
           (fun n => negb (String.eqb (n_name n) name) && batch_labelled n))
    in Hcands; [| exact (is_candidate_test name)].
  destruct cands as [| c cs]; [intros [= <- <-]; by left |]. revert Hcands.
  generalize (c :: cs). clear c cs. intros cands Hcands.
  destruct (migrate_each py_float py_int a na cands L (w_pods w))
    as [st r0] eqn:Heach.
  apply migrate_each_effect in Heach
    as (L1 & L2 & HL & _ & _ & Hrep & _ & Hkeep);
    [| done | done | intros p Hp; by apply HinL].
  intros Hout.
  assert (w_pods w' = st) as ->.
  { destruct r0 as [[|] | |]; [| by injection Hout as <- _ ..].
    by apply deprovision_effect in Hout as (-> & _). }
  clear Hout. intros k p Hp.
  destruct (Hkeep k p Hp) as [Hthere | Hin]; [by left |]. right.
  assert (In p L) as HpL by (subst L; apply in_or_app; by left).
  apply HinL in HpL as (Hbatch & Hrun & _).
  split; [by rewrite Hrun, Hbatch |].
  destruct (Hrep p Hin) as (cand & Hcand & Hreplica).
  exists cand. rewrite Hcands in Hcand.
  apply filter_In in Hcand as [Hcand [Hname Hlabel]%andb_true_iff].
  split; [done |]. split; [| by split].
  intros Heq. rewrite Heq, String.eqb_refl in Hname. done.
Qed.

Lemma collect_total {A} (c : A -> bool) (f : A -> result (option A))
    (l : list A) :
  Forall (fun x => f x = Returns (if c x then Some x else None)) l ->
  collect f l = Returns (List.filter c l).
Proof.
  induction 1 as [| x l Hx _ IH]; [done |]. simpl. rewrite Hx, IH. simpl.
  by destruct (c x).
Qed.

(** X19. A pass of [check_underutilized_nodes] over nodes that all have
    labels changes nothing and never reaches [reschedule_node]: with no
    node labelled workload=batch it returns, and otherwise it raises
    NameError at the first such node, where the utilization is asked for
    under a name that is bound nowhere. *)
Theorem check_underutilized_nodes_stops (a : api) (na : node_api)
    (UTILIZATION_THRESHOLD : Z) (w : world) :
  Forall (fun n => is_Some (n_labels n)) (w_nodes w) ->
  check_underutilized_nodes py_float py_int a na UTILIZATION_THRESHOLD w
  = (w, if existsb batch_labelled (w_nodes w)
        then Raises (Of NameError) else Returns tt).
Proof.
  intros Hlabels. unfold check_underutilized_nodes.
  rewrite (collect_total batch_labelled).
  - induction (w_nodes w) as [| n l IH]; [done |].
    apply Forall_cons in Hlabels as [_ Hl]. simpl.
    destruct (batch_labelled n); simpl; [done | by apply IH].
  - eapply Forall_impl; [exact Hlabels |]. simpl.
    intros n [labels Hn]. unfold is_batch_node, batch_labelled.
    by rewrite Hn.
Qed.

(** X20. The unit suffixes of the Cleaner's [parse_memory], which counts
    in MiB: for every text n that [int] reads as v, n followed by Ki is
    v / 1024, n followed by Mi is v and n followed by Gi is 1024 v; when
    [int] rejects n, as it does a decimal fraction, each of the three
    raises ValueError. *)
Theorem cleaner_memory_units (n : string) :
  let read (k : Z -> F) : result F :=
    match py_int n with
    | Some v => Returns (k v)
    | None => Raises (Of ValueError)
    end in
  parse_memory py_int (inr (n +:+ "Ki"))
  = read (fun v => fdiv (of_int v) (of_int 1024))
  /\ parse_memory py_int (inr (n +:+ "Mi")) = read of_int
  /\ parse_memory py_int (inr (n +:+ "Gi"))
     = read (fun v => of_int (v * 1024)).
Proof.
  intros read. subst read.
  pose proof (drop_last_append n "Ki") as HKi.
  pose proof (drop_last_append n "Mi") as HMi.
  pose proof (drop_last_append n "Gi") as HGi.
  change (String.length "Ki") with 2%nat in HKi.
  change (String.length "Mi") with 2%nat in HMi.
  change (String.length "Gi") with 2%nat in HGi.
  unfold parse_memory. split; [| split].
  - rewrite endswith_append, HKi. by destruct (py_int n).
  - rewrite (endswith_append_ne n "Mi" "Ki") by done.
    rewrite endswith_append, HMi. by destruct (py_int n).
  - rewrite (endswith_append_ne n "Gi" "Ki") by done.
    rewrite (endswith_append_ne n "Gi" "Mi") by done.
    rewrite endswith_append, HGi. by destruct (py_int n).
Qed.

(** X21. The Cleaner counts a CPU request of n whole cores as n / 1000:
    it divides by 1000 whether or not the quantity ends in m. The Packer
    and the Autoscaler count the same request as n. *)
Theorem cleaner_reads_cores_as_thousandths (p : pod) (c : container)
    (requests : gmap string string) (n : string) (x : F) :
  containers p = [c] ->
  c_resources c = Some (Some requests) ->
  requests !! "cpu" = Some n ->
  n <> "" ->
  contains "m" n = false ->
  py_float n = Some x ->
  cpu_requested py_float (containers p)
  = Returns (py_sum [fdiv x (of_int 1000)])
  /\ (TaskPacker.pod_requests py_float p).1 = x
  /\ Autoscaler.get_pod_cpu_request py_float p = x.
Proof.
  intros Hp Hc Hcpu Hne Hm Hx. split; [| split].
  - rewrite Hp. unfold cpu_requested, cpu_term, requested. simpl.
    rewrite Hc, Hcpu. apply String.eqb_neq in Hne. rewrite Hne. simpl.
    assert (remove_all "m" n = n) as ->.
    { clear Hx Hne Hcpu. unfold remove_all.
      induction n as [| ch s IH]; [done |].
      cbn [contains] in Hm. apply orb_false_iff in Hm as [Hpre Hm].
      cbn [remove_go]. rewrite Hpre. by rewrite (IH Hm). }
    by rewrite Hx.
  - unfold TaskPacker.pod_requests. rewrite Hp, Hc. simpl.
    unfold dict_get. rewrite Hcpu. unfold TaskPacker.parse_cpu.
    by rewrite (not_contains_not_endswith n "m" Hm), Hx.
  - unfold Autoscaler.get_pod_cpu_request, Autoscaler.first_requests.
    rewrite Hp, Hc. unfold dict_get. by rewrite Hcpu, Hm, Hx.
Qed.

End Nodes.
End CleanerFacts.

(** ** The further properties at the example data *)

Lemma trigger_autoscaling_idempotent_witness :
  let name := TaskPacker.request_name 1700000000 "batch" in
  let st1 :=
    TaskPacker.trigger_autoscaling Scenario.same_second 1700000000 "batch"
      [Scenario.job_a] Scenario.no_objects in
  TaskPacker.create_accepted Scenario.same_second
    (map pod_name [Scenario.job_a]) name = true
  /\ is_Some (TaskPacker.autoscalerequests st1 !! name)
  /\ (TaskPacker.autoscalerequests Scenario.no_objects !! name = None ->
      TaskPacker.autoscalerequests st1 !! name
      = Some (AutoScaleRequest name (Some "batch")
                               (Some (map pod_name [Scenario.job_a]))))
  /\ TaskPacker.trigger_autoscaling Scenario.bind_refused 1700000000 "batch"
       [Scenario.job_b] st1
     = st1.
Proof.
  intros name st1. split; [reflexivity |].
  exact (PackerCycleMore.trigger_autoscaling_idempotent Scenario.same_second
           Scenario.bind_refused 1700000000 "batch" [Scenario.job_a]
           [Scenario.job_b] Scenario.no_objects eq_refl).
Defined.

Lemma time_bin_bfd_finds_any_fit_witness :
  let p := Scenario.batch_task in
  let nodes := [Scenario.n1; Scenario.n2; Scenario.n3] in
  300 <> 0
  /\ Forall batch_named nodes
  /\ (let c := (TaskPacker.pod_requests decimal_float p).1 in
      let m := (TaskPacker.pod_requests decimal_float p).2 in
      (TaskPacker.time_bin_bfd decimal_float decimal_int p nodes 300
       = Done None
       /\ forall n, In n nodes -> TaskPacker.fits c m n = false)
      \/ (exists name n,
            TaskPacker.time_bin_bfd decimal_float decimal_int p nodes 300
            = Done (Some name)
            /\ In n nodes /\ instanceName n = Some name
            /\ TaskPacker.fits c m n = true)).
Proof.
  intros p nodes.
  assert (300 <> 0) as HS by lia.
  assert (Forall (batch_named (F := Q)) nodes) as Hb.
  { repeat constructor; eexists; (split; [reflexivity | vm_compute; reflexivity]). }
  split; [exact HS |]. split; [exact Hb |].
  exact (PackerMore.time_bin_bfd_finds_any_fit
           decimal_float decimal_int p nodes 300 HS Hb).
Defined.

Lemma greedy_selects_from_catalog_witness :
  let micro := Autoscaler.e2_micro (F := Q) in
  let selected := [micro; micro; micro; micro] in
  Autoscaler.greedy_loop 5 4%Q 16%Q Autoscaler.VM_FLAVORS = Done selected
  /\ Forall (fun b => In b Autoscaler.VM_FLAVORS) selected.
Proof.
  intros micro selected.
  assert (Autoscaler.greedy_loop 5 4%Q 16%Q Autoscaler.VM_FLAVORS
          = Done selected) as Hrun by (vm_compute; reflexivity).
  split; [exact Hrun |].
  exact (AutoscalerMore.greedy_selects_from_catalog 5 4%Q 16%Q
           Autoscaler.VM_FLAVORS selected Hrun).
Defined.

Lemma greedy_raises_on_degenerate_flavor_witness :
  let fls1 := [Autoscaler.e2_micro (F := Q)] in
  Forall scorable fls1
  /\ fzero (Autoscaler.fl_cpu Scenario.free_tier)
     || fzero (Autoscaler.fl_memory Scenario.free_tier)
     || fzero (Autoscaler.fl_price Scenario.free_tier) = true
  /\ (4%Q >? of_int 0)%py || (16%Q >? of_int 0)%py = true
  /\ Autoscaler.greedy_loop 1 4%Q 16%Q (fls1 ++ Scenario.free_tier :: [])
     = Raised ZeroDivisionError.
Proof.
  intros fls1.
  assert (Forall scorable fls1) as Hs by (by repeat constructor).
  split; [exact Hs |]. split; [reflexivity |]. split; [reflexivity |].
  exact (AutoscalerMore.greedy_raises_on_degenerate_flavor 0 4%Q 16%Q
           fls1 [] Scenario.free_tier Hs eq_refl eq_refl).
Defined.

Lemma greedy_prefers_micro_witness :
  (0 <= 4)%Q /\ (0 <= 16)%Q /\ (0 < 4 \/ 0 < 16)%Q
  /\ Autoscaler.scan_flavors 4%Q 16%Q Autoscaler.VM_FLAVORS None (of_int (-1))
     = Done (Some Autoscaler.e2_micro).
Proof.
  assert (0 <= 4)%Q as Hc by done.
  assert (0 <= 16)%Q as Hm by done.
  assert (0 < 4 \/ 0 < 16)%Q as Hpos by (by left).
  split; [exact Hc |]. split; [exact Hm |]. split; [exact Hpos |].
  exact (AutoscalerExact.greedy_prefers_micro 4 16 Hc Hm Hpos).
Defined.

Lemma greedy_picks_bounded_by_cpu_witness :
  let micro := Autoscaler.e2_micro (F := Q) in
  let selected := [micro; micro; micro; micro] in
  (4 + 4 <= inject_Z (2 * Z.of_nat 4))%Q
  /\ Autoscaler.greedy_loop 5 4%Q 16%Q Autoscaler.VM_FLAVORS = Done selected
  /\ (length selected <= 4)%nat.
Proof.
  intros micro selected.
  assert (4 + 4 <= inject_Z (2 * Z.of_nat 4))%Q as Hk by done.
  assert (Autoscaler.greedy_loop 5 4%Q 16%Q Autoscaler.VM_FLAVORS
          = Done selected) as Hrun by (vm_compute; reflexivity).
  split; [exact Hk |]. split; [exact Hrun |].
  exact (AutoscalerExact.greedy_picks_bounded_by_cpu 4 5 4 16 selected
           Hk Hrun).
Defined.

Lemma autoscale_loop_only_deletes_witness :
  let st := Scenario.scaling_cluster in
  let st' :=
    match Autoscaler.autoscale_loop decimal_float 10 Scenario.all_accepted st
    with
    | Done s => s
    | _ => st
    end in
  Autoscaler.autoscale_loop decimal_float 10 Scenario.all_accepted st
  = Done st'
  /\ Autoscaler.pods st' = Autoscaler.pods st
  /\ Autoscaler.nodeprofiles st' = Autoscaler.nodeprofiles st
  /\ Autoscaler.node_pools st' = Autoscaler.node_pools st
  /\ Autoscaler.pool_sizes st' = Autoscaler.pool_sizes st
  /\ forall k r, Autoscaler.autoscalerequests st' !! k = Some r ->
                 Autoscaler.autoscalerequests st !! k = Some r.
Proof.
  intros st st'.
  assert (Autoscaler.autoscale_loop decimal_float 10 Scenario.all_accepted st
          = Done st') as Hrun by (vm_compute; reflexivity).
  split; [exact Hrun |].
  exact (AutoscalerPassMore.autoscale_loop_only_deletes decimal_float
           Scenario.all_accepted st st' 10 Hrun).
Defined.

Lemma autoscaler_reads_as_packer_witness :
  let p := Scenario.batch_task in
  let requests := Scenario.requests_of "500m" "1Gi" in
  Autoscaler.first_requests p = Some requests
  /\ contains "m" "500" = false
  /\ lower "1" = "1"
  /\ (dict_get requests "cpu" "0" = "500"
      \/ dict_get requests "cpu" "0" = "500" +:+ "m")
  /\ (dict_get requests "memory" "0" = "1" +:+ "Mi"
      \/ dict_get requests "memory" "0" = "1" +:+ "Gi"
      \/ (dict_get requests "memory" "0" = "1"
          /\ endswith "1" "mi" = false /\ endswith "1" "gi" = false))
  /\ (Autoscaler.get_pod_cpu_request decimal_float p,
      Autoscaler.get_pod_memory_request decimal_float p)
     = TaskPacker.pod_requests decimal_float p.
Proof.
  intros p requests.
  assert (dict_get requests "cpu" "0" = "500"
          \/ dict_get requests "cpu" "0" = "500" +:+ "m") as Hcpu
    by (right; vm_compute; reflexivity).
  assert (dict_get requests "memory" "0" = "1" +:+ "Mi"
          \/ dict_get requests "memory" "0" = "1" +:+ "Gi"
          \/ (dict_get requests "memory" "0" = "1"
              /\ endswith "1" "mi" = false /\ endswith "1" "gi" = false))
    as Hmem by (right; left; vm_compute; reflexivity).
  split; [reflexivity |]. split; [reflexivity |]. split; [reflexivity |].
  split; [exact Hcpu |]. split; [exact Hmem |].
  exact (UnitsAgreement.autoscaler_reads_as_packer decimal_float p requests
           "500" "1" eq_refl eq_refl eq_refl Hcpu Hmem).
Defined.

Lemma draining_keyed : keyed (InstanceCleaner.w_pods Scenario.draining).
Proof.
  apply map_Forall_insert_2; [done |].
  apply map_Forall_insert_2; [done |]. apply map_Forall_empty.
Defined.

Lemma reschedule_node_true_witness :
  let w := Scenario.draining in
  let w' :=
    (InstanceCleaner.reschedule_node decimal_float decimal_int
       Scenario.calls_accepted Scenario.nodes_accepted "bn-1" w).1 in
  keyed (InstanceCleaner.w_pods w)
  /\ InstanceCleaner.reschedule_node decimal_float decimal_int
       Scenario.calls_accepted Scenario.nodes_accepted "bn-1" w
     = (w', InstanceCleaner.Returns true)
  /\ InstanceCleaner.w_nodes w'
     = List.filter
         (fun n => negb (String.eqb (InstanceCleaner.n_name n) "bn-1"))
         (InstanceCleaner.w_nodes w)
  /\ (forall k p, InstanceCleaner.w_pods w !! k = Some p ->
        InstanceCleaner.running_on "bn-1" p && batch_pod p = true ->
        exists cand,
          In cand (InstanceCleaner.w_nodes w)
          /\ InstanceCleaner.n_name cand <> "bn-1"
          /\ batch_labelled cand = true
          /\ InstanceCleaner.w_pods w' !! replica_key p
             = Some (InstanceCleaner.new_pod p (InstanceCleaner.n_name cand)))
  /\ (forall k q, InstanceCleaner.w_pods w' !! k = Some q ->
        pod_namespace q = "default" -> node_name q = Some "bn-1" ->
        pod_phase q = Running -> batch_pod q = false)
  /\ (forall k q, InstanceCleaner.w_pods w !! k = Some q ->
        InstanceCleaner.running_on "bn-1" q && batch_pod q = false ->
        InstanceCleaner.w_pods w' !! k = Some q)
  /\ (forall k q, InstanceCleaner.w_pods w !! k = Some q ->
        pod_namespace q <> "default" ->
        InstanceCleaner.w_pods w' !! k = Some q).
Proof.
  intros w w'.
  assert (InstanceCleaner.reschedule_node decimal_float decimal_int
            Scenario.calls_accepted Scenario.nodes_accepted "bn-1" w
          = (w', InstanceCleaner.Returns true)) as Hrun
    by (vm_compute; reflexivity).
  split; [exact draining_keyed |]. split; [exact Hrun |].
  exact (CleanerFacts.reschedule_node_true decimal_float decimal_int
           Scenario.calls_accepted Scenario.nodes_accepted "bn-1" w w'
           draining_keyed Hrun).
Defined.

Lemma reschedule_node_keeps_node_witness :
  let w := Scenario.draining in
  let w' :=
    (InstanceCleaner.reschedule_node decimal_float decimal_int
       Scenario.restore_fails Scenario.nodes_accepted "bn-1" w).1 in
  InstanceCleaner.reschedule_node decimal_float decimal_int
    Scenario.restore_fails Scenario.nodes_accepted "bn-1" w
  = (w', InstanceCleaner.Returns false)
  /\ InstanceCleaner.Returns false <> InstanceCleaner.Returns true
  /\ map InstanceCleaner.n_name (InstanceCleaner.w_nodes w')
     = map InstanceCleaner.n_name (InstanceCleaner.w_nodes w)
  /\ InstanceCleaner.w_deleted_instances w'
     = InstanceCleaner.w_deleted_instances w.
Proof.
  intros w w'.
  assert (InstanceCleaner.reschedule_node decimal_float decimal_int
            Scenario.restore_fails Scenario.nodes_accepted "bn-1" w
          = (w', InstanceCleaner.Returns false)) as Hrun
    by (vm_compute; reflexivity).
  assert (InstanceCleaner.Returns false <> InstanceCleaner.Returns true)
    as Hne by discriminate.
  split; [exact Hrun |]. split; [exact Hne |].
  exact (CleanerFacts.reschedule_node_keeps_node decimal_float decimal_int
           Scenario.restore_fails Scenario.nodes_accepted "bn-1" w w'
           (InstanceCleaner.Returns false) Hrun Hne).
Defined.

Lemma reschedule_node_loses_no_pod_witness :
  let w := Scenario.draining in
  let out :=
    InstanceCleaner.reschedule_node decimal_float decimal_int
      Scenario.restore_fails Scenario.nodes_accepted "bn-1" w in
  keyed (InstanceCleaner.w_pods w)
  /\ InstanceCleaner.reschedule_node decimal_float decimal_int
       Scenario.restore_fails Scenario.nodes_accepted "bn-1" w
     = (out.1, out.2)
  /\ forall k p, InstanceCleaner.w_pods w !! k = Some p ->
       InstanceCleaner.w_pods out.1 !! k = Some p
       \/ (InstanceCleaner.running_on "bn-1" p && batch_pod p = true
           /\ exists cand,
                In cand (InstanceCleaner.w_nodes w)
                /\ InstanceCleaner.n_name cand <> "bn-1"
                /\ batch_labelled cand = true
                /\ InstanceCleaner.w_pods out.1 !! replica_key p
                   = Some (InstanceCleaner.new_pod p
                             (InstanceCleaner.n_name cand))).
Proof.
  intros w out.
  assert (InstanceCleaner.reschedule_node decimal_float decimal_int
            Scenario.restore_fails Scenario.nodes_accepted "bn-1" w
          = (out.1, out.2)) as Hrun by (vm_compute; reflexivity).
  split; [exact draining_keyed |]. split; [exact Hrun |].
  exact (CleanerFacts.reschedule_node_loses_no_pod decimal_float decimal_int
           Scenario.restore_fails Scenario.nodes_accepted "bn-1" w out.1
           out.2 draining_keyed Hrun).
Defined.

Lemma check_underutilized_nodes_stops_witness :
  let w := Scenario.draining in
  Forall (fun n => is_Some (InstanceCleaner.n_labels n))
         (InstanceCleaner.w_nodes w)
  /\ InstanceCleaner.check_underutilized_nodes decimal_float decimal_int
       Scenario.calls_accepted Scenario.nodes_accepted 50 w
     = (w, if existsb batch_labelled (InstanceCleaner.w_nodes w)
           then InstanceCleaner.Raises (InstanceCleaner.Of NameError)
           else InstanceCleaner.Returns tt).
Proof.
  intros w.
  assert (Forall (fun n => is_Some (InstanceCleaner.n_labels n))
                 (InstanceCleaner.w_nodes w)) as Hl
    by (repeat constructor; by eexists).
  split; [exact Hl |].
  exact (CleanerFacts.check_underutilized_nodes_stops decimal_float
           decimal_int Scenario.calls_accepted Scenario.nodes_accepted 50 w
           Hl).
Defined.

Lemma cleaner_reads_cores_as_thousandths_witness :
  let p := Scenario.task "job" "batch" "900" "4" "16" in
  let requests := Scenario.requests_of "4" "16" in
  let c := Container "main" (Some (Some requests)) in
  containers p = [c]
  /\ c_resources c = Some (Some requests)
  /\ requests !! "cpu" = Some "4"
  /\ "4" <> ""
  /\ contains "m" "4" = false
  /\ decimal_float "4" = Some 4%Q
  /\ InstanceCleaner.cpu_requested decimal_float (containers p)
     = InstanceCleaner.Returns (py_sum [fdiv 4%Q (of_int 1000)])
  /\ (TaskPacker.pod_requests decimal_float p).1 = 4%Q
  /\ Autoscaler.get_pod_cpu_request decimal_float p = 4%Q.
Proof.
  intros p requests c.
  assert (requests !! "cpu" = Some "4") as Hcpu by (vm_compute; reflexivity).
  assert ("4" <> "") as Hne by discriminate.
  split; [reflexivity |]. split; [reflexivity |]. split; [exact Hcpu |].
  split; [exact Hne |]. split; [reflexivity |]. split; [reflexivity |].
  exact (CleanerFacts.cleaner_reads_cores_as_thousandths decimal_float p c
           requests "4" 4%Q eq_refl eq_refl Hcpu Hne eq_refl eq_refl).
Defined.
